(* ===== verification/_CoqProject ===== *)
-Q . S2P
Prelude.v
GoStrconv.v
Config.v
Model.v
Uuid.v
Sql.v
SqlText.v
SqlFuel.v
Store.v
Handler.v
MockStore.v
StoreSim.v
Router.v
Process.v
