(* ===== verification/Prelude.v ===== *)
(** * Verification of nearbygems/subscription_service

    The program is a small Go HTTP service that stores subscription
    records in PostgreSQL.  Its parts, leaf first, and how they interact:

    - [src/internal/model/subscription.go]: the [Subscription] struct;
    - [src/internal/store/pg.go]: the [Store] interface (six operations)
      and [PostgresStore], which turns each operation into one SQL
      statement (text plus positional arguments [$1], [$2], ...) and
      scans the rows the database returns;
    - [src/internal/handler/handler.go]: one HTTP handler per operation,
      which parses the request (path id with [uuid.Parse], query
      parameters with [strconv.Atoi]), calls the store through the
      interface and writes a status code and a body;
    - [src/internal/handler/handler_test.go]: [mockStore], a second
      implementation of the interface on a Go map;
    - [src/cmd/server/main.go]: the process: it formats the connection
      string from the configuration, opens and pings the pool, builds
      the store, the handlers and a go-chi router (a logging middleware,
      the sub-router on [/subscriptions], [/swagger]), serves in a
      goroutine and shuts down on the interrupt.

    Files of the development, in dependency order:

    - [Prelude] (this file): Go's [(T, error)] results as [res], the Go
      error values the program produces and their texts
      ([strconv.Quote] included), the bind notation of scope
      [svc_scope], 64-bit [int] bounds, the hint database [svc] and the
      list, string and integer lemmas shared below.
    - [GoStrconv]: [strconv.Atoi] (through [ParseInt]/[ParseUint], with
      their 64-bit clamping) and the decimal formatting of [fmt]'s [%d];
      library code the sources call, modelled from its documented
      behaviour.
    - [Config]: the [Config] record (internal/config is not among the
      sources: modelled from the fields main.go reads), the connection
      string [dsn] of main.go lines 27-28, and lib/pq's [parseOpts]
      that reads it back, as a character state machine.
    - [Model]: [Subscription] as a Record (subscription.go), [uuid.UUID]
      as a 128-bit [Z], and the field-by-field effect of decoding a JSON
      body into a zero [Subscription] ([decode_into]).
    - [Uuid]: [uuid.Parse] of google/uuid (library code), the four
      accepted text forms, hex digit by digit, and [UUID.String], with
      the round trip between them.
    - [Sql]: the fragment of PostgreSQL the queries use: values with
      NULL, three-valued comparison and connectives, the statements
      (select with where/order/limit/offset, the null-safe sum,
      insert, update, delete) and their evaluation on a table whose
      primary key is [id] ([exec]).
    - [SqlText]: the text side of the database: a lexer and a
      recursive-descent parser for the statement texts the store
      builds, and [db_run], which parses a text and executes it with
      its positional arguments; [$0] and a parameter beyond the
      arguments are errors, as in PostgreSQL.
    - [SqlFuel]: the parser's fuel is never the reason it fails.
    - [Store]: the [Store] interface as a typeclass; [PostgresStore]
      (module of the same name) with its query texts and builders
      written as in pg.go and run through [db_run]; the scanning of rows
      into records and of the sum into a Go [int]; the contracts of
      [List] and [Summary] and the refinement theorems; the behaviour of
      the four write/read methods; the reachable states of the store
      (operations, clock ticks, outages) and their invariant.
    - [Handler]: requests and responses, the six handlers of
      handler.go (module [handler]) written against the interface, so
      that the status-code theorems hold for any store instance, and
      the end-to-end theorems on the Postgres instance.
    - [MockStore]: [mockStore] of handler_test.go on a [gmap], and the
      three tests of that file as theorems.
    - [StoreSim]: a simulation between [mockStore] and [PostgresStore]
      (equal up to [created_at]), the handlers agreeing on related
      states, and where the double departs from the real store.
    - [Router]: the route tables of main.go on chi's route search, the
      mount of the sub-router, and [ServeHTTP], which dispatches a
      method and a path to a handler of [Handler].
    - [Process]: [main] as a step relation of its goroutines over a
      world that decides [sql.Open], the database, the listener and
      [Shutdown]; accepted requests are in flight until their handler
      has run [ServeHTTP] on the Postgres store and written its
      response, and [Shutdown] drains them or times out.

    Theorems, by group: the query builders produce placeholders
    numbered [$1..$n] in the order of the arguments and never embed an
    argument value in the text, the WHERE composition equals a join of
    the clauses, and the statement the database parses from the text
    of [List] is the one intended, each placeholder bound to its
    value; [List] returns the matching records sorted by [created_at]
    descending, windowed by [offset] and [limit]; [Summary] sums the
    matching prices, returns [0] on no match, and rejects (instead of
    wrapping) a total beyond 64 bits; [Update] replaces the mutable
    fields and never changes an id or a [created_at]; [Get] after
    [Delete] fails with [sql.ErrNoRows]; each handler answers with the
    status the code writes on each branch, including the divergences
    from the spec (every [Get] error is a 404, a negative [limit] is a
    500, an overflowing [limit] is clamped rather than defaulted, an
    empty Postgres listing is [null], periods compare as [MM-YYYY]
    text, month first); [List] returns a result cut short by a driver
    error as a success; the mock simulates the Postgres store and the
    handlers agree on both; the router sends each method and path to
    the handler main.go binds (405 for [PUT] and [DELETE] on the
    collection), every response has a status of the spec's interface
    table, and the spec's example runs over HTTP; the connection string
    reads back as formatted when the settings are plain, and loses
    [dbname] on an empty password; once [Shutdown] is called the
    process terminates, with status 0 and the pool closed only when
    every request in flight was answered and [Shutdown] succeeded;
    every run keeps the process invariant; a connection string lib/pq
    rejects stops the process before serving; and a run without a
    signal is finite exactly when a start-up call fails.

    Bounds and fuel: Go [int] is 64-bit (the server target), so [int]
    values are [Z] restricted to [[-2^63, 2^63)] and [Atoi]'s clamping
    is written out.  The program's own loops are over finite lists and
    strings and are modelled by structural recursion.  Two library
    routines take fuel: the decimal printer ([fmt_loop], 20 digits,
    enough for any 64-bit value, proved by [fmt_loop_spec]) and the SQL
    parser ([4 * length + 4] steps on a token list; each step consumes
    a token or descends into a subterm that does, so [SqlFuel] proves
    more fuel changes no result).  The process is not a terminating
    function: its runs are the paths of [Process.step], and finiteness
    is the inductive [Process.halts], proved by ranks.

    Not modelled: [godotenv.Load], [config.Load]'s reading of the
    environment and the logger's format (no state the program observes);
    the JSON codec (a request body is modelled by the value its
    decoding yields, the response by a JSON tree); the interleaving
    inside a handler's computation (each handler runs one statement,
    which the database executes atomically, and writes its response in
    a later step);
    the timing of [Shutdown]'s 5 second context (its expiry is a step
    that may happen while requests are in flight); the logging of the
    handlers' errors ([h.log.Error]), which no caller observes; a
    driver error in the middle of a result, which the database model
    does not produce (the [List] loop is shown to ignore it);
    chi's byte-level radix tree (routes are matched by path segment,
    which gives the same result on main.go's patterns); the file served
    at [/swagger].  The table's schema is not in the repository: the
    database model assumes a primary key on [id] and a [bigint] price
    column, so the uniqueness of ids is a fact of the schema, not of
    the store's code ([Store.reachable_wf]).  Error texts render a
    driver error with lib/pq's ["pq: "] prefix, which a connection
    failure (a plain network error) would not carry. *)

From stdpp Require Export base list strings sorting.
From Stdlib Require Export ZArith.
From Stdlib Require Import Ascii.

Declare Scope svc_scope.
Delimit Scope svc_scope with svc.
Open Scope Z_scope.

(** String concatenation, Go's [+] on strings. *)
Notation "s1 +:+ s2" := (String.append s1 s2)
  (at level 60, right associativity) : svc_scope.
Open Scope svc_scope.

(** ** [strconv.Quote]

    The quoted form Go's [%q] and [strconv.Quote] give a text: the
    bytes between double quotes, with the quote and the backslash
    escaped, the seven control characters that have a letter escape
    written with it, and every other ASCII control byte as [\xHH].
    Bytes at or above [0x80] are kept as they are, which is Go's output
    on printable UTF-8 text; Go escapes invalid UTF-8 and non-printable
    runes, which this model does not decode. *)
Definition hex_digit (n : nat) : ascii :=
  nth n (String.list_ascii_of_string "0123456789abcdef") "0"%char.

Definition quote_char (c : ascii) : list ascii :=
  let n := nat_of_ascii c in
  if decide (c = "034"%char) then ["092"; "034"]%char
  else if decide (c = "092"%char) then ["092"; "092"]%char
  else if (n =? 7)%nat then ["092"; "a"]%char
  else if (n =? 8)%nat then ["092"; "b"]%char
  else if (n =? 12)%nat then ["092"; "f"]%char
  else if (n =? 10)%nat then ["092"; "n"]%char
  else if (n =? 13)%nat then ["092"; "r"]%char
  else if (n =? 9)%nat then ["092"; "t"]%char
  else if (n =? 11)%nat then ["092"; "v"]%char
  else if (n <? 32)%nat || (n =? 127)%nat then ["092"; "x"; hex_digit (Nat.div n 16); hex_digit (Nat.modulo n 16)]%char
  else [c].

Definition go_quote (s : string) : string :=
  String.string_of_list_ascii ("034"%char :: flat_map quote_char (String.list_ascii_of_string s) ++ ["034"%char]).

(** ** Go errors

    The error values that reach a caller in this program.  [Error]
    gives the text that [err.Error()] returns, which the handlers copy
    into the HTTP body. *)
Inductive go_error :=
  | ErrNoRows                    (** [database/sql.ErrNoRows] *)
  | ErrDriver (msg : string)     (** a [*pq.Error] or a connection failure *)
  | ErrScan (msg : string)       (** a conversion error of [Rows.Scan] *)
  | ErrNotFound                  (** [ErrNotFound] of handler_test.go *)
  | ErrNumSyntax (input : string)  (** [strconv.ErrSyntax] *)
  | ErrNumRange (input : string)  (** [strconv.ErrRange] *)
  | ErrJSON (msg : string)        (** an error of [json.Decoder.Decode] *)
  | ErrText (msg : string).       (** an [errors.New] or [fmt.Errorf] value *)

#[export] Instance go_error_eq_dec : EqDecision go_error.
Proof. solve_decision. Defined.

Definition Error (e : go_error) : string :=
  match e with
  | ErrNoRows => "sql: no rows in result set"
  | ErrDriver msg => "pq: " +:+ msg
  | ErrScan msg => msg
  | ErrNotFound => "not found"
  | ErrNumSyntax s => "strconv.Atoi: parsing " +:+ go_quote s +:+ ": invalid syntax"
  | ErrNumRange s => "strconv.Atoi: parsing " +:+ go_quote s +:+ ": value out of range"
  | ErrJSON msg => msg
  | ErrText msg => msg
  end.

(** ** Results

    A Go function returning [(T, error)] whose [T] is meaningless when
    the error is not [nil] is modelled as a [res T]. *)
Inductive res (A : Type) :=
  | Ok (a : A)
  | Err (e : go_error).
Arguments Ok {A} a.
Arguments Err {A} e.

Definition res_bind {A B} (m : res A) (k : A -> res B) : res B :=
  match m with
  | Ok a => k a
  | Err e => Err e
  end.

Definition res_map {A B} (f : A -> B) (m : res A) : res B :=
  res_bind m (fun a => Ok (f a)).

Notation "x <- m ;; k" := (res_bind m (fun x => k))
  (at level 100, m at next level, right associativity) : svc_scope.

Definition is_ok {A} (m : res A) : bool :=
  match m with Ok _ => true | Err _ => false end.

Lemma res_bind_Ok {A B} (a : A) (k : A -> res B) : res_bind (Ok a) k = k a.
Proof. reflexivity. Qed.

Lemma res_bind_Err {A B} (e : go_error) (k : A -> res B) :
  res_bind (Err e) k = Err e.
Proof. reflexivity. Qed.

Lemma res_bind_Ok_inv {A B} (m : res A) (k : A -> res B) (b : B) :
  res_bind m k = Ok b -> exists a, m = Ok a /\ k a = Ok b.
Proof. destruct m; simpl; [eauto | discriminate]. Qed.

(** ** Go [int]

    The server is built for a 64-bit target, so [int] is [int64]. *)
Definition int_min : Z := - 2 ^ 63.
Definition int_max : Z := 2 ^ 63 - 1.

Definition in_int (z : Z) : bool := (int_min <=? z) && (z <=? int_max).

Lemma in_int_spec (z : Z) : in_int z = true <-> int_min <= z <= int_max.
Proof. unfold in_int. rewrite andb_true_iff, !Z.leb_le. tauto. Qed.

(** ** Shared list lemmas *)

(** [LIMIT l OFFSET o]: at most [l] rows survive. *)
Lemma length_take_drop_le {A} (l o : nat) (xs : list A) :
  (length (take l (drop o xs)) <= l)%nat.
Proof. rewrite length_take. lia. Qed.

(** A filter that keeps every element. *)
Lemma filter_all {A} (P : A -> Prop) `{!forall x, Decision (P x)} (l : list A) :
  (forall x, x ∈ l -> P x) -> filter P l = l.
Proof.
  intros HP. induction l as [|x l IH]; [done|].
  rewrite filter_cons, decide_True by (apply HP; by left).
  rewrite IH; [done|]. intros y Hy. apply HP. by right.
Qed.

(** Sortedness for a relation entails sortedness for a weaker one. *)
Lemma Sorted_weaken {A} (R R' : relation A) (l : list A) :
  (forall a b, R a b -> R' a b) -> Sorted R l -> Sorted R' l.
Proof.
  intros HR HS. induction HS as [|x l HS IH Hd]; constructor; [done|].
  destruct Hd; constructor; auto.
Qed.

(** A filter that keeps no element. *)
Lemma filter_all_false {A} (P : A -> Prop) `{!forall x, Decision (P x)} (l : list A) :
  (forall x, x ∈ l -> ~ P x) -> filter P l = [].
Proof.
  intros HP. induction l as [|x l IH]; [done|].
  rewrite filter_cons, decide_False by (apply HP; by left).
  apply IH. intros y Hy. apply HP. by right.
Qed.

(** The first element a filter keeps satisfies the predicate. *)
Lemma filter_head {A} (P : A -> Prop) `{!forall x, Decision (P x)} (l t : list A) (x : A) :
  filter P l = x :: t -> P x.
Proof.
  induction l as [|y l IH]; [done|]. rewrite filter_cons.
  case_decide; [intros [= -> _]; done | exact IH].
Qed.

Lemma elem_of_map_2 {A B} (f : A -> B) (x : A) (l : list A) : x ∈ l -> f x ∈ map f l.
Proof.
  induction l as [|y l IH]; [by intros ?%not_elem_of_nil|].
  simpl. rewrite !elem_of_cons. intros [->|H]; auto.
Qed.

(** Keys stay distinct in a filtered list. *)
Lemma NoDup_map_filter {A B} (f : A -> B) (P : A -> Prop) `{!forall x, Decision (P x)}
    (l : list A) :
  NoDup (map f l) -> NoDup (map f (filter P l)).
Proof.
  induction l as [|x l IH]; intros Hnd; [done|]. simpl in Hnd.
  apply NoDup_cons in Hnd as [Hx Hnd]. rewrite filter_cons. case_decide; [|auto].
  simpl. constructor; [|auto]. rewrite list_elem_of_In in Hx |- *. intros Hin. apply Hx.
  apply in_map_iff in Hin as (y & Hy & Hin). apply in_map_iff. exists y. split; [done|].
  apply list_elem_of_In in Hin. apply list_elem_of_filter in Hin as [_ Hin].
  by apply list_elem_of_In.
Qed.

(** Filtering commutes with a map that does not change the filtered property. *)
Lemma filter_map_invariant {A} (g : A -> A) (P : A -> Prop) `{!forall x, Decision (P x)}
    (l : list A) :
  (forall x, P (g x) <-> P x) -> filter P (map g l) = map g (filter P l).
Proof.
  intros Hg. induction l as [|x l IH]; [done|]. simpl. rewrite !filter_cons.
  destruct (decide (P x)) as [Hx|Hx]; [rewrite decide_True by (by apply Hg) | rewrite decide_False by (by rewrite Hg)];
    simpl; by rewrite IH.
Qed.

(** The sum of a list of [Z], as [sum(price)] computes it. *)
Definition sum_Z (xs : list Z) : Z := foldr Z.add 0 xs.

Lemma sum_Z_app (xs ys : list Z) : sum_Z (xs ++ ys) = sum_Z xs + sum_Z ys.
Proof. unfold sum_Z. induction xs; simpl; lia. Qed.

(** The sum does not depend on the order of the rows. *)
#[export] Instance sum_Z_perm : Proper ((≡ₚ) ==> (=)) sum_Z.
Proof.
  intros xs ys Hp. unfold sum_Z. induction Hp; simpl; lia.
Qed.

Create HintDb svc discriminated.
Create Rewrite HintDb svc.
#[export] Hint Rewrite @res_bind_Ok @res_bind_Err sum_Z_app : svc.
#[export] Hint Resolve length_take_drop_le : svc.

(** Unfold a [res] pipeline: rewrite the binds and split on the
    scrutinee of the first pending bind. *)
Ltac res_simpl :=
  repeat (autorewrite with svc in *; simpl in * );
  repeat match goal with
  | |- context [res_bind ?m _] =>
      lazymatch m with Ok _ => fail | Err _ => fail | _ => destruct m eqn:? end;
      autorewrite with svc in *; simpl in *
  end.

(** Go's string concatenation is concatenation of the bytes. *)
Lemma list_ascii_of_string_append (s1 s2 : string) :
  String.list_ascii_of_string (s1 +:+ s2)
  = String.list_ascii_of_string s1 ++ String.list_ascii_of_string s2.
Proof. induction s1 as [|c s1 IH]; simpl; [done | by rewrite IH]. Qed.
#[export] Hint Rewrite list_ascii_of_string_append : svc.

Lemma string_app_assoc (s1 s2 s3 : string) : (s1 +:+ s2) +:+ s3 = s1 +:+ (s2 +:+ s3).
Proof.
  induction s1 as [|c s1 IH]; [reflexivity|].
  change (String c ((s1 +:+ s2) +:+ s3) = String c (s1 +:+ (s2 +:+ s3))). by rewrite IH.
Qed.

Lemma string_app_nil_r (s : string) : s +:+ EmptyString = s.
Proof.
  induction s as [|c s IH]; [reflexivity|]. change (String c (s +:+ EmptyString) = String c s).
  by rewrite IH.
Qed.

(** Byte-wise comparison of two texts that share the length of their
    first parts compares the first parts, then the rest. *)
Lemma string_compare_app (a b c d : string) :
  String.length a = String.length c ->
  String.compare (a +:+ b) (c +:+ d) = match String.compare a c with Eq => String.compare b d | o => o end.
Proof.
  revert c. induction a as [|x a IH]; intros [|y c] H; simpl in H; try discriminate; [reflexivity|].
  change (String.compare (String x (a +:+ b)) (String y (c +:+ d))
          = match (match Ascii.compare x y with Eq => String.compare a c | o => o end) with
            | Eq => String.compare b d | o => o end).
  cbn [String.compare]. destruct (Ascii.compare x y); [apply IH; lia | done | done].
Qed.
#[export] Hint Rewrite string_app_assoc string_app_nil_r : svc.
