(* ===== verification/GoStrconv.v ===== *)
(** * Integer parsing and printing of Go's standard library

    [strconv.Atoi] (with the [ParseInt] and [ParseUint] it falls back
    to) and the decimal formatting of [fmt]'s [%d] verb, on a 64-bit
    target.  The handlers read [limit] and [offset] with [Atoi] and
    ignore its error; the store prints them into the SQL text with
    [%d].  These are library functions the sources call; each
    definition follows the Go source of the library function it names
    (strconv/atoi.go, fmt/format.go). *)

From S2P Require Import Prelude.
From Stdlib Require Import Ascii String.

(** Go strings are byte strings; a byte is the code of an [ascii]. *)
Definition byte_of (c : ascii) : Z := Z.of_nat (nat_of_ascii c).

(** [int64(u)] for a [uint64] [u], and every signed operation that can
    overflow: two's-complement wrap-around to 64 bits. *)
Definition wrap64 (z : Z) : Z := ((z + 2 ^ 63) mod 2 ^ 64) - 2 ^ 63.

Definition max_uint64 : Z := 2 ^ 64 - 1.

(** ** [Atoi]'s fast path: strings of 1 to 18 bytes. *)

(** [for _, ch := range []byte(s) { ch -= '0'; if ch > 9 {...}; n = n*10 + int(ch) }]
    ([ch] is a byte, so [ch - '0'] wraps modulo 256). [None] is the
    syntax error. *)
Fixpoint atoi_fast_loop (s : list ascii) (n : Z) : option Z :=
  match s with
  | [] => Some n
  | c :: s' =>
      let ch := (byte_of c - 48) mod 256 in
      if 9 <? ch then None else atoi_fast_loop s' (n * 10 + ch)
  end.

(** ** [ParseUint(s, 10, 64)] *)

Inductive num_err := NumSyntax | NumRange.

#[export] Instance num_err_eq_dec : EqDecision num_err.
Proof. solve_decision. Defined.

(** [cutoff = maxUint64/10 + 1]: the least [n] with [n*10 > maxUint64]. *)
Definition cutoff10 : Z := max_uint64 / 10 + 1.

(** The digit loop.  Letters are digits [10..35], which base 10 rejects
    with the same syntax error as any other byte, so only ['0'..'9']
    pass.  The two overflow checks are Go's, on wrapped [uint64]s. *)
Fixpoint parse_uint_loop (s : list ascii) (n : Z) : Z * option num_err :=
  match s with
  | [] => (n, None)
  | c :: s' =>
      if (48 <=? byte_of c) && (byte_of c <=? 57) then
        let d := byte_of c - 48 in
        if cutoff10 <=? n then (max_uint64, Some NumRange)
        else
          let n' := (n * 10) mod 2 ^ 64 in
          let n1 := (n' + d) mod 2 ^ 64 in
          if (n1 <? n') || (max_uint64 <? n1) then (max_uint64, Some NumRange)
          else parse_uint_loop s' n1
      else (0, Some NumSyntax)
  end.

Definition ParseUint (s : string) : Z * option num_err :=
  match s with
  | EmptyString => (0, Some NumSyntax)
  | _ => parse_uint_loop (list_ascii_of_string s) 0
  end.

(** ** [ParseInt(s, 10, 0)] with [IntSize = 64]. *)
Definition ParseInt (s : string) : Z * option num_err :=
  match s with
  | EmptyString => (0, Some NumSyntax)
  | String c rest =>
      let '(neg, s1) :=
        if Ascii.eqb c "+"%char then (false, rest)
        else if Ascii.eqb c "-"%char then (true, rest)
        else (false, s) in
      let '(un, err) := ParseUint s1 in
      if decide (err = Some NumSyntax) then (0, err)
      else
        let cutoff := 2 ^ 63 in
        if negb neg && (cutoff <=? un) then (cutoff - 1, Some NumRange)
        else if neg && (cutoff <? un) then (- cutoff, Some NumRange)
        else
          let n := wrap64 un in
          ((if neg then wrap64 (- n) else n), None)
  end.

(** ** [Atoi] *)
Definition num_error (s : string) (e : num_err) : go_error :=
  match e with
  | NumSyntax => ErrNumSyntax s
  | NumRange => ErrNumRange s
  end.

Definition Atoi (s : string) : Z * option go_error :=
  let sLen := String.length s in
  if (0 <? sLen)%nat && (sLen <? 19)%nat then
    match s with
    | EmptyString => (0, Some (ErrNumSyntax s))
    | String c0 rest =>
        let '(signed, body) :=
          if Ascii.eqb c0 "-"%char || Ascii.eqb c0 "+"%char then (true, rest)
          else (false, s) in
        if signed && (String.length body <? 1)%nat then (0, Some (ErrNumSyntax s))
        else
          match atoi_fast_loop (list_ascii_of_string body) 0 with
          | None => (0, Some (ErrNumSyntax s))
          | Some n => if Ascii.eqb c0 "-"%char then (- n, None) else (n, None)
          end
    end
  else
    let '(i64, err) := ParseInt s in
    (i64, option_map (num_error s) err).

(** ** [fmt]'s [%d] on an [int] ([fmtInteger], base 10, no flags)

    [for u >= 10 { i--; next := u / 10; buf[i] = byte('0' + u - next*10);
    u = next }; i--; buf[i] = byte('0' + u)], filling the buffer from its
    end.  A [uint64] has at most 20 decimal digits, so 20 iterations of
    the loop are enough fuel (lemma [fmt_loop_spec]). *)
Definition digit_char (d : Z) : ascii := ascii_of_nat (Z.to_nat (48 + d)).

Fixpoint fmt_loop (fuel : nat) (u : Z) (acc : list ascii) : list ascii :=
  match fuel with
  | O => digit_char u :: acc
  | S f =>
      if 10 <=? u then fmt_loop f (u / 10) (digit_char (u - (u / 10) * 10) :: acc)
      else digit_char u :: acc
  end.

(** [negative := n < 0; u := uint64(n); if negative { u = -u }]. *)
Definition format_d (n : Z) : string :=
  let negative := n <? 0 in
  let u := if negative then (- (n mod 2 ^ 64)) mod 2 ^ 64 else n mod 2 ^ 64 in
  let digits := fmt_loop 20 u [] in
  string_of_list_ascii (if negative then "-"%char :: digits else digits).

(** ** Decimal digit strings *)

Definition is_digit (c : ascii) : bool := (48 <=? byte_of c) && (byte_of c <=? 57).

(** The value a digit string denotes after the prefix value [n]. *)
Definition dec_step (n : Z) (c : ascii) : Z := n * 10 + (byte_of c - 48).
Definition dec_val (n : Z) (cs : list ascii) : Z := fold_left dec_step cs n.

Lemma byte_of_digit_char (d : Z) : 0 <= d <= 9 -> byte_of (digit_char d) = 48 + d.
Proof.
  intros Hd. unfold byte_of, digit_char.
  rewrite nat_ascii_embedding by lia. lia.
Qed.

Lemma is_digit_digit_char (d : Z) : 0 <= d <= 9 -> is_digit (digit_char d) = true.
Proof.
  intros Hd. unfold is_digit. rewrite byte_of_digit_char by done.
  apply andb_true_iff; split; apply Z.leb_le; lia.
Qed.

Lemma is_digit_bounds (c : ascii) :
  is_digit c = true -> 0 <= byte_of c - 48 <= 9.
Proof. unfold is_digit. rewrite andb_true_iff, !Z.leb_le. lia. Qed.

Lemma byte_of_nonneg (c : ascii) : 0 <= byte_of c.
Proof. unfold byte_of. lia. Qed.

Lemma is_digit_not_sign (c : ascii) :
  is_digit c = true -> Ascii.eqb c "-"%char = false /\ Ascii.eqb c "+"%char = false.
Proof.
  intros H. split; destruct (Ascii.eqb_spec c "-"%char) as [->|];
    try destruct (Ascii.eqb_spec c "+"%char) as [->|]; done.
Qed.

Lemma dec_val_nonneg (cs : list ascii) (n : Z) :
  0 <= n -> Forall (fun c => is_digit c = true) cs -> n <= dec_val n cs.
Proof.
  revert n; induction cs as [|c cs IH]; intros n Hn Hcs; simpl; [lia|].
  inversion Hcs as [|? ? Hc Hcs']; subst.
  pose proof (is_digit_bounds c Hc).
  etransitivity; [|apply IH; auto; unfold dec_step; lia]. unfold dec_step; lia.
Qed.

(** [fmt_loop] writes the digits of [u], most significant first. *)
Lemma fmt_loop_spec (fuel : nat) (u : Z) (acc : list ascii) :
  0 <= u < 10 ^ (Z.of_nat fuel + 1) ->
  exists ds, fmt_loop fuel u acc = ds ++ acc /\ ds <> [] /\
    Forall (fun c => is_digit c = true) ds /\ dec_val 0 ds = u.
Proof.
  revert u acc; induction fuel as [|f IH]; intros u acc Hu; simpl.
  - exists [digit_char u]. split; [done|]. split; [done|].
    assert (Hu' : 0 <= u <= 9) by (simpl in Hu; lia).
    split; [constructor; [apply is_digit_digit_char|]; auto|].
    cbn. unfold dec_step. rewrite byte_of_digit_char; lia.
  - destruct (10 <=? u) eqn:Hle.
    + apply Z.leb_le in Hle.
      assert (Hd : 0 <= u - u / 10 * 10 <= 9)
        by (pose proof (Z.mul_div_le u 10); pose proof (Z.mod_pos_bound u 10); 
            rewrite Z.mod_eq in *; lia).
      destruct (IH (u / 10) (digit_char (u - u / 10 * 10) :: acc)) as (ds & E & Hne & Hf & Hv).
      { split; [apply Z.div_pos; lia|].
        apply Z.div_lt_upper_bound; [lia|].
        rewrite Nat2Z.inj_succ, Z.add_succ_l, Z.pow_succ_r in Hu by lia. lia. }
      exists (ds ++ [digit_char (u - u / 10 * 10)]).
      rewrite E, <- app_assoc. split; [done|]. split; [by destruct ds|].
      split; [apply Forall_app; split; [done|constructor; [apply is_digit_digit_char|]; auto]|].
      unfold dec_val in *. rewrite fold_left_app, Hv. simpl. unfold dec_step.
      rewrite byte_of_digit_char by done. lia.
    + apply Z.leb_gt in Hle. exists [digit_char u].
      split; [done|]. split; [done|].
      split; [constructor; [apply is_digit_digit_char|]; auto; lia|].
      cbn. unfold dec_step. rewrite byte_of_digit_char; lia.
Qed.

Lemma length_list_ascii_of_string (s : string) :
  Datatypes.length (list_ascii_of_string s) = String.length s.
Proof. induction s; simpl; auto. Qed.

Lemma wrap64_range (z : Z) : int_min <= wrap64 z <= int_max.
Proof.
  unfold wrap64, int_min, int_max.
  pose proof (Z.mod_pos_bound (z + 2 ^ 63) (2 ^ 64)). lia.
Qed.

Lemma wrap64_id (z : Z) : int_min <= z <= int_max -> wrap64 z = z.
Proof.
  unfold wrap64, int_min, int_max. intros Hz.
  rewrite Z.mod_small; lia.
Qed.

(** ** The loops on digit strings *)

Lemma atoi_fast_loop_digits (cs : list ascii) (n : Z) :
  Forall (fun c => is_digit c = true) cs -> atoi_fast_loop cs n = Some (dec_val n cs).
Proof.
  revert n; induction cs as [|c cs IH]; intros n Hcs; [done|].
  inversion Hcs as [|? ? Hc Hcs']; subst. pose proof (is_digit_bounds c Hc).
  simpl. rewrite Z.mod_small by lia.
  destruct (9 <? byte_of c - 48) eqn:E; [apply Z.ltb_lt in E; lia|].
  by apply IH.
Qed.

Lemma atoi_fast_loop_bound (cs : list ascii) (n m : Z) :
  atoi_fast_loop cs n = Some m -> 0 <= n ->
  0 <= m < (n + 1) * 10 ^ Z.of_nat (Datatypes.length cs).
Proof.
  revert n; induction cs as [|c cs IH]; intros n Hl Hn; simpl in Hl.
  - injection Hl as <-. simpl. lia.
  - set (ch := (byte_of c - 48) mod 256) in Hl.
    pose proof (Z.mod_pos_bound (byte_of c - 48) 256).
    destruct (9 <? ch) eqn:E; [discriminate|]. apply Z.ltb_ge in E.
    destruct (IH _ Hl) as [H1 H2]; [lia|].
    split; [lia|]. simpl Datatypes.length. rewrite Nat2Z.inj_succ, Z.pow_succ_r by lia.
    pose proof (Z.pow_nonneg 10 (Z.of_nat (Datatypes.length cs))). nia.
Qed.

Lemma parse_uint_loop_digits (cs : list ascii) (n : Z) :
  Forall (fun c => is_digit c = true) cs -> 0 <= n -> dec_val n cs <= max_uint64 ->
  parse_uint_loop cs n = (dec_val n cs, None).
Proof.
  revert n; induction cs as [|c cs IH]; intros n Hcs Hn Hmax; [done|].
  inversion Hcs as [|? ? Hc Hcs']; subst. pose proof (is_digit_bounds c Hc).
  change (dec_val n (c :: cs)) with (dec_val (dec_step n c) cs) in *.
  pose proof (dec_val_nonneg cs (dec_step n c)) as Hge. unfold dec_step in *.
  specialize (Hge ltac:(lia) Hcs').
  simpl. unfold is_digit in Hc. rewrite Hc.
  assert (Hcut : n < cutoff10)
    by (replace cutoff10 with 1844674407370955162 by reflexivity;
        unfold max_uint64 in *; lia).
  destruct (cutoff10 <=? n) eqn:E; [apply Z.leb_le in E; lia|].
  unfold max_uint64 in *.
  rewrite (Z.mod_small (n * 10)) by lia.
  rewrite (Z.mod_small (n * 10 + _)) by lia.
  destruct (n * 10 + (byte_of c - 48) <? n * 10) eqn:E1; [apply Z.ltb_lt in E1; lia|].
  destruct (2 ^ 64 - 1 <? n * 10 + (byte_of c - 48)) eqn:E2; [apply Z.ltb_lt in E2; lia|].
  simpl. apply IH; auto. lia.
Qed.

(** ** Properties of [Atoi] *)

Lemma ParseInt_in_int (s : string) : int_min <= fst (ParseInt s) <= int_max.
Proof.
  unfold ParseInt. destruct s as [|c rest]; [cbv; split; discriminate|].
  destruct (_ : bool * string) as [neg s1].
  destruct (ParseUint s1) as [un err].
  case_decide; [cbv; split; discriminate|].
  repeat case_match; simpl; try apply wrap64_range;
    unfold int_min, int_max; lia.
Qed.

(** The magnitude [format_d] prints is [|n|] for every [int]. *)
Lemma format_d_magnitude (n : Z) :
  int_min <= n <= int_max ->
  (if n <? 0 then (- (n mod 2 ^ 64)) mod 2 ^ 64 else n mod 2 ^ 64) = Z.abs n.
Proof.
  unfold int_min, int_max. intros Hn. destruct (n <? 0) eqn:E.
  - apply Z.ltb_lt in E.
    rewrite <- (Z.mod_unique_pos n (2 ^ 64) (-1) (n + 2 ^ 64)) by lia.
    rewrite <- (Z.mod_unique_pos (- (n + 2 ^ 64)) (2 ^ 64) (-1) (- n)) by lia.
    lia.
  - apply Z.ltb_ge in E. rewrite Z.mod_small; lia.
Qed.

(** The digits [format_d] writes for an [int]. *)
Lemma format_d_digits (n : Z) :
  int_min <= n <= int_max ->
  exists ds, ds <> [] /\ Forall (fun c => is_digit c = true) ds /\
    dec_val 0 ds = Z.abs n /\
    format_d n = string_of_list_ascii (if n <? 0 then "-"%char :: ds else ds).
Proof.
  intros Hn. unfold format_d. rewrite format_d_magnitude by done.
  destruct (fmt_loop_spec 20 (Z.abs n) [] ) as (ds & E & Hne & Hf & Hv).
  { unfold int_min, int_max in Hn. simpl. lia. }
  rewrite app_nil_r in E. rewrite E. eauto.
Qed.

(** [ParseUint] on the digits of an [int]'s magnitude. *)
Lemma ParseUint_digits (ds : list ascii) :
  Forall (fun c => is_digit c = true) ds -> dec_val 0 ds <= max_uint64 -> ds <> [] ->
  ParseUint (string_of_list_ascii ds) = (dec_val 0 ds, None).
Proof.
  intros Hf Hmax Hne. destruct ds as [|d ds]; [done|].
  unfold ParseUint. simpl string_of_list_ascii.
  rewrite <- (parse_uint_loop_digits (d :: ds) 0) by (auto; lia).
  simpl list_ascii_of_string. by rewrite list_ascii_of_string_of_list_ascii.
Qed.

(** Sign characters are not digits. *)
Lemma digits_head_not_sign (d : ascii) (ds : list ascii) :
  Forall (fun c => is_digit c = true) (d :: ds) ->
  Ascii.eqb d "-"%char = false /\ Ascii.eqb d "+"%char = false.
Proof. intros Hf. inversion Hf; subst. by apply is_digit_not_sign. Qed.

(** Whatever string a client sends, [Atoi] returns a value of Go's
    [int]: a literal beyond 64 bits is clamped (with [ErrRange], which
    the handlers ignore), never wrapped, and every malformed input
    yields 0. *)
Theorem Atoi_in_int (s : string) : int_min <= fst (Atoi s) <= int_max.
Proof.
  unfold Atoi. destruct (_ && _)%nat eqn:Hfast; [|destruct (ParseInt s) eqn:E;
    pose proof (ParseInt_in_int s) as H; rewrite E in H; exact H].
  apply andb_true_iff in Hfast as [_ Hlen]. apply Nat.ltb_lt in Hlen.
  destruct s as [|c0 rest]; [cbv; split; discriminate|].
  destruct (_ : bool * string) as [signed body] eqn:Hsb.
  assert (Hb : (String.length body <= 18)%nat).
  { destruct (_ || _); injection Hsb as <- <-; simpl in *; lia. }
  destruct (_ && _); [cbv; split; discriminate|].
  destruct (atoi_fast_loop _ 0) as [m|] eqn:Hl; [|cbv; split; discriminate].
  apply atoi_fast_loop_bound in Hl as [Hm0 Hm1]; [|lia].
  rewrite length_list_ascii_of_string in Hm1.
  assert (Hp : 10 ^ Z.of_nat (String.length body) <= 10 ^ 18)
    by (apply Z.pow_le_mono_r; lia).
  unfold int_min, int_max.
  destruct (Ascii.eqb c0 _); simpl; lia.
Qed.

(** [ParseInt]'s value on its two errors: [0] on a syntax error, the
    bound of [int] on the side of the overflow on a range error. *)
Lemma ParseInt_errors (s : string) :
  (snd (ParseInt s) = Some NumSyntax -> fst (ParseInt s) = 0) /\
  (snd (ParseInt s) = Some NumRange -> fst (ParseInt s) = int_max \/ fst (ParseInt s) = int_min).
Proof.
  unfold ParseInt. destruct s as [|c rest]; [split; [done|discriminate]|].
  destruct (_ : bool * string) as [neg s1]. destruct (ParseUint s1) as [un err].
  case_decide as Hs; [subst; split; [done|discriminate]|].
  destruct (negb neg && _); [split; [discriminate|by left]|].
  destruct (neg && _); [split; [discriminate|by right]|].
  split; discriminate.
Qed.

(** [Atoi] returns [0] with every syntax error (an empty text
    included), and a bound of [int] with a range error. *)
Lemma Atoi_errors (s : string) :
  (forall e, snd (Atoi s) = Some (ErrNumSyntax e) -> fst (Atoi s) = 0) /\
  (forall e, snd (Atoi s) = Some (ErrNumRange e) -> fst (Atoi s) = int_max \/ fst (Atoi s) = int_min).
Proof.
  unfold Atoi. destruct (_ && _)%nat.
  - destruct s as [|c0 rest]; [split; intros e [=]; done|].
    destruct (_ : bool * string) as [signed body].
    destruct (_ && _); [split; intros e [=]; done|].
    destruct (atoi_fast_loop _ 0); [|split; intros e [=]; done].
    by destruct (Ascii.eqb c0 _); split; intros e [=].
  - destruct (ParseInt_errors s) as [Hsyn Hrng]. destruct (ParseInt s) as [v err]. cbn in *.
    destruct err as [[|]|]; split; intros e [=]; auto.
Qed.

(** [Atoi] inverts [%d] on every [int]: a number the server prints
    reads back as itself, on the fast path (up to 18 bytes) and on the
    [ParseInt] path (the 19- and 20-byte extremes of [int]). *)
Theorem Atoi_format_d (n : Z) :
  int_min <= n <= int_max -> Atoi (format_d n) = (n, None).
Proof.
  intros Hn. destruct (format_d_digits n Hn) as (ds & Hne & Hf & Hv & ->).
  destruct ds as [|d ds']; [done|].
  destruct (digits_head_not_sign d ds' Hf) as [Hm Hp].
  pose proof (Z.abs_le n (int_max + 1)) as Habs.
  assert (Hmax : dec_val 0 (d :: ds') <= max_uint64)
    by (unfold int_min, int_max, max_uint64 in *; lia).
  unfold Atoi. destruct (n <? 0) eqn:Hneg; simpl string_of_list_ascii.
  - apply Z.ltb_lt in Hneg. destruct (_ && _)%nat.
    + rewrite Ascii.eqb_refl.
      change (String d (string_of_list_ascii ds')) with (string_of_list_ascii (d :: ds')).
      cbn [orb].
      rewrite list_ascii_of_string_of_list_ascii, (atoi_fast_loop_digits _ _ Hf), Hv.
      simpl. f_equal. lia.
    + unfold ParseInt.
      change (String d (string_of_list_ascii ds')) with (string_of_list_ascii (d :: ds')).
      rewrite Ascii.eqb_refl. cbn -[ParseUint wrap64 string_of_list_ascii].
      rewrite (ParseUint_digits (d :: ds')) by done. rewrite Hv in *.
      cbn -[wrap64]. case_decide; [done|].
      destruct (2 ^ 63 <? Z.abs n) eqn:E;
        [apply Z.ltb_lt in E; unfold int_min in *; lia|].
      simpl. f_equal.
      destruct (decide (n = int_min)) as [->|Hne'].
      * reflexivity.
      * rewrite (wrap64_id (Z.abs n)), wrap64_id; unfold int_min, int_max in *; lia.
  - apply Z.ltb_ge in Hneg. destruct (_ && _)%nat.
    + rewrite Hm, Hp. cbn -[string_of_list_ascii atoi_fast_loop].
      rewrite list_ascii_of_string_of_list_ascii, (atoi_fast_loop_digits (d :: ds') 0 Hf), Hv.
      f_equal. lia.
    + unfold ParseInt.
      change (String d (string_of_list_ascii ds')) with (string_of_list_ascii (d :: ds')).
      rewrite Hm, Hp. cbn -[ParseUint wrap64 string_of_list_ascii].
      rewrite (ParseUint_digits (d :: ds')) by done. rewrite Hv in *.
      cbn -[wrap64]. case_decide; [done|].
      destruct (2 ^ 63 <=? Z.abs n) eqn:E;
        [apply Z.leb_le in E; unfold int_max in *; lia|].
      simpl. f_equal. rewrite wrap64_id; [lia|]. unfold int_min, int_max in *; lia.
Qed.
