(* ===== verification/Config.v ===== *)
(** * Connection string (src/cmd/server/main.go lines 23-30, lib/pq)

    main.go reads the database settings with [config.Load()] (the
    [internal/config] package, which is not among the sources: its
    [Config] record is modelled from the spec, section 6, and from the
    fields main.go reads) and formats them into a libpq key/value
    connection string with [fmt.Sprintf] and [%s], without quoting.
    [sql.Open("postgres", dsn)] keeps the text; lib/pq reads it when the
    first connection is made ([db.Ping()], line 38) with [parseOpts]
    (conn.go), modelled here on ASCII text as a state machine over the
    characters: a key up to [=], a value up to white space, [\] escaping
    the next character, or a value in single quotes.  Bytes of
    multi-byte UTF-8 characters are not decoded (lib/pq reads runes). *)

From S2P Require Import Prelude GoStrconv.
From Stdlib Require Import Ascii String.

(** [config.Config], the fields main.go uses. *)
Record Config := mkConfig {
  DBHost : string; DBPort : string; DBUser : string; DBPassword : string; DBName : string
}.

(** main.go lines 27-28: [fmt.Sprintf("host=%s port=%s user=%s
    password=%s dbname=%s sslmode=disable", ...)]. *)
Definition dsn (cfg : Config) : string :=
  "host=" +:+ DBHost cfg +:+ " port=" +:+ DBPort cfg +:+ " user=" +:+ DBUser cfg +:+
  " password=" +:+ DBPassword cfg +:+ " dbname=" +:+ DBName cfg +:+ " sslmode=disable".

(** ** lib/pq [parseOpts] *)

(** [unicode.IsSpace] on ASCII. *)
Definition pq_space (c : ascii) : bool :=
  match c with
  | " " | "009" | "010" | "011" | "012" | "013" => true
  | _ => false
  end%char.

(** Where the scanner is: before a key, in a key, in the white space
    after a key, after [=], in a plain value (or just after a [\] in
    it), in a quoted value (or just after a [\] in it). *)
Inductive pq_state :=
  | PKey0
  | PKey (k : list ascii)
  | PSpAfterKey (k : list ascii)
  | PAfterEq (k : list ascii)
  | PVal (k v : list ascii)
  | PValEsc (k v : list ascii)
  | PQuote (k v : list ascii)
  | PQuoteEsc (k v : list ascii).

(** The three errors of [parseOpts]. *)
Inductive pq_error :=
  | MissingEq (key : string)        (** [missing "=" after %q in connection info string] *)
  | MissingAfterBackslash           (** [missing character after backslash] *)
  | Unterminated.                   (** [unterminated quoted string literal ...] *)

Definition pq_emit (k v : list ascii) : string * string := (string_of_list_ascii k, string_of_list_ascii v).

(** One character; [Some] pair when a [key=value] is complete. *)
Definition pq_step (st : pq_state) (c : ascii) : pq_state * option (string * string) + pq_error :=
  match st with
  | PKey0 =>
      if pq_space c then inl (PKey0, None)
      else if Ascii.eqb c "="%char then inl (PAfterEq [], None)
      else inl (PKey [c], None)
  | PKey k =>
      if pq_space c then inl (PSpAfterKey k, None)
      else if Ascii.eqb c "="%char then inl (PAfterEq k, None)
      else inl (PKey (k ++ [c]), None)
  | PSpAfterKey k =>
      if pq_space c then inl (PSpAfterKey k, None)
      else if Ascii.eqb c "="%char then inl (PAfterEq k, None)
      else inr (MissingEq (string_of_list_ascii k))
  | PAfterEq k =>
      if pq_space c then inl (PAfterEq k, None)
      else if Ascii.eqb c "'"%char then inl (PQuote k [], None)
      else if Ascii.eqb c "\"%char then inl (PValEsc k [], None)
      else inl (PVal k [c], None)
  | PVal k v =>
      if pq_space c then inl (PKey0, Some (pq_emit k v))
      else if Ascii.eqb c "\"%char then inl (PValEsc k v, None)
      else inl (PVal k (v ++ [c]), None)
  | PValEsc k v => inl (PVal k (v ++ [c]), None)
  | PQuote k v =>
      if Ascii.eqb c "'"%char then inl (PKey0, Some (pq_emit k v))
      else if Ascii.eqb c "\"%char then inl (PQuoteEsc k v, None)
      else inl (PQuote k (v ++ [c]), None)
  | PQuoteEsc k v => inl (PQuote k (v ++ [c]), None)
  end.

(** The end of the text. *)
Definition pq_finish (st : pq_state) : list (string * string) + pq_error :=
  match st with
  | PKey0 => inl []
  | PKey k | PSpAfterKey k => inr (MissingEq (string_of_list_ascii k))
  | PAfterEq k => inl [pq_emit k []]
  | PVal k v => inl [pq_emit k v]
  | PValEsc _ _ => inr MissingAfterBackslash
  | PQuote _ _ | PQuoteEsc _ _ => inr Unterminated
  end.

(** The pairs in the order [parseOpts] stores them into its map. *)
Fixpoint pq_scan (st : pq_state) (cs : list ascii) : list (string * string) + pq_error :=
  match cs with
  | [] => pq_finish st
  | c :: cs' =>
      match pq_step st c with
      | inr e => inr e
      | inl (st', None) => pq_scan st' cs'
      | inl (st', Some kv) =>
          match pq_scan st' cs' with inl kvs => inl (kv :: kvs) | inr e => inr e end
      end
  end.

Definition parseOpts (s : string) : list (string * string) + pq_error :=
  pq_scan PKey0 (list_ascii_of_string s).

(** [o[key]] after the loop: a later pair overwrites an earlier one. *)
Definition opt_get (kvs : list (string * string)) (k : string) : option string :=
  fold_left (fun acc kv => if String.eqb kv.1 k then Some kv.2 else acc) kvs None.

(** A value lib/pq reads back as written: not empty, not starting with
    a quote, without white space or [\]. *)
Definition pq_plain_char (c : ascii) : bool := negb (pq_space c) && negb (Ascii.eqb c "\"%char).

Definition pq_plain (s : string) : bool :=
  match list_ascii_of_string s with
  | [] => false
  | c :: _ => negb (Ascii.eqb c "'"%char) && forallb pq_plain_char (list_ascii_of_string s)
  end.

(** ** Lemmas *)

Lemma pq_scan_val (k acc v rest : list ascii) :
  forallb pq_plain_char v = true -> pq_scan (PVal k acc) (v ++ rest) = pq_scan (PVal k (acc ++ v)) rest.
Proof.
  revert acc. induction v as [|c v IH]; intros acc Hv; simpl in *; [by rewrite app_nil_r|].
  apply andb_prop in Hv as [Hc Hv]. unfold pq_plain_char in Hc.
  destruct (pq_space c), (Ascii.eqb c "\"%char); try done. simpl.
  rewrite IH by done. by rewrite <- app_assoc.
Qed.

(** A plain value after [=] is read up to the next white space. *)
Lemma pq_scan_plain (k : list ascii) (v : string) (rest : list ascii) :
  pq_plain v = true ->
  pq_scan (PAfterEq k) (list_ascii_of_string v ++ rest) = pq_scan (PVal k (list_ascii_of_string v)) rest.
Proof.
  unfold pq_plain. destruct (list_ascii_of_string v) as [|c v'] eqn:E; [done|].
  intros [Hq Hv]%andb_prop. simpl in Hv. apply andb_prop in Hv as [Hc Hv].
  unfold pq_plain_char in Hc. simpl. apply negb_true_iff in Hq.
  destruct (pq_space c), (Ascii.eqb c "\"%char); try done. rewrite Hq. simpl.
  by rewrite pq_scan_val.
Qed.

Lemma pq_emit_val (k : list ascii) (v : string) :
  pq_emit k (list_ascii_of_string v) = (string_of_list_ascii k, v).
Proof. unfold pq_emit. by rewrite string_of_list_ascii_of_string. Qed.

Lemma pq_plain_chars (v : string) : pq_plain v = true -> forallb pq_plain_char (list_ascii_of_string v) = true.
Proof. unfold pq_plain. destruct (list_ascii_of_string v); [done|]. by intros [_ ?]%andb_prop. Qed.

(** Read one [key=value] pair of plain value: [cbn] crosses the literal
    text, [pq_scan_plain] the value. *)
Ltac pq_field :=
  cbn -[pq_emit];
  rewrite ?pq_scan_plain by assumption.

(** C30. Round trip of the connection string: when every setting is a
    plain value, lib/pq reads back from [dsn cfg] exactly the six
    settings main.go formats into it, in order. *)
Theorem dsn_roundtrip (cfg : Config) :
  pq_plain (DBHost cfg) = true -> pq_plain (DBPort cfg) = true -> pq_plain (DBUser cfg) = true ->
  pq_plain (DBPassword cfg) = true -> pq_plain (DBName cfg) = true ->
  parseOpts (dsn cfg) =
  inl [("host", DBHost cfg); ("port", DBPort cfg); ("user", DBUser cfg);
       ("password", DBPassword cfg); ("dbname", DBName cfg); ("sslmode", "disable")].
Proof.
  intros. unfold parseOpts, dsn. rewrite !list_ascii_of_string_append.
  do 5 pq_field. cbn -[pq_emit]. rewrite !pq_emit_val. reflexivity.
Qed.

(** C31. main.go formats the settings without quoting them, so an
    empty [DB_PASSWORD] shifts the text: lib/pq skips the white space
    after [password=] and takes [dbname=<name>] as the password, and the
    [dbname] setting is lost (libpq then defaults it to the user name). *)
Theorem dsn_empty_password (cfg : Config) :
  pq_plain (DBHost cfg) = true -> pq_plain (DBPort cfg) = true -> pq_plain (DBUser cfg) = true ->
  pq_plain (DBName cfg) = true -> DBPassword cfg = "" ->
  parseOpts (dsn cfg) =
  inl [("host", DBHost cfg); ("port", DBPort cfg); ("user", DBUser cfg);
       ("password", "dbname=" +:+ DBName cfg); ("sslmode", "disable")] /\
  opt_get [("host", DBHost cfg); ("port", DBPort cfg); ("user", DBUser cfg);
           ("password", "dbname=" +:+ DBName cfg); ("sslmode", "disable")] "dbname" = None.
Proof.
  intros Hh Hpo Hu Hn Hpw. split; [|reflexivity].
  unfold parseOpts, dsn. rewrite Hpw, !list_ascii_of_string_append.
  do 3 pq_field. cbn -[pq_emit].
  rewrite pq_scan_val by (by apply pq_plain_chars). cbn -[pq_emit].
  unfold pq_emit. cbn. rewrite !string_of_list_ascii_of_string. reflexivity.
Qed.

(** ** Witnesses *)

Definition sample_config : Config := mkConfig "localhost" "5432" "postgres" "secret" "subscriptions".

Lemma dsn_roundtrip_witness :
  pq_plain (DBHost sample_config) = true /\ pq_plain (DBPort sample_config) = true /\
  pq_plain (DBUser sample_config) = true /\ pq_plain (DBPassword sample_config) = true /\
  pq_plain (DBName sample_config) = true /\
  parseOpts (dsn sample_config) =
  inl [("host", "localhost"); ("port", "5432"); ("user", "postgres");
       ("password", "secret"); ("dbname", "subscriptions"); ("sslmode", "disable")].
Proof. do 5 (split; [reflexivity|]). apply (dsn_roundtrip sample_config); reflexivity. Defined.

Lemma dsn_empty_password_witness :
  let cfg := mkConfig "localhost" "5432" "postgres" "" "subscriptions" in
  pq_plain (DBHost cfg) = true /\ pq_plain (DBPort cfg) = true /\ pq_plain (DBUser cfg) = true /\
  pq_plain (DBName cfg) = true /\ DBPassword cfg = "" /\
  parseOpts (dsn cfg) =
  inl [("host", DBHost cfg); ("port", DBPort cfg); ("user", DBUser cfg);
       ("password", "dbname=" +:+ DBName cfg); ("sslmode", "disable")].
Proof.
  intros cfg. do 5 (split; [reflexivity|]).
  apply (proj1 (dsn_empty_password cfg eq_refl eq_refl eq_refl eq_refl eq_refl)).
Defined.
