(* ===== verification/Model.v ===== *)
(** * The record model (src/internal/model/subscription.go)

    [model.Subscription] as a Record with the struct's field names,
    [uuid.UUID] ([[16]byte]) as a 128-bit big-endian number, [time.Time]
    as a count of microseconds (the resolution PostgreSQL keeps), the
    Go zero value of the struct, and the result of decoding a JSON
    request body into a [Subscription] that already holds values
    ([json.Decoder.Decode] only assigns the fields the body names). *)

From S2P Require Import Prelude.

(** [uuid.UUID]: 16 bytes, read as one big-endian 128-bit number. *)
Definition uuid := Z.

Definition uuid_wf (u : uuid) : bool := (0 <=? u) && (u <? 2 ^ 128).

(** [uuid.Nil], the zero value. *)
Definition uuid_nil : uuid := 0.

(** [time.Time] in microseconds; [time_zero] is Go's zero [Time]. *)
Definition time := Z.
Definition time_zero : time := 0.

(** subscription.go lines 9-17. *)
Record Subscription := mkSubscription {
  ID : uuid;
  ServiceName : string;
  Price : Z;
  UserID : uuid;
  StartDate : string;
  EndDate : option string;   (** [*string]: [None] is [nil] *)
  CreatedAt : time
}.

#[export] Instance Subscription_eq_dec : EqDecision Subscription.
Proof. solve_decision. Defined.

(** [model.Subscription{}]. *)
Definition zero_subscription : Subscription :=
  mkSubscription uuid_nil "" 0 uuid_nil "" None time_zero.

(** Field updates, one per assignment the sources make. *)
Definition set_ID (u : uuid) (s : Subscription) : Subscription :=
  mkSubscription u (ServiceName s) (Price s) (UserID s) (StartDate s) (EndDate s) (CreatedAt s).

(** ** A decoded JSON body

    Each field is [Some v] when the JSON object has the key (with the
    struct tag of subscription.go), [None] when it does not.  For
    [end_date], [Some None] is an explicit [null].  A body that is not
    valid JSON for the struct is an error of the decoder and never
    reaches this type. *)
Record sub_json := mkSubJson {
  j_id : option uuid;
  j_service_name : option string;
  j_price : option Z;
  j_user_id : option uuid;
  j_start_date : option string;
  j_end_date : option (option string);
  j_created_at : option time
}.

(** [json.NewDecoder(r.Body).Decode(&sub)]: present keys overwrite. *)
Definition decode_into (j : sub_json) (s : Subscription) : Subscription :=
  mkSubscription
    (default (ID s) (j_id j))
    (default (ServiceName s) (j_service_name j))
    (default (Price s) (j_price j))
    (default (UserID s) (j_user_id j))
    (default (StartDate s) (j_start_date j))
    (default (EndDate s) (j_end_date j))
    (default (CreatedAt s) (j_created_at j)).
