(* ===== verification/Uuid.v ===== *)
(** * UUID text (github.com/google/uuid)

    [uuid.Parse], which the handlers use to validate the [{id}] path
    parameter and the [user_id] query parameter, and [UUID.String],
    the canonical text of an id.  Library code the sources call,
    modelled from the library's source (uuid.go, util.go, hex
    encoding of [encodeHex]).  A UUID is the 128-bit big-endian number
    of its 16 bytes ([Model.uuid]). *)

From S2P Require Import Prelude GoStrconv Model.
From Stdlib Require Import Ascii String.

(** [xvalues[c]]: the value of a hexadecimal digit, [255] otherwise. *)
Definition xvalue (c : ascii) : Z :=
  let b := byte_of c in
  if (48 <=? b) && (b <=? 57) then b - 48
  else if (97 <=? b) && (b <=? 102) then b - 87
  else if (65 <=? b) && (b <=? 70) then b - 55
  else 255.

(** [xtob(x1, x2)]: the byte of two hexadecimal digits. *)
Definition xtob (x1 x2 : ascii) : option Z :=
  let b1 := xvalue x1 in
  if b1 =? 255 then None
  else
    let b2 := xvalue x2 in
    if b2 =? 255 then None else Some (Z.lor (Z.shiftl b1 4) b2).

Definition char_at (cs : list ascii) (i : nat) : ascii := nth i cs "000"%char.

(** Read one byte per offset and append it to the big-endian number. *)
Fixpoint read_bytes (cs : list ascii) (offsets : list nat) (acc : Z) : option Z :=
  match offsets with
  | [] => Some acc
  | x :: xs =>
      v ← xtob (char_at cs x) (char_at cs (S x));
      read_bytes cs xs (acc * 256 + v)
  end.

(** The offsets of the 16 bytes in [xxxxxxxx-xxxx-xxxx-xxxx-xxxxxxxxxxxx]. *)
Definition dashed_offsets : list nat :=
  [0; 2; 4; 6; 9; 11; 14; 16; 19; 21; 24; 26; 28; 30; 32; 34]%nat.

Definition plain_offsets : list nat := map (fun i => 2 * i)%nat (seq 0 16).

Definition err_uuid_format : go_error := ErrText "invalid UUID format".

Definition lower_ascii (c : ascii) : ascii :=
  let b := byte_of c in
  if (65 <=? b) && (b <=? 90) then ascii_of_nat (Z.to_nat (b + 32)) else c.

(** [strings.EqualFold] on ASCII text. *)
Definition equal_fold (a b : list ascii) : bool :=
  bool_decide (map lower_ascii a = map lower_ascii b).

Definition parse_dashed (cs : list ascii) : res uuid :=
  if negb (Ascii.eqb (char_at cs 8) "-"%char) || negb (Ascii.eqb (char_at cs 13) "-"%char)
     || negb (Ascii.eqb (char_at cs 18) "-"%char) || negb (Ascii.eqb (char_at cs 23) "-"%char)
  then Err err_uuid_format
  else match read_bytes cs dashed_offsets 0 with
       | Some u => Ok u
       | None => Err err_uuid_format
       end.

(** [uuid.Parse] *)
Definition Parse (s : string) : res uuid :=
  let cs := list_ascii_of_string s in
  let n := Datatypes.length cs in
  if (n =? 36)%nat then parse_dashed cs
  else if (n =? 45)%nat then
    if equal_fold (take 9 cs) (list_ascii_of_string "urn:uuid:") then parse_dashed (drop 9 cs)
    else Err (ErrText ("invalid urn prefix: " +:+ go_quote (string_of_list_ascii (take 9 cs))))
  else if (n =? 38)%nat then parse_dashed (drop 1 cs)
  else if (n =? 32)%nat then
    match read_bytes cs plain_offsets 0 with
    | Some u => Ok u
    | None => Err err_uuid_format
    end
  else Err (ErrText ("invalid UUID length: " +:+ format_d (Z.of_nat n))).

(** ** [UUID.String] (uuid.go, [encodeHex] of util.go)

    The [[16]byte] array of a UUID, most significant byte first:
    [be_bytes n u] is the [n] low bytes of [u] in big-endian order. *)
Fixpoint be_bytes (n : nat) (u : Z) : list Z :=
  match n with
  | O => []
  | S n' => (be_bytes n' (u / 256) ++ [u mod 256])%list
  end.

Definition uuid_bytes (u : uuid) : list Z := be_bytes 16 u.

(** [hex.Encode]: two digits of ["0123456789abcdef"] per byte, the
    high nibble first. *)
Definition hex_encode (bs : list Z) : list ascii :=
  flat_map (fun b => [hex_digit (Z.to_nat (Z.shiftr b 4)); hex_digit (Z.to_nat (Z.land b 15))]) bs.

(** [encodeHex(dst, uuid)]: the groups of 4, 2, 2, 2 and 6 bytes,
    separated by ['-'] at [dst[8]], [dst[13]], [dst[18]], [dst[23]]. *)
Definition encodeHex (bs : list Z) : list ascii :=
  (hex_encode (take 4 bs) ++ ["-"%char] ++ hex_encode (take 2 (drop 4 bs)) ++ ["-"%char] ++
   hex_encode (take 2 (drop 6 bs)) ++ ["-"%char] ++ hex_encode (take 2 (drop 8 bs)) ++
   ["-"%char] ++ hex_encode (drop 10 bs))%list.

Module UUID.

(** [func (uuid UUID) String() string] *)
Definition String (u : uuid) : string := string_of_list_ascii (encodeHex (uuid_bytes u)).

End UUID.

(** ** Lemmas *)

(** Name the 16 bytes of a list [l] whose length [Hl] says is 16. *)
Ltac uuid_bytes_cases l Hl :=
  destruct l as [|?b0 [|?b1 [|?b2 [|?b3 [|?b4 [|?b5 [|?b6 [|?b7 [|?b8 [|?b9 [|?b10 [|?b11
    [|?b12 [|?b13 [|?b14 [|?b15 [|]]]]]]]]]]]]]]]]]; try discriminate Hl.

Lemma be_bytes_length (n : nat) (u : Z) : Datatypes.length (be_bytes n u) = n.
Proof.
  revert u. induction n as [|n IH]; intros u; [done|].
  simpl. rewrite length_app, IH. simpl. lia.
Qed.

Lemma be_bytes_range (n : nat) (u : Z) : Forall (fun b => 0 <= b < 256) (be_bytes n u).
Proof.
  revert u. induction n as [|n IH]; intros u; simpl; [done|].
  apply Forall_app. split; [apply IH|]. constructor; [|done]. apply Z.mod_pos_bound. lia.
Qed.

(** Reading the bytes back, most significant first, gives the number
    modulo [256^n]. *)
Lemma be_bytes_fold (n : nat) (u acc : Z) :
  fold_left (fun a b => a * 256 + b) (be_bytes n u) acc = acc * 256 ^ Z.of_nat n + u mod 256 ^ Z.of_nat n.
Proof.
  revert u acc. induction n as [|n IH]; intros u acc.
  - simpl. rewrite Z.mod_1_r. lia.
  - simpl be_bytes. rewrite fold_left_app, IH. simpl.
    rewrite Nat2Z.inj_succ, Z.pow_succ_r by lia.
    rewrite Z.rem_mul_r by lia. lia.
Qed.

(** [xtob] reads back the two digits [hex.Encode] writes for a byte;
    checked on the 256 bytes. *)
Lemma xtob_hex (b : Z) :
  0 <= b < 256 ->
  xtob (hex_digit (Z.to_nat (Z.shiftr b 4))) (hex_digit (Z.to_nat (Z.land b 15))) = Some b.
Proof.
  intros Hb.
  assert (Hall : forallb (fun n : nat =>
    bool_decide (xtob (hex_digit (Z.to_nat (Z.shiftr (Z.of_nat n) 4)))
                      (hex_digit (Z.to_nat (Z.land (Z.of_nat n) 15))) = Some (Z.of_nat n)))
    (seq 0 256) = true) by (vm_compute; reflexivity).
  rewrite forallb_forall in Hall.
  specialize (Hall (Z.to_nat b)). rewrite Z2Nat.id in Hall by lia.
  apply (bool_decide_eq_true_1 _), Hall, in_seq. lia.
Qed.

(** Round trip of the canonical text: [uuid.Parse] reads back
    every id from the text [UUID.String] gives it, which is the text
    the JSON encoding of a record carries in its [id] and [user_id]
    fields. *)
Theorem Parse_String (u : uuid) : uuid_wf u = true -> Parse (UUID.String u) = Ok u.
Proof.
  intros Hwf. apply andb_prop in Hwf as [H1 H2]. apply Z.leb_le in H1. apply Z.ltb_lt in H2.
  pose proof (be_bytes_fold 16 u 0) as Hf. pose proof (be_bytes_range 16 u) as Hr.
  pose proof (be_bytes_length 16 u) as Hl.
  unfold UUID.String, Parse, uuid_bytes. rewrite list_ascii_of_string_of_list_ascii.
  rewrite Z.mod_small in Hf by (simpl; lia).
  uuid_bytes_cases (be_bytes 16 u) Hl. rewrite !Forall_cons in Hr. destruct_and! Hr.
  cbn -[xtob hex_digit]. rewrite !xtob_hex by lia. simpl in Hf |- *. f_equal. lia.
Qed.

(** The canonical text of the id of the RFC 4122 DNS namespace. *)
Example String_namespace_dns :
  UUID.String 143098242404177361603877621312831893704 = "6ba7b810-9dad-11d1-80b4-00c04fd430c8".
Proof. vm_compute. reflexivity. Qed.

Lemma hex_digit_not_slash (n : nat) : Ascii.eqb (hex_digit n) "/"%char = false.
Proof. unfold hex_digit. do 16 (destruct n as [|n]; [reflexivity|]). by destruct n. Qed.

Lemma hex_encode_no_slash (bs : list Z) :
  forallb (fun c => negb (Ascii.eqb c "/"%char)) (hex_encode bs) = true.
Proof. induction bs as [|b bs IH]; [done|]. simpl. by rewrite !hex_digit_not_slash. Qed.

(** The canonical text has no ['/'], so it is one path segment. *)
Lemma String_no_slash (u : uuid) :
  forallb (fun c => negb (Ascii.eqb c "/"%char)) (list_ascii_of_string (UUID.String u)) = true.
Proof.
  unfold UUID.String, encodeHex. rewrite list_ascii_of_string_of_list_ascii, !forallb_app.
  by rewrite !hex_encode_no_slash.
Qed.

Lemma String_length (u : uuid) : Datatypes.length (list_ascii_of_string (UUID.String u)) = 36%nat.
Proof.
  unfold UUID.String, uuid_bytes. rewrite list_ascii_of_string_of_list_ascii.
  pose proof (be_bytes_length 16 u) as Hl. uuid_bytes_cases (be_bytes 16 u) Hl. reflexivity.
Qed.

(** The canonical text is neither empty nor the word [summary]. *)
Lemma String_not_short (u : uuid) : UUID.String u <> "" /\ UUID.String u <> "summary".
Proof. pose proof (String_length u) as Hl. split; intros E; rewrite E in Hl; discriminate. Qed.
