(* ===== verification/Sql.v ===== *)
(** * The PostgreSQL fragment the store uses

    The [subscriptions] table, the values its columns hold (with
    [NULL]), the expressions of the WHERE clauses (positional
    parameters [$n], comparisons, [IS NULL], [AND], [OR]) under SQL's
    three-valued logic, and the statements the store sends: a select
    with an optional WHERE, [ORDER BY created_at DESC], [LIMIT] and
    [OFFSET]; the null-safe [coalesce(sum(price),0)]; insert with
    [now()]; update; delete.  This is the database, not code of the
    repository: each definition follows the PostgreSQL documentation
    for the construct it names.  Assumptions on the schema, which the
    repository does not contain: [id] is the primary key, [price] is a
    [bigint] (so [sum] returns an exact [numeric]), the date columns are
    [text] under the C collation (byte-wise comparison), and [now()] is
    the timestamp of the statement, supplied by the caller. *)

From S2P Require Import Prelude Model.

(** ** Values and columns *)

Inductive sql_value :=
  | VNull
  | VUuid (u : uuid)
  | VText (s : string)
  | VInt (z : Z)
  | VTime (t : time).

#[export] Instance sql_value_eq_dec : EqDecision sql_value.
Proof. solve_decision. Defined.

Inductive column :=
  | col_id | col_service_name | col_price | col_user_id
  | col_start_date | col_end_date | col_created_at.

#[export] Instance column_eq_dec : EqDecision column.
Proof. solve_decision. Defined.

(** A nullable text: how [database/sql] sends a [*string] argument. *)
Definition text_or_null (o : option string) : sql_value :=
  match o with Some s => VText s | None => VNull end.

(** A row of the table is a [Subscription]: the table has exactly the
    struct's columns. *)
Definition row_get (r : Subscription) (c : column) : sql_value :=
  match c with
  | col_id => VUuid (ID r)
  | col_service_name => VText (ServiceName r)
  | col_price => VInt (Price r)
  | col_user_id => VUuid (UserID r)
  | col_start_date => VText (StartDate r)
  | col_end_date => text_or_null (EndDate r)
  | col_created_at => VTime (CreatedAt r)
  end.

(** Storing a value in a column; [None] is a type or NOT NULL error. *)
Definition row_set (r : Subscription) (c : column) (v : sql_value) : option Subscription :=
  match c, v with
  | col_id, VUuid u => Some (set_ID u r)
  | col_service_name, VText s =>
      Some (mkSubscription (ID r) s (Price r) (UserID r) (StartDate r) (EndDate r) (CreatedAt r))
  | col_price, VInt z =>
      Some (mkSubscription (ID r) (ServiceName r) z (UserID r) (StartDate r) (EndDate r) (CreatedAt r))
  | col_user_id, VUuid u =>
      Some (mkSubscription (ID r) (ServiceName r) (Price r) u (StartDate r) (EndDate r) (CreatedAt r))
  | col_start_date, VText s =>
      Some (mkSubscription (ID r) (ServiceName r) (Price r) (UserID r) s (EndDate r) (CreatedAt r))
  | col_end_date, VText s =>
      Some (mkSubscription (ID r) (ServiceName r) (Price r) (UserID r) (StartDate r) (Some s) (CreatedAt r))
  | col_end_date, VNull =>
      Some (mkSubscription (ID r) (ServiceName r) (Price r) (UserID r) (StartDate r) None (CreatedAt r))
  | col_created_at, VTime t =>
      Some (mkSubscription (ID r) (ServiceName r) (Price r) (UserID r) (StartDate r) (EndDate r) t)
  | _, _ => None
  end.

(** Comparison of two non-null values of one type; [None] when the
    types differ. *)
Definition value_compare (a b : sql_value) : option comparison :=
  match a, b with
  | VUuid x, VUuid y => Some (Z.compare x y)
  | VText x, VText y => Some (String.compare x y)
  | VInt x, VInt y => Some (Z.compare x y)
  | VTime x, VTime y => Some (Z.compare x y)
  | _, _ => None
  end.

(** ** Three-valued logic *)

Inductive tv := TTrue | TFalse | TUnknown.

#[export] Instance tv_eq_dec : EqDecision tv.
Proof. solve_decision. Defined.

Definition tv_and (a b : tv) : tv :=
  match a, b with
  | TFalse, _ | _, TFalse => TFalse
  | TTrue, TTrue => TTrue
  | _, _ => TUnknown
  end.

Definition tv_or (a b : tv) : tv :=
  match a, b with
  | TTrue, _ | _, TTrue => TTrue
  | TFalse, TFalse => TFalse
  | _, _ => TUnknown
  end.

Definition tv_of_bool (b : bool) : tv := if b then TTrue else TFalse.

(** ** Expressions *)

Inductive cmp_op := OpEq | OpGe | OpLe.

#[export] Instance cmp_op_eq_dec : EqDecision cmp_op.
Proof. solve_decision. Defined.

Definition cmp_holds (op : cmp_op) (c : comparison) : bool :=
  match op, c with
  | OpEq, Eq => true
  | OpGe, (Eq | Gt) => true
  | OpLe, (Eq | Lt) => true
  | _, _ => false
  end.

(** An operand is a column, a parameter [$n] (numbered from 1) or
    [now()]; a condition is built from comparisons and [IS NULL]. *)
Inductive operand :=
  | OCol (c : column)
  | OParam (n : nat)
  | ONow.

#[export] Instance operand_eq_dec : EqDecision operand.
Proof. solve_decision. Defined.

Inductive cond :=
  | CCmp (op : cmp_op) (a b : operand)
  | CIsNull (a : operand)
  | CAnd (p q : cond)
  | COr (p q : cond).

#[export] Instance cond_eq_dec : EqDecision cond.
Proof. solve_decision. Defined.

(** The statement's environment: its arguments and its [now()]. *)
Record env := mkEnv { env_args : list sql_value; env_now : time }.

(** [None]: a parameter [$0] or beyond the arguments (PostgreSQL
    rejects such a statement before running it). *)
Definition eval_operand (e : env) (r : Subscription) (o : operand) : option sql_value :=
  match o with
  | OCol c => Some (row_get r c)
  | OParam n => if (n =? 0)%nat then None else env_args e !! (n - 1)%nat
  | ONow => Some (VTime (env_now e))
  end.

Fixpoint eval_cond (e : env) (r : Subscription) (p : cond) : option tv :=
  match p with
  | CCmp op a b =>
      va ← eval_operand e r a; vb ← eval_operand e r b;
      match va, vb with
      | VNull, _ | _, VNull => Some TUnknown
      | _, _ => c ← value_compare va vb; Some (tv_of_bool (cmp_holds op c))
      end
  | CIsNull a => va ← eval_operand e r a; Some (tv_of_bool (bool_decide (va = VNull)))
  | CAnd p q => x ← eval_cond e r p; y ← eval_cond e r q; Some (tv_and x y)
  | COr p q => x ← eval_cond e r p; y ← eval_cond e r q; Some (tv_or x y)
  end.

(** ** Statements *)

Inductive sort_dir := Asc | Desc.

#[export] Instance sort_dir_eq_dec : EqDecision sort_dir.
Proof. solve_decision. Defined.

Inductive select_list :=
  | SelColumns (cs : list column)
  | SelCoalesceSum (c : column) (dflt : Z).   (** [coalesce(sum(c), dflt)] *)

#[export] Instance select_list_eq_dec : EqDecision select_list.
Proof. solve_decision. Defined.

Record select_stmt := mkSelect {
  sel_list : select_list;
  sel_where : option cond;
  sel_order : option (column * sort_dir);
  sel_limit : option Z;
  sel_offset : option Z
}.

#[export] Instance select_stmt_eq_dec : EqDecision select_stmt.
Proof. solve_decision. Defined.

Inductive stmt :=
  | SSelect (q : select_stmt)
  | SInsert (cs : list column) (vs : list operand)
  | SUpdate (sets : list (column * operand)) (w : cond)
  | SDelete (w : cond).

#[export] Instance stmt_eq_dec : EqDecision stmt.
Proof. solve_decision. Defined.

(** ** The database

    The table's rows in storage order, and a connection failure that,
    when present, makes every statement fail. *)
Record db := mkDb { db_rows : list Subscription; db_down : option string }.

Inductive exec_result :=
  | RRows (rows : list (list sql_value))
  | RAffected (n : nat).

Definition err_param : go_error := ErrDriver "could not determine data type of parameter".
Definition err_type : go_error := ErrDriver "operator does not exist".

(** A row passes a WHERE clause only when the clause is TRUE. *)
Definition where_holds (e : env) (w : cond) (r : Subscription) : res bool :=
  match eval_cond e r w with
  | Some t => Ok (bool_decide (t = TTrue))
  | None => Err err_param
  end.

Fixpoint filter_rows (e : env) (w : cond) (rs : list Subscription) : res (list Subscription) :=
  match rs with
  | [] => Ok []
  | r :: rs' =>
      b <- where_holds e w r;;
      rest <- filter_rows e w rs';;
      Ok (if b then r :: rest else rest)
  end.

Definition filter_opt (e : env) (w : option cond) (rs : list Subscription) : res (list Subscription) :=
  match w with Some p => filter_rows e p rs | None => Ok rs end.

(** PostgreSQL's sort order: NULL sorts after every value. *)
Definition pg_le (a b : sql_value) : bool :=
  match a, b with
  | VNull, VNull => true
  | VNull, _ => false
  | _, VNull => true
  | _, _ => bool_decide (value_compare a b <> Some Gt)
  end.

Definition order_rel (c : column) (d : sort_dir) (a b : Subscription) : Prop :=
  match d with
  | Asc => pg_le (row_get a c) (row_get b c) = true
  | Desc => pg_le (row_get b c) (row_get a c) = true
  end.

#[export] Instance order_rel_dec c d : RelDecision (order_rel c d).
Proof. intros a b. destruct d; simpl; apply _. Defined.

(** ORDER BY: PostgreSQL leaves the order of ties unspecified; the
    model's merge sort is one of the orders it may produce, and the
    theorems below use only [Sorted] and [Permutation]. *)
Definition order_rows (o : option (column * sort_dir)) (rs : list Subscription) : list Subscription :=
  match o with
  | Some (c, d) => merge_sort (order_rel c d) rs
  | None => rs
  end.

Definition apply_offset (o : option Z) (rs : list Subscription) : res (list Subscription) :=
  match o with
  | None => Ok rs
  | Some n => if n <? 0 then Err (ErrDriver "OFFSET must not be negative") else Ok (drop (Z.to_nat n) rs)
  end.

Definition apply_limit (l : option Z) (rs : list Subscription) : res (list Subscription) :=
  match l with
  | None => Ok rs
  | Some n => if n <? 0 then Err (ErrDriver "LIMIT must not be negative") else Ok (take (Z.to_nat n) rs)
  end.

(** [sum] over a column of [bigint]: [NULL] on no rows. *)
Fixpoint sum_column (c : column) (rs : list Subscription) : res sql_value :=
  match rs with
  | [] => Ok VNull
  | r :: rs' =>
      acc <- sum_column c rs';;
      match row_get r c, acc with
      | VNull, _ => Ok acc
      | VInt x, VNull => Ok (VInt x)
      | VInt x, VInt y => Ok (VInt (x + y))
      | _, _ => Err err_type
      end
  end.

Definition coalesce (v : sql_value) (dflt : Z) : sql_value :=
  match v with VNull => VInt dflt | _ => v end.

Definition run_select (e : env) (q : select_stmt) (rs : list Subscription) : res (list (list sql_value)) :=
  sel <- filter_opt e (sel_where q) rs;;
  match sel_list q with
  | SelCoalesceSum c dflt =>
      s <- sum_column c sel;; Ok [[coalesce s dflt]]
  | SelColumns cs =>
      skipped <- apply_offset (sel_offset q) (order_rows (sel_order q) sel);;
      kept <- apply_limit (sel_limit q) skipped;;
      Ok (map (fun r => map (row_get r) cs) kept)
  end.

(** ** Insert, update, delete *)

Definition err_dup : go_error :=
  ErrDriver "duplicate key value violates unique constraint subscriptions_pkey".

(** A value of a VALUES list: a column reference is not allowed there. *)
Definition eval_value (e : env) (o : operand) : option sql_value :=
  match o with
  | OCol _ => None
  | _ => eval_operand e zero_subscription o
  end.

Fixpoint assign_columns (e : env) (cs : list column) (vs : list operand)
    (r : Subscription) : option Subscription :=
  match cs, vs with
  | [], [] => Some r
  | c :: cs', v :: vs' =>
      x ← eval_value e v; r' ← row_set r c x; assign_columns e cs' vs' r'
  | _, _ => None
  end.

(** Every column but the nullable [end_date] must be given, once. *)
Definition required_columns : list column :=
  [col_id; col_service_name; col_price; col_user_id; col_start_date; col_created_at].

Definition insert_row (e : env) (cs : list column) (vs : list operand) : res Subscription :=
  if bool_decide (NoDup cs) && forallb (fun c => bool_decide (c ∈ cs)) required_columns then
    match assign_columns e cs vs zero_subscription with
    | Some r => Ok r
    | None => Err err_type
    end
  else Err (ErrDriver "null value in column violates not-null constraint").

(** The SET list is evaluated against the row before the update. *)
Fixpoint apply_sets (e : env) (old : Subscription) (sets : list (column * operand))
    (r : Subscription) : option Subscription :=
  match sets with
  | [] => Some r
  | (c, o) :: sets' =>
      x ← eval_operand e old o; r' ← row_set r c x; apply_sets e old sets' r'
  end.

Fixpoint update_rows (e : env) (sets : list (column * operand)) (w : cond)
    (rs : list Subscription) : res (list Subscription * nat) :=
  match rs with
  | [] => Ok ([], 0%nat)
  | r :: rs' =>
      b <- where_holds e w r;;
      res_bind (update_rows e sets w rs') (fun '(rest, n) =>
        if b then
          match apply_sets e r sets r with
          | Some r' => Ok (r' :: rest, S n)
          | None => Err err_type
          end
        else Ok (r :: rest, n))
  end.

Fixpoint delete_rows (e : env) (w : cond) (rs : list Subscription)
    : res (list Subscription * nat) :=
  match rs with
  | [] => Ok ([], 0%nat)
  | r :: rs' =>
      b <- where_holds e w r;;
      res_bind (delete_rows e w rs') (fun '(rest, n) =>
        Ok (if b then (rest, S n) else (r :: rest, n)))
  end.

Definition ids_unique (rs : list Subscription) : bool := bool_decide (NoDup (map ID rs)).

Definition exec (e : env) (s : stmt) (d : db) : res (exec_result * db) :=
  match db_down d with
  | Some msg => Err (ErrDriver msg)
  | None =>
      match s with
      | SSelect q => out <- run_select e q (db_rows d);; Ok (RRows out, d)
      | SInsert cs vs =>
          r <- insert_row e cs vs;;
          if bool_decide (ID r ∈ map ID (db_rows d)) then Err err_dup
          else Ok (RAffected 1, mkDb (db_rows d ++ [r]) None)
      | SUpdate sets w =>
          res_bind (update_rows e sets w (db_rows d)) (fun '(rs', n) =>
            if ids_unique rs' then Ok (RAffected n, mkDb rs' None) else Err err_dup)
      | SDelete w =>
          res_bind (delete_rows e w (db_rows d)) (fun '(rs', n) =>
            Ok (RAffected n, mkDb rs' None))
      end
  end.

(** ** Lemmas on evaluation *)

Lemma string_compare_refl (s : string) : String.compare s s = Eq.
Proof.
  induction s as [|c s IH]; [done|]. simpl.
  unfold Ascii.compare. by rewrite N.compare_refl.
Qed.

Lemma string_compare_Eq (s1 s2 : string) : String.compare s1 s2 = Eq <-> s1 = s2.
Proof.
  split; [apply String.compare_eq_iff | intros ->; apply string_compare_refl].
Qed.

Lemma tv_of_bool_TTrue (b : bool) : bool_decide (tv_of_bool b = TTrue) = b.
Proof. by destruct b. Qed.

#[export] Hint Rewrite tv_of_bool_TTrue : svc.

(** [c=$n] on a uuid column. *)
Lemma eval_uuid_eq (e : env) (r : Subscription) (c : column) (n : nat) (u v : uuid) :
  row_get r c = VUuid v -> env_args e !! n = Some (VUuid u) ->
  eval_cond e r (CCmp OpEq (OCol c) (OParam (S n))) = Some (tv_of_bool (bool_decide (v = u))).
Proof.
  intros Hc Hn. simpl. rewrite Nat.sub_0_r, Hc, Hn. simpl. f_equal.
  destruct (Z.compare_spec v u); case_bool_decide; simpl; done || lia.
Qed.

(** [c=$n] on a text column. *)
Lemma eval_text_eq (e : env) (r : Subscription) (c : column) (n : nat) (s t : string) :
  row_get r c = VText t -> env_args e !! n = Some (VText s) ->
  eval_cond e r (CCmp OpEq (OCol c) (OParam (S n))) = Some (tv_of_bool (bool_decide (t = s))).
Proof.
  intros Hc Hn. simpl. rewrite Nat.sub_0_r, Hc, Hn. simpl. f_equal.
  destruct (decide (t = s)) as [->|Hne].
  - by rewrite string_compare_refl, bool_decide_true.
  - rewrite bool_decide_false by done.
    destruct (String.compare t s) eqn:Hts; [|done|done].
    by apply string_compare_Eq in Hts.
Qed.

Lemma eval_and_bool (e : env) (r : Subscription) (p q : cond) (a b : bool) :
  eval_cond e r p = Some (tv_of_bool a) -> eval_cond e r q = Some (tv_of_bool b) ->
  eval_cond e r (CAnd p q) = Some (tv_of_bool (a && b)).
Proof. intros Hp Hq. simpl. rewrite Hp, Hq. simpl. by destruct a, b. Qed.

Lemma where_holds_bool (e : env) (w : cond) (r : Subscription) (b : bool) :
  eval_cond e r w = Some (tv_of_bool b) -> where_holds e w r = Ok b.
Proof. intros H. unfold where_holds. rewrite H. by destruct b. Qed.

Section WhereSpec.
(** A WHERE clause that denotes the boolean predicate [f] on every row. *)
Context (e : env) (w : cond) (f : Subscription -> bool).
Hypothesis Hw : forall r, where_holds e w r = Ok (f r).

Lemma filter_rows_spec (rs : list Subscription) : filter_rows e w rs = Ok (filter f rs).
Proof.
  induction rs as [|r rs IH]; [done|]. simpl. rewrite Hw, IH. simpl.
  rewrite filter_cons. by destruct (f r).
Qed.

Lemma delete_rows_spec (rs : list Subscription) :
  delete_rows e w rs = Ok (filter (fun r => negb (f r)) rs, length (filter f rs)).
Proof.
  induction rs as [|r rs IH]; [done|]. simpl. rewrite Hw, IH. simpl.
  rewrite !filter_cons. by destruct (f r).
Qed.
(** An UPDATE whose SET list yields [g r] on each selected row. *)
Lemma update_rows_spec (sets : list (column * operand)) (g : Subscription -> Subscription)
    (rs : list Subscription) :
  (forall r, f r = true -> apply_sets e r sets r = Some (g r)) ->
  update_rows e sets w rs = Ok (map (fun r => if f r then g r else r) rs, length (filter f rs)).
Proof.
  intros Hg. induction rs as [|r rs IH]; [done|]. simpl. rewrite Hw, IH. simpl.
  rewrite filter_cons. destruct (f r) eqn:Hf; simpl; [by rewrite Hg|done].
Qed.
End WhereSpec.
