(* ===== verification/SqlText.v ===== *)
(** * SQL text: the lexer and parser of the statements the store sends

    [db.Exec], [db.Query] and [db.QueryRow] send SQL text with
    positional parameters; the server lexes and parses it.  This file
    models that front end for the fragment of [Sql]: whitespace of any
    kind separates tokens, keywords are case-insensitive, [$n] is a
    parameter and a digit string an integer literal.  [db_run] is the
    server's handling of one statement text: parse, then [Sql.exec]; a
    text outside the fragment is a syntax error.  Modelled from the
    PostgreSQL documentation (lexical structure, SELECT, INSERT,
    UPDATE, DELETE). *)

From S2P Require Import Prelude GoStrconv Model Sql.
From Stdlib Require Import Ascii String.

(** ** Lexer *)

Inductive token :=
  | TWord (w : string)     (** identifier or keyword, lower-cased *)
  | TNum (z : Z)           (** unsigned integer literal *)
  | TParam (n : nat)       (** [$n] *)
  | TSym (s : string).     (** punctuation or operator *)

#[export] Instance token_eq_dec : EqDecision token.
Proof. solve_decision. Defined.

Definition is_space (c : ascii) : bool :=
  let b := byte_of c in (b =? 32) || (b =? 9) || (b =? 10) || (b =? 13).

Definition is_punct (c : ascii) : bool :=
  let b := byte_of c in (b =? 40) || (b =? 41) || (b =? 44) || (b =? 42) || (b =? 45).

Definition is_opchar (c : ascii) : bool :=
  let b := byte_of c in (b =? 60) || (b =? 61) || (b =? 62).

Definition is_word_char (c : ascii) : bool :=
  negb (is_space c || is_punct c || is_opchar c).

Definition lower (c : ascii) : ascii :=
  let b := byte_of c in
  if (65 <=? b) && (b <=? 90) then ascii_of_nat (Z.to_nat (b + 32)) else c.

(** A finished word: a number, a parameter or an identifier. *)
Definition classify (w : list ascii) : token :=
  match w with
  | [] => TWord ""
  | c :: rest =>
      if forallb is_digit w then TNum (dec_val 0 w)
      else if Ascii.eqb c "$"%char && negb (bool_decide (rest = [])) && forallb is_digit rest
      then TParam (Z.to_nat (dec_val 0 rest))
      else TWord (string_of_list_ascii (map lower w))
  end.

(** Emit the pending characters ([acc] is reversed); [op] says whether
    they are operator characters. *)
Definition flush (acc : list ascii) (op : bool) : list token :=
  match acc with
  | [] => []
  | _ => if op then [TSym (string_of_list_ascii (rev acc))] else [classify (rev acc)]
  end.

Fixpoint lex (cs : list ascii) (acc : list ascii) (op : bool) : list token :=
  match cs with
  | [] => flush acc op
  | c :: cs' =>
      if is_space c then flush acc op ++ lex cs' [] false
      else if is_punct c then flush acc op ++ TSym (String c EmptyString) :: lex cs' [] false
      else if is_opchar c then
        if op then lex cs' (c :: acc) true else flush acc op ++ lex cs' [c] true
      else if op then flush acc op ++ lex cs' [c] false
      else lex cs' (c :: acc) false
  end.

Definition tokens (s : string) : list token := lex (list_ascii_of_string s) [] false.

(** ** Lexing of concatenated text *)

Lemma lex_app_space (p0 q : list ascii) (sp : ascii) (acc : list ascii) (op : bool) :
  is_space sp = true ->
  lex ((p0 ++ [sp]) ++ q) acc op = lex (p0 ++ [sp]) acc op ++ lex q [] false.
Proof.
  intros Hsp. revert acc op; induction p0 as [|c p0 IH]; intros acc op; simpl.
  - rewrite Hsp. simpl. by rewrite app_nil_r.
  - destruct (is_space c), (is_punct c), (is_opchar c), op;
      rewrite ?IH, <- ?app_assoc; reflexivity.
Qed.

(** A run of word characters is accumulated. *)
Lemma lex_word_run (w r acc : list ascii) :
  Forall (fun c => is_word_char c = true) w ->
  lex (w ++ r) acc false = lex r (rev w ++ acc) false.
Proof.
  revert acc; induction w as [|c w IH]; intros acc Hw; [done|].
  inversion Hw as [|? ? Hc Hw']; subst. unfold is_word_char in Hc.
  simpl. destruct (is_space c), (is_punct c), (is_opchar c); try discriminate.
  rewrite IH by done. by rewrite <- app_assoc.
Qed.

Lemma is_digit_word_char (c : ascii) : is_digit c = true -> is_word_char c = true.
Proof.
  unfold is_digit, is_word_char, is_space, is_punct, is_opchar.
  intros H. apply andb_true_iff in H as [H1 H2]. apply Z.leb_le in H1, H2.
  repeat match goal with |- context [?a =? ?b] =>
    let E := fresh in destruct (Z.eqb_spec a b) as [E|E]; [lia|] end.
  done.
Qed.

(** ** Parser

    Recursive descent over the tokens.  Each parser returns what it
    read and the tokens left.  The condition parsers are mutually
    recursive on a fuel argument; [parse] gives them four units of fuel
    per token, more than the depth of any call chain (each level of
    nesting or of a chain consumes a token). *)

Definition column_of_name (w : string) : option column :=
  if String.eqb w "id" then Some col_id
  else if String.eqb w "service_name" then Some col_service_name
  else if String.eqb w "price" then Some col_price
  else if String.eqb w "user_id" then Some col_user_id
  else if String.eqb w "start_date" then Some col_start_date
  else if String.eqb w "end_date" then Some col_end_date
  else if String.eqb w "created_at" then Some col_created_at
  else None.

Definition cmp_of_sym (s : string) : option cmp_op :=
  if String.eqb s "=" then Some OpEq
  else if String.eqb s ">=" then Some OpGe
  else if String.eqb s "<=" then Some OpLe
  else None.

Definition expect (t : token) (ts : list token) : option (list token) :=
  match ts with
  | t' :: ts' => if decide (t = t') then Some ts' else None
  | [] => None
  end.

Definition p_column (ts : list token) : option (column * list token) :=
  match ts with
  | TWord w :: ts' => c ← column_of_name w; Some (c, ts')
  | _ => None
  end.

Definition p_operand (ts : list token) : option (operand * list token) :=
  match ts with
  | TParam n :: ts' => Some (OParam n, ts')
  | TWord w :: ts' =>
      if String.eqb w "now" then
        r ← expect (TSym "(") ts'; r' ← expect (TSym ")") r; Some (ONow, r')
      else c ← column_of_name w; Some (OCol c, ts')
  | _ => None
  end.

(** [a op b] or [a IS NULL]. *)
Definition p_predicate (ts : list token) : option (cond * list token) :=
  '(a, r) ← p_operand ts;
  match r with
  | TWord w :: r' =>
      if String.eqb w "is" then r'' ← expect (TWord "null") r'; Some (CIsNull a, r'')
      else None
  | TSym s :: r' => op ← cmp_of_sym s; '(b, r'') ← p_operand r'; Some (CCmp op a b, r'')
  | _ => None
  end.

Fixpoint p_cond (fuel : nat) (ts : list token) : option (cond * list token) :=
  match fuel with
  | O => None
  | S f => '(a, r) ← p_conj f ts; p_disj_tail f a r
  end
with p_disj_tail (fuel : nat) (acc : cond) (ts : list token) : option (cond * list token) :=
  match fuel with
  | O => None
  | S f =>
      match ts with
      | TWord w :: r =>
          if String.eqb w "or" then '(b, r') ← p_conj f r; p_disj_tail f (COr acc b) r'
          else Some (acc, ts)
      | _ => Some (acc, ts)
      end
  end
with p_conj (fuel : nat) (ts : list token) : option (cond * list token) :=
  match fuel with
  | O => None
  | S f => '(a, r) ← p_atom f ts; p_conj_tail f a r
  end
with p_conj_tail (fuel : nat) (acc : cond) (ts : list token) : option (cond * list token) :=
  match fuel with
  | O => None
  | S f =>
      match ts with
      | TWord w :: r =>
          if String.eqb w "and" then '(b, r') ← p_atom f r; p_conj_tail f (CAnd acc b) r'
          else Some (acc, ts)
      | _ => Some (acc, ts)
      end
  end
with p_atom (fuel : nat) (ts : list token) : option (cond * list token) :=
  match fuel with
  | O => None
  | S f =>
      match ts with
      | TSym s :: r =>
          if String.eqb s "(" then
            '(c, r') ← p_cond f r; r'' ← expect (TSym ")") r'; Some (c, r'')
          else None
      | _ => p_predicate ts
      end
  end.

(** An integer literal, possibly negated: [LIMIT -5] parses, and is
    rejected when the statement runs. *)
Definition p_int (ts : list token) : option (Z * list token) :=
  match ts with
  | TNum z :: r => Some (z, r)
  | TSym s :: TNum z :: r => if String.eqb s "-" then Some (- z, r) else None
  | _ => None
  end.

Fixpoint p_column_list (fuel : nat) (ts : list token) : option (list column * list token) :=
  match fuel with
  | O => None
  | S f =>
      '(c, r) ← p_column ts;
      match r with
      | TSym s :: r' =>
          if String.eqb s "," then '(cs, r'') ← p_column_list f r'; Some (c :: cs, r'')
          else Some ([c], r)
      | _ => Some ([c], r)
      end
  end.

Fixpoint p_operand_list (fuel : nat) (ts : list token) : option (list operand * list token) :=
  match fuel with
  | O => None
  | S f =>
      '(o, r) ← p_operand ts;
      match r with
      | TSym s :: r' =>
          if String.eqb s "," then '(os, r'') ← p_operand_list f r'; Some (o :: os, r'')
          else Some ([o], r)
      | _ => Some ([o], r)
      end
  end.

Fixpoint p_set_list (fuel : nat) (ts : list token) : option (list (column * operand) * list token) :=
  match fuel with
  | O => None
  | S f =>
      '(c, r) ← p_column ts; r1 ← expect (TSym "=") r; '(o, r2) ← p_operand r1;
      match r2 with
      | TSym s :: r' =>
          if String.eqb s "," then '(ss, r'') ← p_set_list f r'; Some ((c, o) :: ss, r'')
          else Some ([(c, o)], r2)
      | _ => Some ([(c, o)], r2)
      end
  end.

Definition p_word (w : string) (ts : list token) : option (list token) := expect (TWord w) ts.

Definition p_select_list (fuel : nat) (ts : list token) : option (select_list * list token) :=
  match ts with
  | TWord w :: r =>
      if String.eqb w "coalesce" then
        r1 ← expect (TSym "(") r; r2 ← p_word "sum" r1; r3 ← expect (TSym "(") r2;
        '(c, r4) ← p_column r3; r5 ← expect (TSym ")") r4; r6 ← expect (TSym ",") r5;
        '(z, r7) ← p_int r6; r8 ← expect (TSym ")") r7;
        Some (SelCoalesceSum c z, r8)
      else '(cs, r') ← p_column_list fuel ts; Some (SelColumns cs, r')
  | _ => None
  end.

(** An optional clause introduced by the keyword [w]. *)
Definition p_opt_clause {A} (w : string) (p : list token -> option (A * list token))
    (ts : list token) : option (option A * list token) :=
  match ts with
  | TWord w' :: r => if String.eqb w w' then '(a, r') ← p r; Some (Some a, r') else Some (None, ts)
  | _ => Some (None, ts)
  end.

(** [BY column [ASC | DESC]], after the keyword [ORDER]. *)
Definition p_order_by (ts : list token) : option ((column * sort_dir) * list token) :=
  r ← p_word "by" ts; '(c, r1) ← p_column r;
  match r1 with
  | TWord w :: r2 =>
      if String.eqb w "desc" then Some ((c, Desc), r2)
      else if String.eqb w "asc" then Some ((c, Asc), r2)
      else Some ((c, Asc), r1)
  | _ => Some ((c, Asc), r1)
  end.

Definition p_select (fuel : nat) (ts : list token) : option (select_stmt * list token) :=
  r0 ← p_word "select" ts; '(items, r1) ← p_select_list fuel r0;
  r2 ← p_word "from" r1; r3 ← p_word "subscriptions" r2;
  '(w, r4) ← p_opt_clause "where" (p_cond fuel) r3;
  '(o, r5) ← p_opt_clause "order" p_order_by r4;
  '(l, r6) ← p_opt_clause "limit" p_int r5;
  '(off, r7) ← p_opt_clause "offset" p_int r6;
  Some (mkSelect items w o l off, r7).

Definition p_stmt (fuel : nat) (ts : list token) : option (stmt * list token) :=
  match ts with
  | TWord w :: r =>
      if String.eqb w "select" then '(q, r') ← p_select fuel ts; Some (SSelect q, r')
      else if String.eqb w "insert" then
        r1 ← p_word "into" r; r2 ← p_word "subscriptions" r1; r3 ← expect (TSym "(") r2;
        '(cs, r4) ← p_column_list fuel r3; r5 ← expect (TSym ")") r4;
        r6 ← p_word "values" r5; r7 ← expect (TSym "(") r6;
        '(vs, r8) ← p_operand_list fuel r7; r9 ← expect (TSym ")") r8;
        Some (SInsert cs vs, r9)
      else if String.eqb w "update" then
        r1 ← p_word "subscriptions" r; r2 ← p_word "set" r1;
        '(ss, r3) ← p_set_list fuel r2; r4 ← p_word "where" r3;
        '(c, r5) ← p_cond fuel r4; Some (SUpdate ss c, r5)
      else if String.eqb w "delete" then
        r1 ← p_word "from" r; r2 ← p_word "subscriptions" r1; r3 ← p_word "where" r2;
        '(c, r4) ← p_cond fuel r3; Some (SDelete c, r4)
      else None
  | _ => None
  end.

(** A statement is accepted only when it is read in full. *)
Definition parse (ts : list token) : option stmt :=
  match p_stmt (4 * Datatypes.length ts + 4) ts with
  | Some (s, []) => Some s
  | _ => None
  end.

Definition err_syntax : go_error := ErrDriver "syntax error".

(** The server's handling of one statement text with its arguments. *)
Definition db_run (d : db) (now : time) (text : string) (args : list sql_value)
    : res (exec_result * db) :=
  match db_down d with
  | Some msg => Err (ErrDriver msg)
  | None =>
      match parse (tokens text) with
      | Some s => exec (mkEnv args now) s d
      | None => Err err_syntax
      end
  end.

(** ** Lexing of the numbers [%d] prints *)

(** The tokens of an [int] literal: [-] and the magnitude when negative. *)
Definition int_tokens (n : Z) : list token :=
  if n <? 0 then [TSym "-"; TNum (- n)] else [TNum n].

Lemma p_int_int_tokens (n : Z) (r : list token) :
  p_int (int_tokens n ++ r) = Some (n, r).
Proof.
  unfold int_tokens. destruct (n <? 0); simpl; [|done].
  rewrite Z.opp_involutive. done.
Qed.

Lemma classify_digits (ds : list ascii) :
  ds <> [] -> Forall (fun c => is_digit c = true) ds -> classify ds = TNum (dec_val 0 ds).
Proof.
  intros Hne Hf. destruct ds as [|d ds]; [done|]. unfold classify.
  replace (forallb is_digit (d :: ds)) with true; [done|].
  symmetry. apply forallb_forall. intros x Hx. rewrite Forall_forall in Hf.
  apply Hf. by apply list_elem_of_In.
Qed.

(** The text after a number starts with a separator or ends. *)
Definition starts_with_space (r : list ascii) : Prop :=
  match r with [] => True | c :: _ => is_space c = true end.

Lemma lex_at_separator (r acc : list ascii) :
  starts_with_space r -> lex r acc false = flush acc false ++ lex r [] false.
Proof.
  destruct r as [|c r]; simpl; [by rewrite app_nil_r|].
  intros ->. done.
Qed.

Lemma lex_digits (ds r : list ascii) :
  ds <> [] -> Forall (fun c => is_digit c = true) ds -> starts_with_space r ->
  lex (ds ++ r) [] false = TNum (dec_val 0 ds) :: lex r [] false.
Proof.
  intros Hne Hf Hr.
  rewrite lex_word_run by (eapply Forall_impl; [exact Hf | apply is_digit_word_char]).
  rewrite app_nil_r, lex_at_separator by done. unfold flush.
  destruct (rev ds) eqn:E; [apply (f_equal (@rev ascii)) in E; by rewrite rev_involutive in E|].
  rewrite <- E, rev_involutive, classify_digits by done. done.
Qed.

Lemma lex_format_d (n : Z) (r : list ascii) :
  int_min <= n <= int_max -> starts_with_space r ->
  lex (list_ascii_of_string (format_d n) ++ r) [] false = int_tokens n ++ lex r [] false.
Proof.
  intros Hn Hr. destruct (format_d_digits n Hn) as (ds & Hne & Hf & Hv & ->).
  rewrite list_ascii_of_string_of_list_ascii. unfold int_tokens.
  destruct (n <? 0) eqn:Hneg.
  - apply Z.ltb_lt in Hneg. simpl. rewrite lex_digits by done. rewrite Hv.
    do 3 f_equal. lia.
  - apply Z.ltb_ge in Hneg. rewrite lex_digits by done. rewrite Hv. simpl. do 2 f_equal. lia.
Qed.

(** Lexing a text that ends in a separator, then more text. *)
Lemma lex_app_sep (p q : list ascii) :
  match last p with Some sp => is_space sp = true | None => False end ->
  lex (p ++ q) [] false = lex p [] false ++ lex q [] false.
Proof.
  intros Hl. destruct (last p) as [sp|] eqn:E; [|done].
  destruct (last_Some p sp) as [[p0 ->] _]; [done|]. by apply lex_app_space.
Qed.
