(* ===== verification/SqlFuel.v ===== *)
(** * Termination of the SQL parser: the fuel of [parse] is enough

    The condition and list parsers of [SqlText] recurse on a fuel
    argument, and [parse] gives [4 * n + 4] units for [n] tokens.  This
    file shows that the bound never cuts a parse short: every parser
    consumes at least one token per recursive call, so past the bound
    more fuel gives the same result ([parse_fuel_adequate]).  A [None]
    from [parse] is therefore a syntax error of the text, never an
    exhausted fuel. *)

From S2P Require Import Prelude GoStrconv Model Sql SqlText.
From Stdlib Require Import Ascii String.

Abbreviation len := Datatypes.length.
Local Open Scope nat_scope.

(** ** Every parser returns a suffix no longer than its input *)

Lemma expect_len (t : token) (ts r : list token) : expect t ts = Some r -> len r < len ts.
Proof. destruct ts as [|t' ts]; [done|]. simpl. case_decide; intros; simplify_eq; simpl; lia. Qed.

Lemma p_column_len (ts r : list token) c : p_column ts = Some (c, r) -> len r < len ts.
Proof.
  destruct ts as [|[] ts]; try done. simpl. destruct (column_of_name _); intros; simplify_eq/=; lia.
Qed.

Lemma p_operand_len (ts r : list token) o : p_operand ts = Some (o, r) -> len r < len ts.
Proof.
  destruct ts as [|[w| |n|] ts]; try done; simpl.
  - case_match.
    + destruct (expect _ ts) as [r1|] eqn:E1; [|done]. simpl.
      destruct (expect _ r1) as [r2|] eqn:E2; [|done]. simpl. intros; simplify_eq.
      apply expect_len in E1, E2. lia.
    + destruct (column_of_name _); intros; simplify_eq/=; lia.
  - intros; simplify_eq/=; lia.
Qed.

Lemma p_predicate_len (ts r : list token) c : p_predicate ts = Some (c, r) -> len r < len ts.
Proof.
  unfold p_predicate. destruct (p_operand ts) as [[a r1]|] eqn:E; [|done]. simpl.
  apply p_operand_len in E.
  destruct r1 as [|[w| | |s] r1]; try done.
  - case_match; [|done]. destruct (expect _ r1) as [r2|] eqn:E2; [|done]. simpl.
    intros; simplify_eq. apply expect_len in E2. simpl in *; lia.
  - destruct (cmp_of_sym s); [|done]. simpl.
    destruct (p_operand r1) as [[b r2]|] eqn:E2; [|done]. simpl.
    intros; simplify_eq. apply p_operand_len in E2. simpl in *; lia.
Qed.

(** The condition parsers: [p_cond], [p_conj] and [p_atom] consume at
    least one token, the two tails none or more. *)
Lemma p_cond_len (n : nat) :
  (forall ts c r, p_cond n ts = Some (c, r) -> len r < len ts) /\
  (forall acc ts c r, p_disj_tail n acc ts = Some (c, r) -> len r <= len ts) /\
  (forall ts c r, p_conj n ts = Some (c, r) -> len r < len ts) /\
  (forall acc ts c r, p_conj_tail n acc ts = Some (c, r) -> len r <= len ts) /\
  (forall ts c r, p_atom n ts = Some (c, r) -> len r < len ts).
Proof.
  induction n as [|f (IHc & IHd & IHj & IHt & IHa)]; [done|].
  split_and!; simpl.
  - intros ts c r. destruct (p_conj f ts) as [[a r1]|] eqn:E; [|done]. simpl.
    intros Hr. apply IHj in E. apply IHd in Hr. lia.
  - intros acc ts c r. destruct ts as [|[w| | |] ts]; try (intros; simplify_eq/=; lia).
    case_match; [|intros; simplify_eq/=; lia].
    destruct (p_conj f ts) as [[b r1]|] eqn:E; [|done]. simpl.
    intros Hr. apply IHj in E. apply IHd in Hr. simpl. lia.
  - intros ts c r. destruct (p_atom f ts) as [[a r1]|] eqn:E; [|done]. simpl.
    intros Hr. apply IHa in E. apply IHt in Hr. lia.
  - intros acc ts c r. destruct ts as [|[w| | |] ts]; try (intros; simplify_eq/=; lia).
    case_match; [|intros; simplify_eq/=; lia].
    destruct (p_atom f ts) as [[b r1]|] eqn:E; [|done]. simpl.
    intros Hr. apply IHa in E. apply IHt in Hr. simpl. lia.
  - intros ts c r. destruct ts as [|[| | |s] ts'] eqn:Ets; try (apply p_predicate_len).
    case_match; [|done].
    destruct (p_cond f ts') as [[c1 r1]|] eqn:E; [|done]. simpl.
    destruct (expect _ r1) as [r2|] eqn:E2; [|done]. simpl.
    intros; simplify_eq. apply IHc in E. apply expect_len in E2. simpl. lia.
Qed.

(** ** More fuel gives the same result past the bound *)

(** The condition parsers are stable from [4 * n + k] units of fuel for
    [n] tokens, with [k] from [1] to [3] by the depth of the call chain
    before a token is consumed. *)
Lemma p_cond_fuel (n : nat) :
  (forall ts, 4 * len ts + 3 <= n -> forall m, n <= m -> p_cond m ts = p_cond n ts) /\
  (forall acc ts, 4 * len ts + 1 <= n -> forall m, n <= m -> p_disj_tail m acc ts = p_disj_tail n acc ts) /\
  (forall ts, 4 * len ts + 2 <= n -> forall m, n <= m -> p_conj m ts = p_conj n ts) /\
  (forall acc ts, 4 * len ts + 1 <= n -> forall m, n <= m -> p_conj_tail m acc ts = p_conj_tail n acc ts) /\
  (forall ts, 4 * len ts + 1 <= n -> forall m, n <= m -> p_atom m ts = p_atom n ts).
Proof.
  induction n as [|f (IHc & IHd & IHj & IHt & IHa)]; [split_and!; intros; lia|].
  destruct (p_cond_len f) as (Lc & Ld & Lj & Lt & La).
  split_and!; intros; (destruct m as [|g]; [lia|]); simpl.
  - rewrite (IHj ts) by lia. destruct (p_conj f ts) as [[a r]|] eqn:E; [|done]. simpl.
    apply Lj in E. apply IHd; lia.
  - destruct ts as [|[w| | |] ts]; try done. case_match; [|done].
    rewrite (IHj ts) by (simpl in *; lia). destruct (p_conj f ts) as [[b r]|] eqn:E; [|done].
    simpl. apply Lj in E. apply IHd; simpl in *; lia.
  - rewrite (IHa ts) by lia. destruct (p_atom f ts) as [[a r]|] eqn:E; [|done]. simpl.
    apply La in E. apply IHt; lia.
  - destruct ts as [|[w| | |] ts]; try done. case_match; [|done].
    rewrite (IHa ts) by (simpl in *; lia). destruct (p_atom f ts) as [[b r]|] eqn:E; [|done].
    simpl. apply La in E. apply IHt; simpl in *; lia.
  - destruct ts as [|[| | |s] ts]; try done. case_match; [|done].
    by rewrite (IHc ts) by (simpl in *; lia).
Qed.

(** ** The list parsers *)

Lemma p_column_list_len (n : nat) ts cs r : p_column_list n ts = Some (cs, r) -> len r < len ts.
Proof.
  revert ts cs r. induction n as [|f IH]; intros ts cs r; [done|]. simpl.
  destruct (p_column ts) as [[c r1]|] eqn:E; [|done]. simpl. apply p_column_len in E.
  destruct r1 as [|[| | |s] r1]; try (intros; simplify_eq/=; lia). case_match; [|intros; simplify_eq/=; lia].
  destruct (p_column_list f r1) as [[cs' r2]|] eqn:E2; [|done]. simpl.
  intros; simplify_eq. apply IH in E2. simpl in *. lia.
Qed.

Lemma p_column_list_fuel (n : nat) ts :
  len ts + 1 <= n -> forall m, n <= m -> p_column_list m ts = p_column_list n ts.
Proof.
  revert ts. induction n as [|f IH]; intros ts Hn m Hm; [lia|]. destruct m as [|g]; [lia|]. simpl.
  destruct (p_column ts) as [[c r1]|] eqn:E; [|done]. simpl. apply p_column_len in E.
  destruct r1 as [|[| | |s] r1]; try done. case_match; [|done].
  rewrite (IH r1) by (simpl in *; lia). done.
Qed.

Lemma p_operand_list_len (n : nat) ts os r : p_operand_list n ts = Some (os, r) -> len r < len ts.
Proof.
  revert ts os r. induction n as [|f IH]; intros ts os r; [done|]. simpl.
  destruct (p_operand ts) as [[o r1]|] eqn:E; [|done]. simpl. apply p_operand_len in E.
  destruct r1 as [|[| | |s] r1]; try (intros; simplify_eq/=; lia). case_match; [|intros; simplify_eq/=; lia].
  destruct (p_operand_list f r1) as [[os' r2]|] eqn:E2; [|done]. simpl.
  intros; simplify_eq. apply IH in E2. simpl in *. lia.
Qed.

Lemma p_operand_list_fuel (n : nat) ts :
  len ts + 1 <= n -> forall m, n <= m -> p_operand_list m ts = p_operand_list n ts.
Proof.
  revert ts. induction n as [|f IH]; intros ts Hn m Hm; [lia|]. destruct m as [|g]; [lia|]. simpl.
  destruct (p_operand ts) as [[o r1]|] eqn:E; [|done]. simpl. apply p_operand_len in E.
  destruct r1 as [|[| | |s] r1]; try done. case_match; [|done].
  rewrite (IH r1) by (simpl in *; lia). done.
Qed.

(** One [column = operand] item of a SET list. *)
Lemma p_set_item_len ts c r1 r o r2 :
  p_column ts = Some (c, r1) -> expect (TSym "=") r1 = Some r -> p_operand r = Some (o, r2) ->
  len r2 < len ts.
Proof. intros E1 E2 E3. apply p_column_len in E1. apply expect_len in E2. apply p_operand_len in E3. lia. Qed.

Lemma p_set_list_len (n : nat) ts ss r : p_set_list n ts = Some (ss, r) -> len r < len ts.
Proof.
  revert ts ss r. induction n as [|f IH]; intros ts ss r; [done|]. simpl.
  destruct (p_column ts) as [[c r1]|] eqn:E1; [|done]. simpl.
  destruct (expect _ r1) as [r1'|] eqn:E2; [|done]. simpl.
  destruct (p_operand r1') as [[o r2]|] eqn:E3; [|done]. simpl.
  pose proof (p_set_item_len _ _ _ _ _ _ E1 E2 E3) as Hl.
  destruct r2 as [|[| | |s] r2]; try (intros; simplify_eq/=; lia). case_match; [|intros; simplify_eq/=; lia].
  destruct (p_set_list f r2) as [[ss' r3]|] eqn:E4; [|done]. simpl.
  intros; simplify_eq. apply IH in E4. simpl in *. lia.
Qed.

Lemma p_set_list_fuel (n : nat) ts :
  len ts + 1 <= n -> forall m, n <= m -> p_set_list m ts = p_set_list n ts.
Proof.
  revert ts. induction n as [|f IH]; intros ts Hn m Hm; [lia|]. destruct m as [|g]; [lia|]. simpl.
  destruct (p_column ts) as [[c r1]|] eqn:E1; [|done]. simpl.
  destruct (expect _ r1) as [r1'|] eqn:E2; [|done]. simpl.
  destruct (p_operand r1') as [[o r2]|] eqn:E3; [|done]. simpl.
  pose proof (p_set_item_len _ _ _ _ _ _ E1 E2 E3) as Hl.
  destruct r2 as [|[| | |s] r2]; try done. case_match; [|done].
  rewrite (IH r2) by (simpl in *; lia). done.
Qed.

(** ** Statements *)

Lemma p_int_len ts z r : p_int ts = Some (z, r) -> len r < len ts.
Proof.
  unfold p_int. destruct ts as [|[| | |s] ts]; try (intros; simplify_eq/=; lia).
  destruct ts as [|[] ts]; try done. case_match; intros; simplify_eq/=; lia.
Qed.

Lemma p_select_list_len (n : nat) ts it r : p_select_list n ts = Some (it, r) -> len r < len ts.
Proof.
  unfold p_select_list. destruct ts as [|[w| | |] ts]; try done. case_match.
  - destruct (expect _ ts) as [r1|] eqn:E1; [|done]. simpl.
    destruct (p_word _ r1) as [r2|] eqn:E2; [|done]. simpl.
    destruct (expect _ r2) as [r3|] eqn:E3; [|done]. simpl.
    destruct (p_column r3) as [[c r4]|] eqn:E4; [|done]. simpl.
    destruct (expect _ r4) as [r5|] eqn:E5; [|done]. simpl.
    destruct (expect _ r5) as [r6|] eqn:E6; [|done]. simpl.
    destruct (p_int r6) as [[z r7]|] eqn:E7; [|done]. simpl.
    destruct (expect _ r7) as [r8|] eqn:E8; [|done]. simpl. intros; simplify_eq.
    apply expect_len in E1, E3, E5, E6, E8. apply expect_len in E2. apply p_column_len in E4.
    apply p_int_len in E7. simpl. lia.
  - destruct (p_column_list n _) as [[cs r1]|] eqn:E; [|done]. simpl. intros; simplify_eq.
    by apply p_column_list_len in E.
Qed.

Lemma p_select_list_fuel (n : nat) ts :
  len ts + 1 <= n -> forall m, n <= m -> p_select_list m ts = p_select_list n ts.
Proof.
  intros Hn m Hm. unfold p_select_list. destruct ts as [|[w| | |] ts]; try done.
  case_match; [done|]. by rewrite (p_column_list_fuel n).
Qed.

Lemma p_opt_clause_len {A} (w : string) (p : list token -> option (A * list token)) ts x r :
  (forall ts' y r', len ts' < len ts -> p ts' = Some (y, r') -> len r' <= len ts') ->
  p_opt_clause w p ts = Some (x, r) -> len r <= len ts.
Proof.
  intros Hp. unfold p_opt_clause. destruct ts as [|[w'| | |] ts]; try (intros; simplify_eq/=; lia).
  case_match; [|intros; simplify_eq/=; lia].
  destruct (p ts) as [[y r1]|] eqn:E; [|done]. simpl. intros; simplify_eq.
  apply Hp in E; simpl; lia.
Qed.

Lemma p_select_fuel (n : nat) ts :
  4 * len ts + 3 <= n -> forall m, n <= m -> p_select m ts = p_select n ts.
Proof.
  intros Hn m Hm. unfold p_select.
  destruct (p_word "select" ts) as [r0|] eqn:E0; [|done]. simpl. apply expect_len in E0.
  rewrite (p_select_list_fuel n) by lia.
  destruct (p_select_list n r0) as [[it r1]|] eqn:E1; [|done]. simpl. apply p_select_list_len in E1.
  destruct (p_word "from" r1) as [r2|] eqn:E2; [|done]. simpl. apply expect_len in E2.
  destruct (p_word "subscriptions" r2) as [r3|] eqn:E3; [|done]. simpl. apply expect_len in E3.
  destruct r3 as [|[w| | |] r3]; try done. cbn [p_opt_clause].
  destruct (String.eqb "where" w); [|done].
  destruct (p_cond_fuel n) as [Hc _]. rewrite (Hc r3) by (simpl in *; lia). done.
Qed.

Lemma p_stmt_fuel (n : nat) ts :
  4 * len ts + 3 <= n -> forall m, n <= m -> p_stmt m ts = p_stmt n ts.
Proof.
  intros Hn m Hm. destruct (p_cond_fuel n) as [Hc _].
  destruct ts as [|[w| | |] r]; try done. simpl in Hn. cbn [p_stmt].
  destruct (String.eqb w "select"); [by rewrite (p_select_fuel n) by (simpl; lia)|].
  destruct (String.eqb w "insert").
  { destruct (p_word "into" r) as [r1|] eqn:E1; [|done]. simpl. apply expect_len in E1.
    destruct (p_word "subscriptions" r1) as [r2|] eqn:E2; [|done]. simpl. apply expect_len in E2.
    destruct (expect _ r2) as [r3|] eqn:E3; [|done]. simpl. apply expect_len in E3.
    rewrite (p_column_list_fuel n r3 ltac:(lia) m Hm).
    destruct (p_column_list n r3) as [[cs r4]|] eqn:E4; [|done]. simpl. apply p_column_list_len in E4.
    destruct (expect _ r4) as [r5|] eqn:E5; [|done]. simpl. apply expect_len in E5.
    destruct (p_word "values" r5) as [r6|] eqn:E6; [|done]. simpl. apply expect_len in E6.
    destruct (expect _ r6) as [r7|] eqn:E7; [|done]. simpl. apply expect_len in E7.
    by rewrite (p_operand_list_fuel n r7 ltac:(lia) m Hm). }
  destruct (String.eqb w "update").
  { destruct (p_word "subscriptions" r) as [r1|] eqn:E1; [|done]. simpl. apply expect_len in E1.
    destruct (p_word "set" r1) as [r2|] eqn:E2; [|done]. simpl. apply expect_len in E2.
    rewrite (p_set_list_fuel n r2 ltac:(lia) m Hm).
    destruct (p_set_list n r2) as [[ss r3]|] eqn:E3; [|done]. simpl. apply p_set_list_len in E3.
    destruct (p_word "where" r3) as [r4|] eqn:E4; [|done]. simpl. apply expect_len in E4.
    by rewrite (Hc r4) by lia. }
  destruct (String.eqb w "delete"); [|done].
  destruct (p_word "from" r) as [r1|] eqn:E1; [|done]. simpl. apply expect_len in E1.
  destruct (p_word "subscriptions" r1) as [r2|] eqn:E2; [|done]. simpl. apply expect_len in E2.
  destruct (p_word "where" r2) as [r3|] eqn:E3; [|done]. simpl. apply expect_len in E3.
  by rewrite (Hc r3) by lia.
Qed.

(** Termination of the parser: the fuel [parse] gives is
    adequate.  Running the statement parser with any fuel beyond
    [4 * n + 4] for [n] tokens gives what [parse] gives, so [parse]
    rejects a text only because the text is not in the grammar, never
    because the recursion ran out. *)
Theorem parse_fuel_adequate (ts : list token) (m : nat) :
  4 * len ts + 4 <= m ->
  parse ts = match p_stmt m ts with Some (s, []) => Some s | _ => None end.
Proof. intros Hm. unfold parse. by rewrite (p_stmt_fuel (4 * len ts + 4) ts ltac:(lia) m Hm). Qed.
