(* ===== verification/Store.v ===== *)
(** * The storage layer (src/internal/store/pg.go)

    The [Store] interface of pg.go as a typeclass over the store's
    state: each operation takes the state and returns its result and
    the new state, as a method call on a [*PostgresStore] changes the
    database.  [PostgresStore] implements it: each method builds one
    SQL text with its arguments, runs it with [SqlText.db_run] on the
    database at the current [now()], and scans the returned rows.
    The query builders of [List] and [Summary] follow the code line by
    line (clause list, argument list, [$n] numbering from
    [len(args)+1], [sqlx.Rebind], the [ORDER BY ... LIMIT %d OFFSET %d]
    suffix).  The raw-string SQL literals of pg.go are written with
    their line breaks and indentation collapsed to single spaces, which
    the lexer treats alike.  [List]'s [rows.Next()] loop reads a
    [rows_stream], which the driver may end with an error; the database
    model of [Sql] always delivers complete results, so the error case
    is stated of the loop itself ([List_loop_drops_error]). *)

From S2P Require Import Prelude GoStrconv Model Sql SqlText.
From Stdlib Require Import Ascii String.

(** ** The interface, pg.go lines 13-20

    [List] returns a Go slice, which may be [nil]: [None] is the nil
    slice, [Some l] a non-nil one (possibly empty). *)
Class Store (S : Type) := {
  Create : Subscription -> S -> res unit * S;
  Get : uuid -> S -> res Subscription * S;
  Update : Subscription -> S -> res unit * S;
  Delete : uuid -> S -> res unit * S;
  List : Z -> Z -> option uuid -> option string -> S -> res (option (list Subscription)) * S;
  Summary : string -> string -> option uuid -> option string -> S -> res Z * S
}.

(** ** [sqlx.Rebind(sqlx.DOLLAR, q)]

    Replaces the [j]-th ['?'] of [q] by [$j]; the rest of [q] is kept.
    (Library code: jmoiron/sqlx bind.go.) *)
Fixpoint rebind_loop (cs : list ascii) (j : Z) : list ascii :=
  match cs with
  | [] => []
  | c :: cs' =>
      if Ascii.eqb c "?"%char then
        ("$"%char :: list_ascii_of_string (format_d (j + 1))) ++ rebind_loop cs' (j + 1)
      else c :: rebind_loop cs' j
  end.

Definition Rebind_DOLLAR (q : string) : string :=
  string_of_list_ascii (rebind_loop (list_ascii_of_string q) 0).

(** ** Scanning a row into a [Subscription] ([Rows.Scan]) *)

Definition scan_err : go_error := ErrScan "sql: Scan error: unsupported conversion".

Definition scan_subscription (row : list sql_value) : res Subscription :=
  match row with
  | [VUuid id; VText sn; VInt p; VUuid uid; VText sd; ed; VTime ca] =>
      match ed with
      | VNull => Ok (mkSubscription id sn p uid sd None ca)
      | VText e => Ok (mkSubscription id sn p uid sd (Some e) ca)
      | _ => Err scan_err
      end
  | _ => Err scan_err
  end.

(** [row.Scan(&total)] into a Go [int]: a value beyond 64 bits is an
    error of the conversion, not a wrapped number. *)
Definition scan_int (v : sql_value) : res Z :=
  match v with
  | VInt z => if in_int z then Ok z else Err (ErrScan "converting driver.Value type: value out of range")
  | _ => Err scan_err
  end.

(** [QueryRow]: the first row, or [ErrNoRows] at [Scan]. *)
Definition first_row (r : exec_result) : res (list sql_value) :=
  match r with
  | RRows (row :: _) => Ok row
  | _ => Err ErrNoRows
  end.

(** database/sql [Rows] as lib/pq delivers them: rows, ended either
    by the end of the result or by an error (a lost connection, an
    error the server reports mid-result), which [rows.Next()] turns
    into [false] and keeps for [rows.Err()]. *)
Inductive rows_stream :=
  | RSEnd
  | RSErr (e : go_error)
  | RSRow (row : list sql_value) (rest : rows_stream).

(** The rows of a result, then [tail]. *)
Fixpoint rows_of (rows : list (list sql_value)) (tail : rows_stream) : rows_stream :=
  match rows with [] => tail | row :: rows' => RSRow row (rows_of rows' tail) end.

(** Lines 117-126, [var res []Subscription; for rows.Next() { ...;
    res = append(res, s) }; return res, nil]: the slice stays [nil]
    when there is no row, and the loop never asks [rows.Err()]. *)
Fixpoint scan_rows (rows : rows_stream) (acc : option (list Subscription))
    : res (option (list Subscription)) :=
  match rows with
  | RSEnd | RSErr _ => Ok acc
  | RSRow row rows' =>
      s <- scan_subscription row;;
      scan_rows rows' (Some (default [] acc ++ [s]))
  end.

(** The state of a [PostgresStore]: the database behind [s.db] and the
    time at which the next statement runs. *)
Record pg := mkPg { pg_db : db; pg_now : time }.

Definition set_db (s : pg) (d : db) : pg := mkPg d (pg_now s).

Module PostgresStore.

(** ** Create, pg.go lines 31-39 *)
Definition create_query : string :=
  "insert into subscriptions (id, service_name, price, user_id, start_date, end_date, created_at) values ($1, $2, $3, $4, $5, $6, now())".

Definition Create (sub : Subscription) (s : pg) : res unit * pg :=
  match db_run (pg_db s) (pg_now s) create_query
          [VUuid (ID sub); VText (ServiceName sub); VInt (Price sub);
           VUuid (UserID sub); VText (StartDate sub); text_or_null (EndDate sub)] with
  | Ok (_, d') => (Ok tt, set_db s d')
  | Err e => (Err e, s)
  end.

(** ** Get, pg.go lines 41-60 *)
Definition get_query : string :=
  "select id, service_name, price, user_id, start_date, end_date, created_at from subscriptions where id=$1".

Definition Get (id : uuid) (s : pg) : res Subscription * pg :=
  (r <- db_run (pg_db s) (pg_now s) get_query [VUuid id];;
   row <- first_row (fst r);;
   scan_subscription row, s).

(** ** Update, pg.go lines 62-73 *)
Definition update_query : string :=
  "update subscriptions set service_name=$1, price=$2, user_id=$3, start_date=$4, end_date=$5 where id=$6".

Definition Update (sub : Subscription) (s : pg) : res unit * pg :=
  match db_run (pg_db s) (pg_now s) update_query
          [VText (ServiceName sub); VInt (Price sub); VUuid (UserID sub);
           VText (StartDate sub); text_or_null (EndDate sub); VUuid (ID sub)] with
  | Ok (_, d') => (Ok tt, set_db s d')
  | Err e => (Err e, s)
  end.

(** ** Delete, pg.go lines 75-80 *)
Definition delete_query : string := "delete from subscriptions where id=$1".

Definition Delete (id : uuid) (s : pg) : res unit * pg :=
  match db_run (pg_db s) (pg_now s) delete_query [VUuid id] with
  | Ok (_, d') => (Ok tt, set_db s d')
  | Err e => (Err e, s)
  end.

(** ** List, pg.go lines 82-127 *)
Definition list_base : string :=
  " select id, service_name, price, user_id, start_date, end_date, created_at from subscriptions ".

(** Lines 94-103: the clauses and arguments of the present filters,
    each placeholder numbered [len(args)+1] when it is appended. *)
Definition list_filters (userID : option uuid) (serviceName : option string)
    : list string * list sql_value :=
  let clauses : list string := [] in
  let args : list sql_value := [] in
  let '(clauses, args) :=
    match userID with
    | Some u =>
        ((clauses ++ ["user_id=$" +:+ format_d (Z.of_nat (Datatypes.length args) + 1)])%list,
         (args ++ [VUuid u])%list)
    | None => (clauses, args)
    end in
  match serviceName with
  | Some sn =>
      ((clauses ++ ["service_name=$" +:+ format_d (Z.of_nat (Datatypes.length args) + 1)])%list,
       (args ++ [VText sn])%list)
  | None => (clauses, args)
  end.

(** Lines 104-109: [" WHERE " + Rebind(clauses[0])], then
    [" AND " + c] for each further clause. *)
Definition append_where (query : string) (clauses : list string) : string :=
  match clauses with
  | [] => query
  | c0 :: rest =>
      fold_left (fun q c => q +:+ " AND " +:+ c) rest
        (query +:+ " WHERE " +:+ Rebind_DOLLAR c0)
  end.

(** Lines 84-111: the text and the arguments of the query. *)
Definition list_query (limit offset : Z) (userID : option uuid) (serviceName : option string)
    : string * list sql_value :=
  let '(clauses, args) := list_filters userID serviceName in
  let query := append_where list_base clauses in
  (query +:+ " ORDER BY created_at DESC LIMIT " +:+ format_d limit +:+ " OFFSET " +:+ format_d offset,
   args).

Definition List (limit offset : Z) (userID : option uuid) (serviceName : option string)
    (s : pg) : res (option (list Subscription)) * pg :=
  let '(query, args) := list_query limit offset userID serviceName in
  (r <- db_run (pg_db s) (pg_now s) query args;;
   match fst r with
   | RRows rows => scan_rows (rows_of rows RSEnd) None
   | RAffected _ => Ok None
   end, s).

(** ** Summary, pg.go lines 129-150 *)
Definition summary_base : string :=
  " select coalesce(sum(price),0) from subscriptions where start_date >= $1 and (end_date <= $2 or end_date is null) ".

Definition summary_query (periodFrom periodTo : string) (userID : option uuid)
    (serviceName : option string) : string * list sql_value :=
  let query := summary_base in
  let args := [VText periodFrom; VText periodTo] in
  let '(query, args) :=
    match userID with
    | Some u =>
        (query +:+ " AND user_id=$" +:+ format_d (Z.of_nat (Datatypes.length args) + 1),
         (args ++ [VUuid u])%list)
    | None => (query, args)
    end in
  match serviceName with
  | Some sn =>
      (query +:+ " AND service_name=$" +:+ format_d (Z.of_nat (Datatypes.length args) + 1),
       (args ++ [VText sn])%list)
  | None => (query, args)
  end.

Definition Summary (periodFrom periodTo : string) (userID : option uuid)
    (serviceName : option string) (s : pg) : res Z * pg :=
  let '(query, args) := summary_query periodFrom periodTo userID serviceName in
  (r <- db_run (pg_db s) (pg_now s) query args;;
   row <- first_row (fst r);;
   match row with
   | [v] => scan_int v
   | _ => Err scan_err
   end, s).

End PostgresStore.

#[export] Instance PostgresStore_Store : Store pg := {|
  Create := PostgresStore.Create;
  Get := PostgresStore.Get;
  Update := PostgresStore.Update;
  Delete := PostgresStore.Delete;
  List := PostgresStore.List;
  Summary := PostgresStore.Summary
|}.

(** ** The statements the builders denote *)

Definition all_columns : list column :=
  [col_id; col_service_name; col_price; col_user_id; col_start_date; col_end_date; col_created_at].

(** The WHERE clause of [List]: the conjunction of the present filters,
    parameters numbered from [$1]. *)
Definition list_where (u : option uuid) (sn : option string) : option cond :=
  match u, sn with
  | None, None => None
  | Some _, None => Some (CCmp OpEq (OCol col_user_id) (OParam 1))
  | None, Some _ => Some (CCmp OpEq (OCol col_service_name) (OParam 1))
  | Some _, Some _ =>
      Some (CAnd (CCmp OpEq (OCol col_user_id) (OParam 1))
                 (CCmp OpEq (OCol col_service_name) (OParam 2)))
  end.

Definition list_stmt (l o : Z) (u : option uuid) (sn : option string) : stmt :=
  SSelect (mkSelect (SelColumns all_columns) (list_where u sn)
             (Some (col_created_at, Desc)) (Some l) (Some o)).

Lemma list_query_parses (l o : Z) (u : option uuid) (sn : option string) :
  int_min <= l <= int_max -> int_min <= o <= int_max ->
  parse (tokens (fst (PostgresStore.list_query l o u sn))) = Some (list_stmt l o u sn).
Proof.
  intros Hl Ho. unfold tokens, PostgresStore.list_query.
  destruct (PostgresStore.list_filters u sn) as [clauses args] eqn:Hf. cbn [fst].
  rewrite !list_ascii_of_string_append, app_assoc.
  rewrite lex_app_sep by (destruct u, sn; injection Hf as <- <-; vm_compute; reflexivity).
  rewrite lex_format_d by (exact Hl || reflexivity).
  rewrite (lex_app_sep (list_ascii_of_string " OFFSET ")) by (vm_compute; reflexivity).
  rewrite <- (app_nil_r (list_ascii_of_string (format_d o))), lex_format_d by done.
  unfold int_tokens. destruct u, sn; injection Hf as <- <-;
    destruct (l <? 0), (o <? 0); cbv -[Z.opp]; rewrite ?Z.opp_involutive; reflexivity.
Qed.

(** ** Executing the List query *)

(** The filters of [List], as a predicate on a row. *)
Definition matches_filters (u : option uuid) (sn : option string) (r : Subscription) : bool :=
  match u with Some v => bool_decide (UserID r = v) | None => true end &&
  match sn with Some s => bool_decide (ServiceName r = s) | None => true end.

Lemma list_where_filters (u : option uuid) (sn : option string) (now : time)
    (rs : list Subscription) :
  filter_opt (mkEnv (snd (PostgresStore.list_filters u sn)) now) (list_where u sn) rs
  = Ok (filter (matches_filters u sn) rs).
Proof.
  unfold matches_filters.
  destruct u as [v|], sn as [t|]; simpl;
    [| | | by rewrite filter_all]; apply filter_rows_spec; intros r;
    apply where_holds_bool.
  - apply eval_and_bool; [by apply eval_uuid_eq | by apply eval_text_eq].
  - rewrite (eval_uuid_eq _ r col_user_id 0 v (UserID r)) by done. by rewrite andb_true_r.
  - by rewrite (eval_text_eq _ r col_service_name 0 t (ServiceName r)).
Qed.

Lemma scan_row_get (r : Subscription) :
  scan_subscription (map (row_get r) all_columns) = Ok r.
Proof. destruct r as [? ? ? ? ? [] ?]; reflexivity. Qed.

(** The nil slice when nothing was appended. *)
Definition nil_slice {A} (l : list A) : option (list A) :=
  match l with [] => None | _ => Some l end.

Lemma scan_rows_all (rs : list Subscription) (acc : option (list Subscription)) :
  scan_rows (rows_of (map (fun r => map (row_get r) all_columns) rs) RSEnd) acc
  = Ok (match rs with [] => acc | _ => Some (default [] acc ++ rs) end).
Proof.
  revert acc; induction rs as [|r rs IH]; intros acc; [done|].
  rewrite map_cons. change (scan_rows (rows_of (?row :: ?rows) RSEnd) acc)
    with (s <- scan_subscription row;; scan_rows (rows_of rows RSEnd) (Some (default [] acc ++ [s]))).
  rewrite scan_row_get. simpl. rewrite IH.
  destruct rs; simpl; by rewrite ?app_nil_r, <- ?app_assoc.
Qed.

(** The loop cannot tell a result cut by an error from a complete one. *)
Lemma scan_rows_err (rows : list (list sql_value)) (e : go_error) (acc : option (list Subscription)) :
  scan_rows (rows_of rows (RSErr e)) acc = scan_rows (rows_of rows RSEnd) acc.
Proof.
  revert acc. induction rows as [|row rows IH]; intros acc; [done|]. cbn.
  destruct (scan_subscription row); [apply IH | done].
Qed.

(** C20. [List] never calls [rows.Err()]: when the driver fails after
    delivering some of the rows (the connection is lost, or the server
    reports an error mid-result), the loop of lines 118-125 ends as at
    the end of the result, and [List] returns the records delivered so
    far as a success (a [nil] slice if there were none) instead of the
    error. *)
Theorem List_loop_drops_error (rs : list Subscription) (e : go_error) :
  scan_rows (rows_of (map (fun r => map (row_get r) all_columns) rs) (RSErr e)) None = Ok (nil_slice rs).
Proof. rewrite scan_rows_err, scan_rows_all. by destruct rs. Qed.

(** What [List] returns on a database that is up: the matching rows,
    newest first, from [offset], at most [limit] of them. *)
Definition list_window (l o : Z) (u : option uuid) (sn : option string)
    (rs : list Subscription) : list Subscription :=
  take (Z.to_nat l) (drop (Z.to_nat o)
    (merge_sort (order_rel col_created_at Desc) (filter (matches_filters u sn) rs))).

Lemma db_run_list (d : db) (now : time) (l o : Z) (u : option uuid) (sn : option string) :
  db_down d = None -> int_min <= l <= int_max -> int_min <= o <= int_max ->
  db_run d now (fst (PostgresStore.list_query l o u sn)) (snd (PostgresStore.list_query l o u sn))
  = exec (mkEnv (snd (PostgresStore.list_filters u sn)) now) (list_stmt l o u sn) d.
Proof.
  intros Hd Hl Ho. unfold db_run. rewrite Hd, list_query_parses by done.
  unfold PostgresStore.list_query. by destruct (PostgresStore.list_filters u sn).
Qed.

Lemma exec_list_stmt (d : db) (now : time) (l o : Z) (u : option uuid) (sn : option string) :
  db_down d = None -> 0 <= l -> 0 <= o ->
  exec (mkEnv (snd (PostgresStore.list_filters u sn)) now) (list_stmt l o u sn) d
  = Ok (RRows (map (fun r => map (row_get r) all_columns) (list_window l o u sn (db_rows d))), d).
Proof.
  intros Hd Hl Ho. unfold exec, list_stmt, run_select. rewrite Hd. simpl sel_where.
  rewrite list_where_filters. simpl.
  destruct (o <? 0) eqn:E1; [apply Z.ltb_lt in E1; lia|].
  destruct (l <? 0) eqn:E2; [apply Z.ltb_lt in E2; lia|]. done.
Qed.

(** ** The contract of [Store.List] (spec, section 4.1)

    The records of the table [rs] that pass the filters, in an order of
    [created_at] descending (ties in any order), after skipping [o] of
    them and keeping at most [l]. *)
Definition newest_first (a b : Subscription) : Prop := CreatedAt b <= CreatedAt a.

Definition list_contract (rs : list Subscription) (l o : Z) (u : option uuid)
    (sn : option string) (out : list Subscription) : Prop :=
  exists ys, ys ≡ₚ filter (matches_filters u sn) rs /\ Sorted newest_first ys /\
    out = take (Z.to_nat l) (drop (Z.to_nat o) ys).

Lemma order_rel_created_desc (a b : Subscription) :
  order_rel col_created_at Desc a b <-> newest_first a b.
Proof.
  unfold order_rel, newest_first, pg_le. simpl. rewrite bool_decide_eq_true.
  destruct (Z.compare_spec (CreatedAt b) (CreatedAt a)); intuition (try congruence; lia).
Qed.

Lemma order_rel_created_desc_total : Total (order_rel col_created_at Desc).
Proof.
  intros a b. rewrite !order_rel_created_desc. unfold newest_first. lia.
Qed.

Lemma List_unfold (l o : Z) (u : option uuid) (sn : option string) (s : pg) :
  PostgresStore.List l o u sn s =
  (r <- db_run (pg_db s) (pg_now s) (fst (PostgresStore.list_query l o u sn))
          (snd (PostgresStore.list_query l o u sn));;
   match fst r with RRows rows => scan_rows (rows_of rows RSEnd) None | RAffected _ => Ok None end, s).
Proof. unfold PostgresStore.List. by destruct (PostgresStore.list_query l o u sn). Qed.

(** [PostgresStore.List] computes, on a database that is up and for
    a non-negative [limit] and [offset], exactly the window of the
    table's matching records sorted newest first; the slice is [nil]
    when the window is empty.  The state is unchanged. *)
Theorem List_refines (l o : Z) (u : option uuid) (sn : option string) (s : pg) :
  db_down (pg_db s) = None -> 0 <= l <= int_max -> 0 <= o <= int_max ->
  PostgresStore.List l o u sn s = (Ok (nil_slice (list_window l o u sn (db_rows (pg_db s)))), s).
Proof.
  intros Hd Hl Ho. rewrite List_unfold.
  rewrite db_run_list, exec_list_stmt by (done || unfold int_min in *; lia).
  simpl. rewrite scan_rows_all. by destruct (list_window _ _ _ _ _).
Qed.

(** C1. Refinement of the interface's contract: what [List] returns is
    a window of the matching records in [created_at] descending order,
    of at most [limit] records. *)
Theorem List_contract (l o : Z) (u : option uuid) (sn : option string) (s : pg) :
  db_down (pg_db s) = None -> 0 <= l <= int_max -> 0 <= o <= int_max ->
  exists out, fst (PostgresStore.List l o u sn s) = Ok out /\
    list_contract (db_rows (pg_db s)) l o u sn (default [] out) /\
    (Datatypes.length (default [] out) <= Z.to_nat l)%nat.
Proof.
  intros Hd Hl Ho. rewrite List_refines by done. simpl.
  eexists; split; [reflexivity|].
  assert (Hw : default [] (nil_slice (list_window l o u sn (db_rows (pg_db s))))
               = list_window l o u sn (db_rows (pg_db s)))
    by (by destruct (list_window _ _ _ _ _)).
  rewrite Hw. split; [|apply length_take_drop_le].
  eexists; split; [apply (merge_sort_Permutation (order_rel col_created_at Desc))|].
  split; [|done].
  eapply Sorted_weaken; [intros a b; apply order_rel_created_desc|].
  apply Sorted_merge_sort, order_rel_created_desc_total.
Qed.

(** A negative [limit] reaches PostgreSQL, which rejects it: the
    handler's only guard is [limit == 0]. *)
Theorem List_negative_limit (l o : Z) (u : option uuid) (sn : option string) (s : pg) :
  db_down (pg_db s) = None -> int_min <= l < 0 -> 0 <= o <= int_max ->
  PostgresStore.List l o u sn s = (Err (ErrDriver "LIMIT must not be negative"), s).
Proof.
  intros Hd Hl Ho. rewrite List_unfold, db_run_list by (done || unfold int_max in *; lia).
  unfold exec, list_stmt, run_select. rewrite Hd. simpl sel_where.
  rewrite list_where_filters. simpl.
  destruct (o <? 0) eqn:E1; [apply Z.ltb_lt in E1; lia|].
  destruct (l <? 0) eqn:E2; [done|apply Z.ltb_ge in E2; lia].
Qed.

(** ** Executing the Summary query *)

Definition summary_base_cond : cond :=
  CAnd (CCmp OpGe (OCol col_start_date) (OParam 1))
       (COr (CCmp OpLe (OCol col_end_date) (OParam 2)) (CIsNull (OCol col_end_date))).

Definition summary_where (u : option uuid) (sn : option string) : cond :=
  match u, sn with
  | None, None => summary_base_cond
  | Some _, None => CAnd summary_base_cond (CCmp OpEq (OCol col_user_id) (OParam 3))
  | None, Some _ => CAnd summary_base_cond (CCmp OpEq (OCol col_service_name) (OParam 3))
  | Some _, Some _ =>
      CAnd (CAnd summary_base_cond (CCmp OpEq (OCol col_user_id) (OParam 3)))
           (CCmp OpEq (OCol col_service_name) (OParam 4))
  end.

Definition summary_stmt (u : option uuid) (sn : option string) : stmt :=
  SSelect (mkSelect (SelCoalesceSum col_price 0) (Some (summary_where u sn)) None None None).

Lemma summary_query_parses (pf pt : string) (u : option uuid) (sn : option string) :
  parse (tokens (fst (PostgresStore.summary_query pf pt u sn))) = Some (summary_stmt u sn).
Proof. destruct u, sn; vm_compute; reflexivity. Qed.

(** The rows [Summary] adds up: started at or after [periodFrom] (as
    text), and ended at or before [periodTo] (as text) or not ended. *)
Definition summary_period (pf pt : string) (r : Subscription) : bool :=
  bool_decide (String.compare (StartDate r) pf <> Lt) &&
  match EndDate r with
  | None => true
  | Some e => bool_decide (String.compare e pt <> Gt)
  end.

Definition summary_matches (pf pt : string) (u : option uuid) (sn : option string)
    (r : Subscription) : bool :=
  summary_period pf pt r && matches_filters u sn r.

Lemma eval_summary_base (e : env) (r : Subscription) (pf pt : string) (rest : list sql_value) :
  env_args e = VText pf :: VText pt :: rest ->
  eval_cond e r summary_base_cond = Some (tv_of_bool (summary_period pf pt r)).
Proof.
  intros Ha. unfold summary_period. simpl. rewrite Ha. simpl.
  destruct (EndDate r) as [ed|]; simpl;
    destruct (String.compare (StartDate r) pf); try destruct (String.compare ed pt); done.
Qed.

Lemma summary_where_filters (pf pt : string) (u : option uuid) (sn : option string)
    (now : time) (rs : list Subscription) :
  filter_rows (mkEnv (snd (PostgresStore.summary_query pf pt u sn)) now) (summary_where u sn) rs
  = Ok (filter (summary_matches pf pt u sn) rs).
Proof.
  apply filter_rows_spec. intros r. apply where_holds_bool.
  unfold summary_matches, matches_filters.
  assert (Hb : eval_cond (mkEnv (snd (PostgresStore.summary_query pf pt u sn)) now) r
                 summary_base_cond = Some (tv_of_bool (summary_period pf pt r)))
    by (apply (eval_summary_base _ _ pf pt (drop 2 (snd (PostgresStore.summary_query pf pt u sn))));
        destruct u, sn; reflexivity).
  destruct u as [v|], sn as [t|]; simpl summary_where;
    rewrite ?andb_true_r, ?andb_true_l, ?andb_assoc.
  - apply eval_and_bool; [apply eval_and_bool; [done|] |]; by apply eval_uuid_eq || apply eval_text_eq.
  - apply eval_and_bool; [done|]. by apply eval_uuid_eq.
  - apply eval_and_bool; [done|]. by apply eval_text_eq.
  - done.
Qed.

Lemma sum_column_price (rs : list Subscription) :
  sum_column col_price rs = Ok (match rs with [] => VNull | _ => VInt (sum_Z (map Price rs)) end).
Proof.
  induction rs as [|r rs IH]; [done|]. simpl. rewrite IH.
  destruct rs; simpl; unfold sum_Z; simpl; f_equal; f_equal; lia.
Qed.

Lemma Summary_unfold (pf pt : string) (u : option uuid) (sn : option string) (s : pg) :
  PostgresStore.Summary pf pt u sn s =
  (r <- db_run (pg_db s) (pg_now s) (fst (PostgresStore.summary_query pf pt u sn))
          (snd (PostgresStore.summary_query pf pt u sn));;
   row <- first_row (fst r);;
   match row with [v] => scan_int v | _ => Err scan_err end, s).
Proof. unfold PostgresStore.Summary. by destruct (PostgresStore.summary_query pf pt u sn). Qed.

(** [PostgresStore.Summary] is the null-safe sum of the prices of
    the matching records, scanned into a Go [int]: on a database that
    is up it returns exactly that sum when it fits in 64 bits and an
    error of [Scan] otherwise, never a wrapped total. *)
Theorem Summary_refines (pf pt : string) (u : option uuid) (sn : option string) (s : pg) :
  db_down (pg_db s) = None ->
  PostgresStore.Summary pf pt u sn s =
  (let total := sum_Z (map Price (filter (summary_matches pf pt u sn) (db_rows (pg_db s)))) in
   if in_int total then Ok total
   else Err (ErrScan "converting driver.Value type: value out of range"), s).
Proof.
  intros Hd. rewrite Summary_unfold. unfold db_run. rewrite Hd, summary_query_parses.
  unfold exec, summary_stmt, run_select. rewrite Hd. simpl.
  rewrite summary_where_filters. simpl. rewrite sum_column_price.
  by destruct (filter _ _).
Qed.

(** ** Create, Get, Update and Delete on the database *)

Lemma create_query_parses :
  parse (tokens PostgresStore.create_query) =
  Some (SInsert [col_id; col_service_name; col_price; col_user_id; col_start_date;
                 col_end_date; col_created_at]
                [OParam 1; OParam 2; OParam 3; OParam 4; OParam 5; OParam 6; ONow]).
Proof. vm_compute. reflexivity. Qed.

Lemma get_query_parses :
  parse (tokens PostgresStore.get_query) =
  Some (SSelect (mkSelect (SelColumns all_columns) (Some (CCmp OpEq (OCol col_id) (OParam 1)))
                  None None None)).
Proof. vm_compute. reflexivity. Qed.

Lemma update_query_parses :
  parse (tokens PostgresStore.update_query) =
  Some (SUpdate [(col_service_name, OParam 1); (col_price, OParam 2); (col_user_id, OParam 3);
                 (col_start_date, OParam 4); (col_end_date, OParam 5)]
                (CCmp OpEq (OCol col_id) (OParam 6))).
Proof. vm_compute. reflexivity. Qed.

Lemma delete_query_parses :
  parse (tokens PostgresStore.delete_query) = Some (SDelete (CCmp OpEq (OCol col_id) (OParam 1))).
Proof. vm_compute. reflexivity. Qed.

(** The row [Create] stores: the record with [created_at = now()]. *)
Definition stored (sub : Subscription) (now : time) : Subscription :=
  mkSubscription (ID sub) (ServiceName sub) (Price sub) (UserID sub) (StartDate sub) (EndDate sub) now.

(** The row [Update] leaves: the new fields, the old [id] and [created_at]. *)
Definition update_fields (sub r : Subscription) : Subscription :=
  mkSubscription (ID r) (ServiceName sub) (Price sub) (UserID sub) (StartDate sub) (EndDate sub)
    (CreatedAt r).

Definition has_id (id : uuid) (r : Subscription) : bool := bool_decide (ID r = id).

Lemma Create_spec (sub : Subscription) (s : pg) :
  db_down (pg_db s) = None ->
  PostgresStore.Create sub s =
  if bool_decide (ID sub ∈ map ID (db_rows (pg_db s))) then (Err err_dup, s)
  else (Ok tt, set_db s (mkDb (db_rows (pg_db s) ++ [stored sub (pg_now s)]) None)).
Proof.
  intros Hd. unfold PostgresStore.Create, db_run. rewrite Hd, create_query_parses.
  unfold exec. rewrite Hd. unfold insert_row.
  replace (bool_decide (NoDup _) && _) with true by (vm_compute; reflexivity).
  destruct (EndDate sub) eqn:He; simpl;
    (case_bool_decide as Hin; [done|]); unfold stored; by rewrite He.
Qed.

Lemma Get_spec (id : uuid) (s : pg) :
  db_down (pg_db s) = None ->
  PostgresStore.Get id s =
  (match filter (has_id id) (db_rows (pg_db s)) with
   | r :: _ => Ok r
   | [] => Err ErrNoRows
   end, s).
Proof.
  intros Hd. unfold PostgresStore.Get, db_run. rewrite Hd, get_query_parses.
  unfold exec, run_select. rewrite Hd. simpl sel_where. unfold filter_opt.
  rewrite (filter_rows_spec _ _ (has_id id)).
  - simpl. destruct (filter _ _) as [|r rs]; simpl; [done|].
    by destruct r as [? ? ? ? ? [] ?].
  - intros r. apply where_holds_bool. by apply eval_uuid_eq.
Qed.

Lemma Delete_spec (id : uuid) (s : pg) :
  db_down (pg_db s) = None ->
  PostgresStore.Delete id s =
  (Ok tt, set_db s (mkDb (filter (fun r => negb (has_id id r)) (db_rows (pg_db s))) None)).
Proof.
  intros Hd. unfold PostgresStore.Delete, db_run. rewrite Hd, delete_query_parses.
  unfold exec. rewrite Hd.
  rewrite (delete_rows_spec _ _ (has_id id)); [done|].
  intros r. apply where_holds_bool. by apply eval_uuid_eq.
Qed.

Lemma Update_spec (sub : Subscription) (s : pg) :
  db_down (pg_db s) = None -> NoDup (map ID (db_rows (pg_db s))) ->
  PostgresStore.Update sub s =
  (Ok tt, set_db s (mkDb (map (fun r => if has_id (ID sub) r then update_fields sub r else r)
                              (db_rows (pg_db s))) None)).
Proof.
  intros Hd Hnd. unfold PostgresStore.Update, db_run. rewrite Hd, update_query_parses.
  unfold exec. rewrite Hd.
  unshelve erewrite (update_rows_spec _ _ (has_id (ID sub)) _ _ (update_fields sub)).
  - intros r. apply where_holds_bool. by apply eval_uuid_eq.
  - simpl. unfold ids_unique. rewrite bool_decide_true; [done|].
    rewrite map_map. erewrite map_ext; [exact Hnd|]. intros r. by case_match.
  - intros r _. destruct (EndDate sub) eqn:He; simpl; unfold update_fields; by rewrite He.
Qed.

(** ** Invariant: ids are unique in the table *)

Definition pg_wf (s : pg) : Prop := NoDup (map ID (db_rows (pg_db s))).

(** One call of an interface method, as the handlers make them. *)
Inductive store_op :=
  | OpCreate (sub : Subscription)
  | OpGet (id : uuid)
  | OpUpdate (sub : Subscription)
  | OpDelete (id : uuid)
  | OpList (limit offset : Z) (u : option uuid) (sn : option string)
  | OpSummary (pf pt : string) (u : option uuid) (sn : option string).

Definition run_op (op : store_op) (s : pg) : pg :=
  match op with
  | OpCreate sub => snd (Create sub s)
  | OpGet id => snd (Get id s)
  | OpUpdate sub => snd (Update sub s)
  | OpDelete id => snd (Delete id s)
  | OpList l o u sn => snd (List l o u sn s)
  | OpSummary pf pt u sn => snd (Summary pf pt u sn s)
  end.

(** The states a server can reach: an empty table, then method calls,
    the clock moving, and the connection going down or coming back. *)
Inductive reachable : pg -> Prop :=
  | reach_init (now : time) : reachable (mkPg (mkDb [] None) now)
  | reach_op (s : pg) (op : store_op) : reachable s -> reachable (run_op op s)
  | reach_clock (s : pg) (now : time) : reachable s -> reachable (mkPg (pg_db s) now)
  | reach_outage (s : pg) (down : option string) :
      reachable s -> reachable (mkPg (mkDb (db_rows (pg_db s)) down) (pg_now s)).

(** A method that writes leaves the state alone when the database is down. *)
Lemma db_run_down (d : db) (now : time) (q : string) (args : list sql_value) (msg : string) :
  db_down d = Some msg -> db_run d now q args = Err (ErrDriver msg).
Proof. intros H. unfold db_run. by rewrite H. Qed.

Lemma run_op_wf (op : store_op) (s : pg) : pg_wf s -> pg_wf (run_op op s).
Proof.
  intros Hwf. destruct (db_down (pg_db s)) as [msg|] eqn:Hd.
  { destruct op; simpl; rewrite ?List_unfold, ?Summary_unfold; try exact Hwf;
      [unfold PostgresStore.Create | unfold PostgresStore.Update | unfold PostgresStore.Delete];
      by rewrite db_run_down with (msg := msg). }
  unfold pg_wf in *. destruct op; simpl.
  - rewrite Create_spec by done. case_bool_decide as Hin; [done|]. simpl.
    rewrite map_app. apply NoDup_app. split; [done|]. split; [|by apply NoDup_singleton].
    intros x Hx ->%list_elem_of_singleton. by apply Hin.
  - exact Hwf.
  - rewrite Update_spec by done. simpl. rewrite map_map.
    erewrite map_ext; [exact Hwf|]. intros r. by case_match.
  - rewrite Delete_spec by done. by apply NoDup_map_filter.
  - rewrite List_unfold. done.
  - rewrite Summary_unfold. done.
Qed.

(** Every reachable state of the Postgres store has pairwise distinct
    ids.  This is the table's primary key at work ([exec] refuses a
    duplicate), whatever statements the store sends. *)
Theorem reachable_wf (s : pg) : reachable s -> pg_wf s.
Proof.
  induction 1 as [now|s op _ IH|s now _ IH|s down _ IH].
  - constructor.
  - by apply run_op_wf.
  - exact IH.
  - exact IH.
Qed.

(** ** Behaviour of the write methods *)

Lemma filter_has_id_absent (id : uuid) (rs : list Subscription) :
  id ∉ map ID rs -> filter (has_id id) rs = [].
Proof.
  intros Hn. induction rs as [|r rs IH]; [done|]. rewrite filter_cons.
  simpl in Hn. rewrite elem_of_cons in Hn. unfold has_id.
  rewrite bool_decide_false by naive_solver. apply IH. naive_solver.
Qed.

(** A record created in a table where its id is new is read back
    by [Get] with every field as given and [created_at] set to the
    statement's [now()] (whatever [created_at] the caller supplied). *)
Theorem Get_after_Create (sub : Subscription) (s : pg) :
  db_down (pg_db s) = None -> fst (PostgresStore.Create sub s) = Ok tt ->
  fst (PostgresStore.Get (ID sub) (snd (PostgresStore.Create sub s)))
  = Ok (stored sub (pg_now s)).
Proof.
  intros Hd Hc. rewrite Create_spec in * by done.
  case_bool_decide as Hin; [discriminate|]. cbn [snd].
  rewrite Get_spec by done. simpl. rewrite filter_app, filter_has_id_absent by done.
  simpl. unfold has_id. by rewrite filter_cons, bool_decide_true.
Qed.

(** Deleting an id that is not in the table succeeds and changes
    nothing: [Delete] is idempotent. *)
Theorem Delete_idempotent (id : uuid) (s : pg) :
  db_down (pg_db s) = None -> id ∉ map ID (db_rows (pg_db s)) ->
  PostgresStore.Delete id s = (Ok tt, s).
Proof.
  intros Hd Hn. rewrite Delete_spec by done. rewrite filter_all.
  - destruct s as [[rs down] now]. simpl in *. by subst.
  - intros r Hr. unfold has_id. rewrite bool_decide_false; [done|].
    intros <-. apply Hn. by apply elem_of_map_2.
Qed.

(** C7. After [Delete id], [Get id] fails with [sql.ErrNoRows]. *)
Theorem Get_after_Delete (id : uuid) (s : pg) :
  db_down (pg_db s) = None ->
  fst (PostgresStore.Get id (snd (PostgresStore.Delete id s))) = Err ErrNoRows.
Proof.
  intros Hd. rewrite Delete_spec by done. cbn [snd]. rewrite Get_spec by done. simpl.
  rewrite list_filter_filter, filter_all_false; [done|].
  intros r _ [H1 H2]. unfold has_id in *. by destruct (bool_decide _).
Qed.

Lemma has_id_update (sub r : Subscription) (id : uuid) :
  has_id id (if has_id (ID sub) r then update_fields sub r else r) = has_id id r.
Proof. by case_match. Qed.

(** C5. [Update] replaces every mutable field of the stored record
    with the caller's values and keeps its [id] and [created_at]: a
    [Get] after it returns [update_fields sub r] for the record [r]
    that [Get] returned before. *)
Theorem Update_replaces (sub r : Subscription) (s : pg) :
  pg_wf s -> db_down (pg_db s) = None -> fst (PostgresStore.Get (ID sub) s) = Ok r ->
  fst (PostgresStore.Get (ID sub) (snd (PostgresStore.Update sub s))) = Ok (update_fields sub r).
Proof.
  intros Hwf Hd Hg. rewrite Get_spec in Hg by done. rewrite Update_spec by done.
  cbn [snd]. rewrite Get_spec by done. simpl.
  rewrite (filter_map_invariant _ (has_id (ID sub))) by (intros x; by rewrite has_id_update).
  destruct (filter _ _) as [|r' t] eqn:Hf; simpl in Hg; [discriminate|].
  injection Hg as <-. apply filter_head in Hf. simpl. by rewrite (Is_true_eq_true _ Hf).
Qed.

(** [Update] of an id that is not in the table succeeds and
    changes nothing: the code never reports a missing record. *)
Theorem Update_missing_is_noop (sub : Subscription) (s : pg) :
  pg_wf s -> db_down (pg_db s) = None -> ID sub ∉ map ID (db_rows (pg_db s)) ->
  PostgresStore.Update sub s = (Ok tt, s).
Proof.
  intros Hwf Hd Hn. rewrite Update_spec by done.
  rewrite (map_ext_in _ (fun r => r)), map_id.
  - destruct s as [[rs down] now]. simpl in *. by subst.
  - intros r Hr. unfold has_id. rewrite bool_decide_false; [done|].
    intros Heq. apply Hn. rewrite <- Heq. apply elem_of_map_2. by apply list_elem_of_In.
Qed.

(** C6. [Update] never changes the ids or the creation times of the
    table, row by row. *)
Theorem Update_keeps_keys (sub : Subscription) (s : pg) :
  pg_wf s -> db_down (pg_db s) = None ->
  map ID (db_rows (pg_db (snd (PostgresStore.Update sub s)))) = map ID (db_rows (pg_db s)) /\
  map CreatedAt (db_rows (pg_db (snd (PostgresStore.Update sub s))))
  = map CreatedAt (db_rows (pg_db s)).
Proof.
  intros Hwf Hd. rewrite Update_spec by done. simpl. rewrite !map_map.
  split; apply map_ext; intros r; by case_match.
Qed.

(** ** Behaviour of [Summary] *)

(** With no matching record, [Summary] returns [0], not an error
    (the [coalesce] of an empty [sum]). *)
Theorem Summary_no_match_zero (pf pt : string) (u : option uuid) (sn : option string) (s : pg) :
  db_down (pg_db s) = None ->
  (forall r, r ∈ db_rows (pg_db s) -> summary_matches pf pt u sn r = false) ->
  PostgresStore.Summary pf pt u sn s = (Ok 0, s).
Proof.
  intros Hd Hn. rewrite Summary_refines by done. simpl.
  rewrite filter_all_false; [done|]. intros r Hr. rewrite (Hn r Hr). simpl. tauto.
Qed.

(** Adding a row that [Summary]'s condition keeps adds its price. *)
Lemma Summary_add_row (pf pt : string) (u : option uuid) (sn : option string) (r : Subscription) (s : pg) :
  db_down (pg_db s) = None -> summary_matches pf pt u sn r = true ->
  let t := sum_Z (map Price (filter (summary_matches pf pt u sn) (db_rows (pg_db s)))) in
  in_int (t + Price r) = true ->
  fst (PostgresStore.Summary pf pt u sn (set_db s (mkDb (db_rows (pg_db s) ++ [r]) None)))
  = Ok (t + Price r).
Proof.
  intros Hd Hm t Ht. rewrite Summary_refines by done. simpl.
  rewrite filter_app, map_app, sum_Z_app. rewrite filter_cons, decide_True; [| by rewrite Hm].
  simpl. unfold sum_Z at 2. simpl. rewrite Z.add_0_r. fold t. by rewrite Ht.
Qed.

(** C15. A record that has no [end_date] counts in every summary from a
    [period_from] not after its [start_date], whatever [period_to] is:
    adding it to the table adds its price to the total. *)
Theorem Summary_counts_active (pf pt : string) (u : option uuid) (sn : option string)
    (r : Subscription) (s : pg) :
  db_down (pg_db s) = None -> EndDate r = None -> String.compare (StartDate r) pf <> Lt ->
  matches_filters u sn r = true ->
  let t := sum_Z (map Price (filter (summary_matches pf pt u sn) (db_rows (pg_db s)))) in
  in_int (t + Price r) = true ->
  fst (PostgresStore.Summary pf pt u sn (set_db s (mkDb (db_rows (pg_db s) ++ [r]) None)))
  = Ok (t + Price r).
Proof.
  intros Hd He Hs Hm. apply Summary_add_row; [done|].
  unfold summary_matches, summary_period. rewrite He, Hm, bool_decide_true; [done | exact Hs].
Qed.

(** C17. [Summary] compares [MM-YYYY] periods as text, month first: a
    subscription whose start month is after [period_from]'s month and
    whose end month is before [period_to]'s month is counted, whatever
    the four years are; so a subscription of March to June 2024 counts
    in the summary of January to December 2025, and one of March to
    June 2030 as well. *)
Theorem Summary_counts_earlier_year (u : option uuid) (sn : option string)
    (ms ys me ye mf yf mt yt : string) (r : Subscription) (s : pg) :
  db_down (pg_db s) = None ->
  String.length ms = String.length mf -> String.length me = String.length mt ->
  StartDate r = ms +:+ "-" +:+ ys -> EndDate r = Some (me +:+ "-" +:+ ye) ->
  String.compare ms mf = Gt -> String.compare me mt = Lt ->
  matches_filters u sn r = true ->
  let pf := mf +:+ "-" +:+ yf in
  let pt := mt +:+ "-" +:+ yt in
  let t := sum_Z (map Price (filter (summary_matches pf pt u sn) (db_rows (pg_db s)))) in
  in_int (t + Price r) = true ->
  fst (PostgresStore.Summary pf pt u sn (set_db s (mkDb (db_rows (pg_db s) ++ [r]) None)))
  = Ok (t + Price r).
Proof.
  intros Hd Hls Hle Hs He Hcs Hce Hm pf pt. apply Summary_add_row; [done|]. subst pf pt.
  unfold summary_matches, summary_period. rewrite Hs, He, Hm, !string_compare_app by done.
  rewrite Hcs, Hce. by rewrite !bool_decide_true.
Qed.

(** C2. Refinement of the contract of [Summary] (spec, section 4.1):
    on a database that is up, [Summary] succeeds exactly when the sum
    of the prices of the matching records fits in an [int], and then
    returns that sum. *)
Theorem Summary_contract (pf pt : string) (u : option uuid) (sn : option string) (s : pg) (t : Z) :
  db_down (pg_db s) = None ->
  fst (PostgresStore.Summary pf pt u sn s) = Ok t <->
  t = sum_Z (map Price (filter (summary_matches pf pt u sn) (db_rows (pg_db s)))) /\
  int_min <= t <= int_max.
Proof.
  intros Hd. rewrite Summary_refines by done. simpl.
  destruct (in_int _) eqn:E; split.
  - intros [= <-]. split; [done|]. by apply in_int_spec.
  - intros [-> _]. done.
  - discriminate.
  - intros [-> Hr]. apply in_int_spec in Hr. congruence.
Qed.

(** ** Query text *)

(** The arguments a builder sends for the present filters, in order. *)
Definition filter_args (u : option uuid) (sn : option string) : list sql_value :=
  (match u with Some v => [VUuid v] | None => [] end ++
   match sn with Some t => [VText t] | None => [] end)%list.

Lemma list_query_args (l o : Z) (u : option uuid) (sn : option string) :
  snd (PostgresStore.list_query l o u sn) = snd (PostgresStore.list_filters u sn).
Proof. unfold PostgresStore.list_query. by destruct (PostgresStore.list_filters u sn). Qed.

(** C4. Both builders keep every value out of the SQL text and bind
    each value to its placeholder: the text depends only on which
    filters are present (and, for [List], on the two integers it
    prints); the values travel as the positional arguments, in order;
    and the condition PostgreSQL parses from the text, evaluated with
    those arguments, keeps exactly the rows that match the given
    values. *)
Theorem query_text_parameterized (l o : Z) (pf pt : string) (u1 u2 : option uuid)
    (sn1 sn2 : option string) :
  int_min <= l <= int_max -> int_min <= o <= int_max ->
  (is_Some u1 <-> is_Some u2) -> (is_Some sn1 <-> is_Some sn2) ->
  fst (PostgresStore.list_query l o u1 sn1) = fst (PostgresStore.list_query l o u2 sn2) /\
  snd (PostgresStore.list_query l o u1 sn1) = filter_args u1 sn1 /\
  fst (PostgresStore.summary_query pf pt u1 sn1) = fst (PostgresStore.summary_query pf pt u2 sn2) /\
  snd (PostgresStore.summary_query pf pt u1 sn1) = (VText pf :: VText pt :: filter_args u1 sn1)%list /\
  (exists q, parse (tokens (fst (PostgresStore.list_query l o u1 sn1))) = Some (SSelect q) /\
     forall now rs, filter_opt (mkEnv (snd (PostgresStore.list_query l o u1 sn1)) now) (sel_where q) rs
                    = Ok (filter (matches_filters u1 sn1) rs)) /\
  (exists q, parse (tokens (fst (PostgresStore.summary_query pf pt u1 sn1))) = Some (SSelect q) /\
     forall now rs, filter_opt (mkEnv (snd (PostgresStore.summary_query pf pt u1 sn1)) now) (sel_where q) rs
                    = Ok (filter (summary_matches pf pt u1 sn1) rs)).
Proof.
  intros Hl Ho Hu Hs. split_and!.
  1-4: destruct u1, u2, sn1, sn2; simpl in *;
    try (exfalso; destruct Hu as [H1 H2]; destruct Hs as [H3 H4];
         (by destruct H1) || (by destruct H2) || (by destruct H3) || (by destruct H4));
    done.
  - rewrite list_query_parses by done. eexists; split; [reflexivity|]. intros now rs.
    rewrite list_query_args. apply list_where_filters.
  - rewrite summary_query_parses. eexists; split; [reflexivity|]. intros now rs.
    apply summary_where_filters.
Qed.

(** [Rebind] leaves a text without ['?'] unchanged: the call on
    [clauses[0]] in pg.go line 105 is a no-op. *)
Lemma rebind_loop_id (cs : list ascii) (j : Z) :
  Forall (fun c => c <> "?"%char) cs -> rebind_loop cs j = cs.
Proof.
  induction cs as [|c cs IH]; intros Hf; [done|]. inversion Hf; subst. simpl.
  destruct (Ascii.eqb_spec c "?"%char); [done|]. by rewrite IH.
Qed.

(** [sqlx.Rebind(sqlx.DOLLAR, q)] is the identity on a text with no
    ['?'], so the first clause reaches the database as built. *)
Theorem Rebind_DOLLAR_id (q : string) :
  Forall (fun c => c <> "?"%char) (list_ascii_of_string q) -> Rebind_DOLLAR q = q.
Proof.
  intros Hf. unfold Rebind_DOLLAR. rewrite rebind_loop_id by done.
  apply string_of_list_ascii_of_string.
Qed.

(** The loop of lines 104-109 is [strings.Join]: appending
    [sep + c] for each further clause to [acc + c0] gives [acc] followed
    by the clauses joined by [sep]. *)
Lemma fold_join (sep acc c0 : string) (rest : list string) :
  fold_left (fun q c => q +:+ sep +:+ c) rest (acc +:+ c0) = acc +:+ String.concat sep (c0 :: rest).
Proof.
  revert c0. induction rest as [|c rest IH]; intros c0; [done|]. simpl.
  rewrite !string_app_assoc, IH. f_equal. destruct rest; simpl; by rewrite ?string_app_assoc.
Qed.

Lemma append_where_spec (q c0 : string) (rest : list string) :
  Forall (fun c => c <> "?"%char) (list_ascii_of_string c0) ->
  PostgresStore.append_where q (c0 :: rest) = q +:+ " WHERE " +:+ String.concat " AND " (c0 :: rest).
Proof.
  intros Hc. unfold PostgresStore.append_where, Rebind_DOLLAR. rewrite rebind_loop_id by done.
  rewrite string_of_list_ascii_of_string.
  rewrite <- (string_app_assoc q " WHERE " c0), fold_join. by rewrite string_app_assoc.
Qed.

(** The WHERE builder of [List] is [strings.Join]: the text is the
    base query when no filter is present, and otherwise the base query,
    [" WHERE "] and the clauses joined by [" AND "] ([strings.Join]). *)
Theorem list_where_join (q : string) (u : option uuid) (sn : option string) :
  PostgresStore.append_where q (fst (PostgresStore.list_filters u sn))
  = match fst (PostgresStore.list_filters u sn) with
    | [] => q
    | cs => q +:+ " WHERE " +:+ String.concat " AND " cs
    end.
Proof.
  destruct u, sn; cbn [PostgresStore.list_filters fst app]; try done;
    (rewrite append_where_spec; [done | vm_compute; repeat constructor; discriminate]).
Qed.

(** C9. The statement PostgreSQL reads from the text of [List] is the
    select of every column with the present filters as a conjunction of
    [$1]/[$2] equalities, [ORDER BY created_at DESC], and the very
    [limit] and [offset] the method received, printed with [%d] and read
    back, negative values included. *)
Theorem list_query_roundtrip (l o : Z) (u : option uuid) (sn : option string) :
  int_min <= l <= int_max -> int_min <= o <= int_max ->
  exists q, parse (tokens (fst (PostgresStore.list_query l o u sn))) = Some (SSelect q) /\
    sel_list q = SelColumns all_columns /\ sel_where q = list_where u sn /\
    sel_order q = Some (col_created_at, Desc) /\ sel_limit q = Some l /\ sel_offset q = Some o.
Proof.
  intros Hl Ho. rewrite list_query_parses by done. by eexists.
Qed.

(** ** Witnesses *)

Lemma list_query_roundtrip_witness :
  int_min <= -5 <= int_max /\ int_min <= 20 <= int_max /\
  exists q, parse (tokens (fst (PostgresStore.list_query (-5) 20 (Some 1) None))) = Some (SSelect q) /\
    sel_list q = SelColumns all_columns /\ sel_where q = list_where (Some 1) None /\
    sel_order q = Some (col_created_at, Desc) /\ sel_limit q = Some (-5) /\ sel_offset q = Some 20.
Proof.
  split; [unfold int_min, int_max; lia|]. split; [unfold int_min, int_max; lia|].
  apply list_query_roundtrip; unfold int_min, int_max; lia.
Defined.

Definition sample_sub : Subscription := mkSubscription 7 "Plan A" 400 99 "07-2025" None 0.
Definition sample_pg : pg := mkPg (mkDb [sample_sub] None) 100.

Lemma List_contract_witness :
  db_down (pg_db sample_pg) = None /\
  exists out, fst (PostgresStore.List 10 0 None None sample_pg) = Ok out /\
    list_contract (db_rows (pg_db sample_pg)) 10 0 None None (default [] out) /\
    (Datatypes.length (default [] out) <= Z.to_nat 10)%nat.
Proof.
  split; [reflexivity|].
  apply List_contract; [reflexivity | unfold int_max; lia | unfold int_max; lia].
Defined.

Lemma Summary_contract_witness :
  db_down (pg_db sample_pg) = None /\
  (fst (PostgresStore.Summary "01-2025" "12-2025" None None sample_pg) = Ok 400 <->
   400 = sum_Z (map Price (filter (summary_matches "01-2025" "12-2025" None None)
                             (db_rows (pg_db sample_pg)))) /\ int_min <= 400 <= int_max).
Proof. split; [reflexivity|]. apply Summary_contract. reflexivity. Defined.

Lemma query_text_parameterized_witness :
  int_min <= 10 <= int_max /\ int_min <= 0 <= int_max /\
  (is_Some (Some 1) <-> is_Some (Some 2)) /\ (is_Some (Some "a"%string) <-> is_Some (Some "b"%string)) /\
  fst (PostgresStore.list_query 10 0 (Some 1) (Some "a"%string))
  = fst (PostgresStore.list_query 10 0 (Some 2) (Some "b"%string)).
Proof.
  assert (Hl : int_min <= 10 <= int_max) by (unfold int_min, int_max; lia).
  assert (Ho : int_min <= 0 <= int_max) by (unfold int_min, int_max; lia).
  assert (Hu : is_Some (Some 1) <-> is_Some (Some 2)) by (split; eauto).
  assert (Hs : is_Some (Some "a"%string) <-> is_Some (Some "b"%string)) by (split; eauto).
  split; [exact Hl|]. split; [exact Ho|]. split; [exact Hu|]. split; [exact Hs|].
  exact (proj1 (query_text_parameterized 10 0 "01-2025" "12-2025" _ _ _ _ Hl Ho Hu Hs)).
Defined.

Lemma Update_replaces_witness :
  pg_wf sample_pg /\ db_down (pg_db sample_pg) = None /\
  fst (PostgresStore.Get (ID sample_sub) sample_pg) = Ok sample_sub /\
  fst (PostgresStore.Get (ID sample_sub) (snd (PostgresStore.Update sample_sub sample_pg)))
  = Ok (update_fields sample_sub sample_sub).
Proof.
  assert (Hwf : pg_wf sample_pg) by (unfold pg_wf; simpl; apply NoDup_singleton).
  split; [exact Hwf|]. split; [reflexivity|]. split; [vm_compute; reflexivity|].
  apply Update_replaces; [exact Hwf | reflexivity | vm_compute; reflexivity].
Defined.

Lemma Update_keeps_keys_witness :
  pg_wf sample_pg /\ db_down (pg_db sample_pg) = None /\
  map ID (db_rows (pg_db (snd (PostgresStore.Update sample_sub sample_pg)))) = map ID (db_rows (pg_db sample_pg)) /\
  map CreatedAt (db_rows (pg_db (snd (PostgresStore.Update sample_sub sample_pg))))
  = map CreatedAt (db_rows (pg_db sample_pg)).
Proof.
  assert (Hwf : pg_wf sample_pg) by (unfold pg_wf; simpl; apply NoDup_singleton).
  split; [exact Hwf|]. split; [reflexivity|].
  apply Update_keeps_keys; [exact Hwf | reflexivity].
Defined.

Lemma Get_after_Delete_witness :
  db_down (pg_db sample_pg) = None /\
  fst (PostgresStore.Get 7 (snd (PostgresStore.Delete 7 sample_pg))) = Err ErrNoRows.
Proof. split; [reflexivity|]. apply Get_after_Delete. reflexivity. Defined.

Lemma Summary_counts_active_witness :
  db_down (pg_db sample_pg) = None /\
  EndDate (mkSubscription 8 "Plan B" 50 99 "09-2025" None 0) = None /\
  String.compare "09-2025" "01-2025" <> Lt /\
  matches_filters None None (mkSubscription 8 "Plan B" 50 99 "09-2025" None 0) = true /\
  in_int (sum_Z (map Price (filter (summary_matches "01-2025" "03-2025" None None)
                               (db_rows (pg_db sample_pg)))) + 50) = true /\
  fst (PostgresStore.Summary "01-2025" "03-2025" None None
         (set_db sample_pg (mkDb (db_rows (pg_db sample_pg) ++ [mkSubscription 8 "Plan B" 50 99 "09-2025" None 0]) None)))
  = Ok (sum_Z (map Price (filter (summary_matches "01-2025" "03-2025" None None)
                             (db_rows (pg_db sample_pg)))) + 50).
Proof.
  split; [reflexivity|]. split; [reflexivity|]. split; [vm_compute; discriminate|].
  split; [reflexivity|]. split; [vm_compute; reflexivity|].
  apply Summary_counts_active; [reflexivity | reflexivity | vm_compute; discriminate | reflexivity |
                                vm_compute; reflexivity].
Defined.

Lemma Summary_counts_earlier_year_witness :
  let r := mkSubscription 1 "Plan A" 100 2 "03-2024" (Some "06-2024") 0 in
  let s := mkPg (mkDb [] None) 0 in
  db_down (pg_db s) = None /\
  String.length "03" = String.length "01" /\ String.length "06" = String.length "12" /\
  StartDate r = "03" +:+ "-" +:+ "2024" /\ EndDate r = Some ("06" +:+ "-" +:+ "2024") /\
  String.compare "03" "01" = Gt /\ String.compare "06" "12" = Lt /\ matches_filters None None r = true /\
  fst (PostgresStore.Summary "01-2025" "12-2025" None None (set_db s (mkDb (db_rows (pg_db s) ++ [r]) None)))
  = Ok 100.
Proof.
  intros r s. do 8 (split; [reflexivity|]).
  exact (Summary_counts_earlier_year None None "03" "2024" "06" "2024" "01" "2025" "12" "2025" r s
           eq_refl eq_refl eq_refl eq_refl eq_refl eq_refl eq_refl eq_refl eq_refl).
Defined.
