(* ===== verification/Handler.v ===== *)
(** * The HTTP handlers (src/internal/handler/handler.go)

    A request is modelled by what the handlers read from it: the
    [{id}] path parameter ([chi.URLParam]), the decoded query string
    ([r.URL.Query()], pairs in order), and the result of decoding the
    body into a [Subscription] ([json.Decoder.Decode]).  A response is
    a status code and a body: the text [http.Error] writes, the JSON
    value [json.Encoder.Encode] writes, or nothing.  Every handler is
    written against the [Store] interface, in a Section whose context
    is the store's state type and its instance, so that the theorems
    proved here hold for every implementation.  [uuid.New()] is random:
    [Create] takes the fresh id as an argument. *)

From S2P Require Import Prelude GoStrconv Model Uuid Sql SqlText Store.
From Stdlib Require Import Ascii String.

(** ** Requests and responses *)

Record request := mkRequest {
  req_path_id : string;
  req_query : list (string * string);
  req_body : res sub_json
}.

(** [url.Values.Get]: the first value of the key, or [""]. *)
Fixpoint query_get (q : list (string * string)) (k : string) : string :=
  match q with
  | [] => ""
  | (k', v) :: q' => if String.eqb k k' then v else query_get q' k
  end.

(** The JSON values the handlers write.  [JUuid] and [JTime] stand for
    the text of a [uuid.UUID] ([MarshalText]) and of a [time.Time]
    (RFC 3339). *)
#[warnings="-register-all"]
Inductive json :=
  | JNull
  | JNum (z : Z)
  | JStr (s : string)
  | JUuid (u : uuid)
  | JTime (t : time)
  | JArr (xs : list json)
  | JObj (kvs : list (string * json)).

(** [json.Marshal] of a [Subscription], with its struct tags; [end_date]
    is [omitempty], so a nil pointer drops the key. *)
Definition encode_subscription (s : Subscription) : json :=
  JObj ([("id", JUuid (ID s)); ("service_name", JStr (ServiceName s)); ("price", JNum (Price s));
         ("user_id", JUuid (UserID s)); ("start_date", JStr (StartDate s))]
        ++ match EndDate s with Some e => [("end_date", JStr e)] | None => [] end
        ++ [("created_at", JTime (CreatedAt s))]).

(** A slice: [null] when nil, an array otherwise. *)
Definition encode_slice (l : option (list Subscription)) : json :=
  match l with
  | None => JNull
  | Some xs => JArr (map encode_subscription xs)
  end.

Inductive body := BText (s : string) | BJson (j : json) | BEmpty.

Record response := mkResponse { status : Z; resp_body : body }.

Definition newline : string := String (ascii_of_nat 10) EmptyString.

(** [http.Error(w, msg, code)] *)
Definition http_Error (msg : string) (code : Z) : response := mkResponse code (BText (msg +:+ newline)).

Definition StatusOK : Z := 200.
Definition StatusCreated : Z := 201.
Definition StatusNoContent : Z := 204.
Definition StatusBadRequest : Z := 400.
Definition StatusNotFound : Z := 404.
Definition StatusInternalServerError : Z := 500.

(** ** Query parameters shared by List and Summary *)

(** handler.go lines 96-106 (and 123-133): a [user_id] that does not
    parse is dropped; an empty [service_name] is no filter. *)
Definition user_id_filter (q : list (string * string)) : option uuid :=
  let u := query_get q "user_id" in
  if String.eqb u "" then None
  else match Parse u with Ok id => Some id | Err _ => None end.

Definition service_name_filter (q : list (string * string)) : option string :=
  let s := query_get q "service_name" in
  if String.eqb s "" then None else Some s.

(** handler.go lines 91-95: [limit] defaults to 10 when it is [0] after
    [Atoi] (absent, zero or unparsable); [offset] is taken as parsed. *)
Definition list_limit (q : list (string * string)) : Z :=
  let limit := fst (Atoi (query_get q "limit")) in
  if limit =? 0 then 10 else limit.

Definition list_offset (q : list (string * string)) : Z := fst (Atoi (query_get q "offset")).

Module handler.
Section Handlers.
Context {S : Type} `{!Store S}.

(** Create, handler.go lines 24-39 *)
Definition Create (fresh : uuid) (r : request) (st : S) : response * S :=
  match req_body r with
  | Err e => (http_Error (Error e) StatusBadRequest, st)
  | Ok j =>
      let sub := set_ID fresh (decode_into j zero_subscription) in
      match Store.Create sub st with
      | (Err e, st') => (http_Error (Error e) StatusInternalServerError, st')
      | (Ok _, st') => (mkResponse StatusCreated (BJson (encode_subscription sub)), st')
      end
  end.

(** Get, handler.go lines 41-54: every error of the store is a 404. *)
Definition Get (r : request) (st : S) : response * S :=
  match Parse (req_path_id r) with
  | Err _ => (http_Error "invalid id" StatusBadRequest, st)
  | Ok id =>
      match Store.Get id st with
      | (Err e, st') => (http_Error (Error e) StatusNotFound, st')
      | (Ok sub, st') => (mkResponse StatusOK (BJson (encode_subscription sub)), st')
      end
  end.

(** Update, handler.go lines 56-74: the path id overwrites the body's. *)
Definition Update (r : request) (st : S) : response * S :=
  match Parse (req_path_id r) with
  | Err _ => (http_Error "invalid id" StatusBadRequest, st)
  | Ok id =>
      match req_body r with
      | Err e => (http_Error (Error e) StatusBadRequest, st)
      | Ok j =>
          let sub := set_ID id (decode_into j zero_subscription) in
          match Store.Update sub st with
          | (Err e, st') => (http_Error (Error e) StatusInternalServerError, st')
          | (Ok _, st') => (mkResponse StatusOK (BJson (encode_subscription sub)), st')
          end
      end
  end.

(** Delete, handler.go lines 76-88 *)
Definition Delete (r : request) (st : S) : response * S :=
  match Parse (req_path_id r) with
  | Err _ => (http_Error "invalid id" StatusBadRequest, st)
  | Ok id =>
      match Store.Delete id st with
      | (Err e, st') => (http_Error (Error e) StatusInternalServerError, st')
      | (Ok _, st') => (mkResponse StatusNoContent BEmpty, st')
      end
  end.

(** List, handler.go lines 90-113 *)
Definition List (r : request) (st : S) : response * S :=
  let q := req_query r in
  match Store.List (list_limit q) (list_offset q) (user_id_filter q) (service_name_filter q) st with
  | (Err e, st') => (http_Error (Error e) StatusInternalServerError, st')
  | (Ok l, st') => (mkResponse StatusOK (BJson (encode_slice l)), st')
  end.

(** Summary, handler.go lines 115-140 *)
Definition Summary (r : request) (st : S) : response * S :=
  let q := req_query r in
  let periodFrom := query_get q "period_from" in
  let periodTo := query_get q "period_to" in
  if String.eqb periodFrom "" || String.eqb periodTo "" then
    (http_Error "period_from and period_to required" StatusBadRequest, st)
  else
    match Store.Summary periodFrom periodTo (user_id_filter q) (service_name_filter q) st with
    | (Err e, st') => (http_Error (Error e) StatusInternalServerError, st')
    | (Ok total, st') => (mkResponse StatusOK (BJson (JObj [("total", JNum total)])), st')
    end.
End Handlers.
End handler.

(** ** Request parsing *)

Lemma list_limit_in_int (q : list (string * string)) : int_min <= list_limit q <= int_max.
Proof.
  unfold list_limit. pose proof (Atoi_in_int (query_get q "limit")).
  case_match; unfold int_min, int_max in *; lia.
Qed.

(** C10. The [limit] the List handler passes to the store: [10] when
    the parameter is absent, [0], or not a number; the number itself
    when the client writes an [int] other than [0]; and, because the
    handler ignores [Atoi]'s error, the bound of [int] (not [10]) when
    the number is out of range. *)
Theorem list_limit_spec (q : list (string * string)) :
  (query_get q "limit" = "" -> list_limit q = 10) /\
  (forall e, snd (Atoi (query_get q "limit")) = Some (ErrNumSyntax e) -> list_limit q = 10) /\
  (forall n, int_min <= n <= int_max -> query_get q "limit" = format_d n ->
     list_limit q = if n =? 0 then 10 else n) /\
  (forall e, snd (Atoi (query_get q "limit")) = Some (ErrNumRange e) ->
     list_limit q = int_max \/ list_limit q = int_min).
Proof.
  unfold list_limit. destruct (Atoi_errors (query_get q "limit")) as [Hsyn Hrng].
  split_and!.
  - intros He. rewrite He. reflexivity.
  - intros e He. by rewrite (Hsyn e He).
  - intros n Hn He. by rewrite He, Atoi_format_d.
  - intros e He. destruct (Hrng e He) as [-> | ->]; [left | right]; reflexivity.
Qed.

(** ** Behaviour of every handler, for any store *)
Section AnyStore.
Context {S : Type} `{!Store S}.

(** C18. A path id that [uuid.Parse] rejects is answered 400 with
    [invalid id] by Get, Update and Delete, before the store is
    called. *)
Theorem invalid_id_400 (r : request) (st : S) (e : go_error) :
  Parse (req_path_id r) = Err e ->
  handler.Get r st = (http_Error "invalid id" StatusBadRequest, st) /\
  handler.Update r st = (http_Error "invalid id" StatusBadRequest, st) /\
  handler.Delete r st = (http_Error "invalid id" StatusBadRequest, st).
Proof. intros H. unfold handler.Get, handler.Update, handler.Delete. by rewrite H. Qed.

(** C19. Summary without [period_from] or [period_to] is answered 400
    and leaves the store untouched. *)
Theorem Summary_requires_periods (r : request) (st : S) :
  query_get (req_query r) "period_from" = "" \/ query_get (req_query r) "period_to" = "" ->
  handler.Summary r st = (http_Error "period_from and period_to required" StatusBadRequest, st).
Proof.
  intros H. unfold handler.Summary.
  replace (String.eqb _ "" || String.eqb _ "") with true; [done|].
  destruct H as [-> | ->]; [done|]. by rewrite orb_true_r.
Qed.

End AnyStore.

(** ** The handlers on the Postgres store *)

(** C3. Create answers 201 with the record as decoded from the body
    and the fresh id, but the row it stores has [created_at = now()]:
    a Get of the new id answers 200 with the stored row, whose
    [created_at] is the database's, while the 201 body carries the
    client's [created_at] (or Go's zero time). *)
Theorem Create_then_Get (fresh : uuid) (j : sub_json) (r1 r2 : request) (s : pg) :
  db_down (pg_db s) = None -> fresh ∉ map ID (db_rows (pg_db s)) ->
  req_body r1 = Ok j -> Parse (req_path_id r2) = Ok fresh ->
  let sub := set_ID fresh (decode_into j zero_subscription) in
  fst (handler.Create fresh r1 s) = mkResponse StatusCreated (BJson (encode_subscription sub)) /\
  fst (handler.Get r2 (snd (handler.Create fresh r1 s)))
  = mkResponse StatusOK (BJson (encode_subscription (stored sub (pg_now s)))).
Proof.
  intros Hd Hn Hb Hp sub. unfold handler.Create. rewrite Hb. fold sub. cbn [Store.Create PostgresStore_Store].
  assert (Hc : fst (PostgresStore.Create sub s) = Ok tt)
    by (rewrite Create_spec by done; by rewrite bool_decide_false).
  pose proof (Get_after_Create sub s Hd Hc) as Hg.
  destruct (PostgresStore.Create sub s) as [[[]|e] s0] eqn:E; simpl in Hc; [|discriminate].
  split; [done|]. cbn [snd]. unfold handler.Get. rewrite Hp. cbn [Store.Get PostgresStore_Store].
  cbn [snd] in Hg. change (ID sub) with fresh in Hg.
  destruct (PostgresStore.Get fresh s0) as [g s1]. cbn [fst] in Hg. by subst g.
Qed.

(** C13. Get answers 404 for every error of the store, a database that
    is unreachable included; only a malformed id is a 400. *)
Theorem Get_storage_error_404 (r : request) (s : pg) (id : uuid) (msg : string) :
  Parse (req_path_id r) = Ok id -> db_down (pg_db s) = Some msg ->
  handler.Get r s = (http_Error ("pq: " +:+ msg) StatusNotFound, s).
Proof.
  intros Hp Hd. unfold handler.Get. rewrite Hp. cbn [Store.Get PostgresStore_Store].
  unfold PostgresStore.Get. by rewrite db_run_down with (msg := msg).
Qed.

(** C8. Delete of an id that is not stored answers 204 and leaves the
    database as it was. *)
Theorem Delete_absent_204 (r : request) (s : pg) (id : uuid) :
  Parse (req_path_id r) = Ok id -> db_down (pg_db s) = None -> id ∉ map ID (db_rows (pg_db s)) ->
  handler.Delete r s = (mkResponse StatusNoContent BEmpty, s).
Proof.
  intros Hp Hd Hn. unfold handler.Delete. rewrite Hp. cbn [Store.Delete PostgresStore_Store].
  by rewrite Delete_idempotent.
Qed.

(** C14. Update of an id that is not stored answers 200 with the
    request's record and changes nothing; no 404 is ever produced. *)
Theorem Update_absent_200 (r : request) (s : pg) (id : uuid) (j : sub_json) :
  pg_wf s -> Parse (req_path_id r) = Ok id -> req_body r = Ok j ->
  db_down (pg_db s) = None -> id ∉ map ID (db_rows (pg_db s)) ->
  handler.Update r s =
  (mkResponse StatusOK (BJson (encode_subscription (set_ID id (decode_into j zero_subscription)))), s).
Proof.
  intros Hwf Hp Hb Hd Hn. unfold handler.Update. rewrite Hp, Hb.
  cbn [Store.Update PostgresStore_Store]. by rewrite Update_missing_is_noop.
Qed.

(** C12. On the Postgres store, a List whose window is empty answers
    200 with the JSON [null] (the nil slice [scan] leaves), not [[]]. *)
Theorem List_empty_is_null (r : request) (s : pg) :
  db_down (pg_db s) = None -> 0 <= list_limit (req_query r) -> 0 <= list_offset (req_query r) ->
  list_window (list_limit (req_query r)) (list_offset (req_query r))
    (user_id_filter (req_query r)) (service_name_filter (req_query r)) (db_rows (pg_db s)) = [] ->
  handler.List r s = (mkResponse StatusOK (BJson JNull), s).
Proof.
  intros Hd Hl Ho He. unfold handler.List. cbn [Store.List PostgresStore_Store].
  pose proof (list_limit_in_int (req_query r)) as Hr.
  pose proof (Atoi_in_int (query_get (req_query r) "offset")) as Hor.
  rewrite List_refines by (done || unfold list_offset in *; lia). by rewrite He.
Qed.

(** C11. A negative [limit] in the query string is passed through and
    answered 500 with PostgreSQL's message. *)
Theorem List_negative_limit_500 (r : request) (s : pg) :
  db_down (pg_db s) = None -> list_limit (req_query r) < 0 -> 0 <= list_offset (req_query r) ->
  handler.List r s = (http_Error "pq: LIMIT must not be negative" StatusInternalServerError, s).
Proof.
  intros Hd Hl Ho. unfold handler.List. cbn [Store.List PostgresStore_Store].
  pose proof (list_limit_in_int (req_query r)) as Hr.
  pose proof (Atoi_in_int (query_get (req_query r) "offset")) as Hor.
  rewrite List_negative_limit by (done || unfold list_offset in *; lia). done.
Qed.

(** C16. Summary with both periods and no matching record answers 200
    with [{"total": 0}]. *)
Theorem Summary_no_match_200 (r : request) (s : pg) :
  db_down (pg_db s) = None ->
  query_get (req_query r) "period_from" <> "" -> query_get (req_query r) "period_to" <> "" ->
  (forall x, x ∈ db_rows (pg_db s) ->
     summary_matches (query_get (req_query r) "period_from") (query_get (req_query r) "period_to")
       (user_id_filter (req_query r)) (service_name_filter (req_query r)) x = false) ->
  handler.Summary r s = (mkResponse StatusOK (BJson (JObj [("total", JNum 0)])), s).
Proof.
  intros Hd Hf Ht Hn. unfold handler.Summary.
  rewrite (proj2 (String.eqb_neq _ _) Hf), (proj2 (String.eqb_neq _ _) Ht). simpl orb.
  cbn [Store.Summary PostgresStore_Store]. by rewrite Summary_no_match_zero.
Qed.

(** ** Witnesses *)

Definition sample_path : string := "6ba7b810-9dad-11d1-80b4-00c04fd430c8".
Definition sample_id : uuid := 143098242404177361603877621312831893704.
Definition sample_json : sub_json :=
  mkSubJson None (Some "Plan A") (Some 400) (Some 99) (Some "07-2025") None None.
Definition sample_request (q : list (string * string)) : request :=
  mkRequest sample_path q (Ok sample_json).
Definition empty_pg : pg := mkPg (mkDb [] None) 100.

Lemma Create_then_Get_witness :
  db_down (pg_db empty_pg) = None /\ (sample_id ∉ map ID (db_rows (pg_db empty_pg))) /\
  req_body (sample_request []) = Ok sample_json /\
  Parse (req_path_id (sample_request [])) = Ok sample_id /\
  (let sub := set_ID sample_id (decode_into sample_json zero_subscription) in
   fst (handler.Create sample_id (sample_request []) empty_pg)
   = mkResponse StatusCreated (BJson (encode_subscription sub)) /\
   fst (handler.Get (sample_request []) (snd (handler.Create sample_id (sample_request []) empty_pg)))
   = mkResponse StatusOK (BJson (encode_subscription (stored sub (pg_now empty_pg))))).
Proof.
  assert (Hn : sample_id ∉ map ID (db_rows (pg_db empty_pg))) by apply not_elem_of_nil.
  split; [reflexivity|]. split; [exact Hn|]. split; [reflexivity|].
  split; [vm_compute; reflexivity|].
  apply Create_then_Get; [reflexivity | exact Hn | reflexivity | vm_compute; reflexivity].
Defined.

Lemma Get_storage_error_404_witness :
  Parse (req_path_id (sample_request [])) = Ok sample_id /\
  db_down (pg_db (mkPg (mkDb [] (Some "connection refused")) 0)) = Some "connection refused" /\
  handler.Get (sample_request []) (mkPg (mkDb [] (Some "connection refused")) 0)
  = (http_Error ("pq: " +:+ "connection refused") StatusNotFound, mkPg (mkDb [] (Some "connection refused")) 0).
Proof.
  split; [vm_compute; reflexivity|]. split; [reflexivity|].
  apply Get_storage_error_404 with (id := sample_id); [vm_compute; reflexivity | reflexivity].
Defined.

Lemma Delete_absent_204_witness :
  Parse (req_path_id (sample_request [])) = Ok sample_id /\ db_down (pg_db empty_pg) = None /\
  (sample_id ∉ map ID (db_rows (pg_db empty_pg))) /\
  handler.Delete (sample_request []) empty_pg = (mkResponse StatusNoContent BEmpty, empty_pg).
Proof.
  assert (Hn : sample_id ∉ map ID (db_rows (pg_db empty_pg))) by apply not_elem_of_nil.
  split; [vm_compute; reflexivity|]. split; [reflexivity|]. split; [exact Hn|].
  apply Delete_absent_204 with (id := sample_id); [vm_compute; reflexivity | reflexivity | exact Hn].
Defined.

Lemma Update_absent_200_witness :
  pg_wf empty_pg /\ Parse (req_path_id (sample_request [])) = Ok sample_id /\
  req_body (sample_request []) = Ok sample_json /\ db_down (pg_db empty_pg) = None /\
  (sample_id ∉ map ID (db_rows (pg_db empty_pg))) /\
  handler.Update (sample_request []) empty_pg =
  (mkResponse StatusOK (BJson (encode_subscription (set_ID sample_id (decode_into sample_json zero_subscription)))),
   empty_pg).
Proof.
  assert (Hn : sample_id ∉ map ID (db_rows (pg_db empty_pg))) by apply not_elem_of_nil.
  assert (Hwf : pg_wf empty_pg) by constructor.
  split; [exact Hwf|]. split; [vm_compute; reflexivity|]. split; [reflexivity|].
  split; [reflexivity|]. split; [exact Hn|].
  apply Update_absent_200; [exact Hwf | vm_compute; reflexivity | reflexivity | reflexivity | exact Hn].
Defined.

Lemma List_empty_is_null_witness :
  db_down (pg_db empty_pg) = None /\ 0 <= list_limit [] /\ 0 <= list_offset [] /\
  list_window (list_limit []) (list_offset []) (user_id_filter []) (service_name_filter [])
    (db_rows (pg_db empty_pg)) = [] /\
  handler.List (sample_request []) empty_pg = (mkResponse StatusOK (BJson JNull), empty_pg).
Proof.
  split; [reflexivity|]. split; [vm_compute; discriminate|]. split; [vm_compute; discriminate|].
  split; [vm_compute; reflexivity|].
  apply List_empty_is_null;
    [reflexivity | vm_compute; discriminate | vm_compute; discriminate | vm_compute; reflexivity].
Defined.

Lemma List_negative_limit_500_witness :
  db_down (pg_db empty_pg) = None /\ list_limit [("limit", "-5")] < 0 /\
  0 <= list_offset [("limit", "-5")] /\
  handler.List (sample_request [("limit", "-5")]) empty_pg
  = (http_Error "pq: LIMIT must not be negative" StatusInternalServerError, empty_pg).
Proof.
  split; [reflexivity|]. split; [vm_compute; reflexivity|]. split; [vm_compute; discriminate|].
  apply List_negative_limit_500; [reflexivity | vm_compute; reflexivity | vm_compute; discriminate].
Defined.

Lemma Summary_no_match_200_witness :
  db_down (pg_db empty_pg) = None /\
  query_get [("period_from", "01-2025"); ("period_to", "12-2025")] "period_from" <> "" /\
  query_get [("period_from", "01-2025"); ("period_to", "12-2025")] "period_to" <> "" /\
  handler.Summary (sample_request [("period_from", "01-2025"); ("period_to", "12-2025")]) empty_pg
  = (mkResponse StatusOK (BJson (JObj [("total", JNum 0)])), empty_pg).
Proof.
  split; [reflexivity|]. split; [discriminate|]. split; [discriminate|].
  apply Summary_no_match_200; [reflexivity | discriminate | discriminate |].
  intros x Hx. by apply not_elem_of_nil in Hx.
Defined.

Lemma invalid_id_400_witness :
  Parse (req_path_id (mkRequest "not-a-uuid" [] (Ok sample_json))) = Err (ErrText "invalid UUID length: 10") /\
  handler.Get (mkRequest "not-a-uuid" [] (Ok sample_json)) empty_pg
  = (http_Error "invalid id" StatusBadRequest, empty_pg).
Proof.
  split; [vm_compute; reflexivity|].
  apply (invalid_id_400 _ _ (ErrText "invalid UUID length: 10")). vm_compute. reflexivity.
Defined.

Lemma Summary_requires_periods_witness :
  (query_get (req_query (sample_request [])) "period_from" = "" \/
   query_get (req_query (sample_request [])) "period_to" = "") /\
  handler.Summary (sample_request []) empty_pg
  = (http_Error "period_from and period_to required" StatusBadRequest, empty_pg).
Proof.
  split; [left; reflexivity|]. apply Summary_requires_periods. left. reflexivity.
Defined.

(** A limit beyond 64 bits reaches the store as the largest [int]. *)
Lemma list_limit_spec_witness :
  let q := [("limit", "99999999999999999999")] in
  snd (Atoi (query_get q "limit")) = Some (ErrNumRange "99999999999999999999") /\
  (list_limit q = int_max \/ list_limit q = int_min).
Proof.
  intros q. assert (He : snd (Atoi (query_get q "limit")) = Some (ErrNumRange "99999999999999999999"))
    by (vm_compute; reflexivity).
  split; [exact He|]. exact (proj2 (proj2 (proj2 (list_limit_spec q))) _ He).
Defined.
