(* ===== verification/MockStore.v ===== *)
(** * The test double of handler_test.go, and the repository's tests

    [mockStore] implements the [Store] interface on a Go map from ids to
    records ([gmap]).  Its [List] ignores its parameters and returns a
    non-nil slice of every record, in the map's iteration order (random
    in Go; [map_to_list]'s order is one of the possible ones); its
    [Summary] returns [1000].  The three tests of handler_test.go are
    stated and proved for the handlers of [Handler] on this store. *)

From S2P Require Import Prelude GoStrconv Model Uuid Sql SqlText Store Handler.
From stdpp Require Import gmap.
From Stdlib Require Import String.
Local Open Scope Z_scope.

Record mock := mkMock { items : gmap uuid Subscription }.

Module mockStore.
(** handler_test.go lines 28-31 *)
Definition Create (sub : Subscription) (m : mock) : res unit * mock :=
  (Ok tt, mkMock (<[ID sub := sub]> (items m))).

(** lines 33-39 *)
Definition Get (id : uuid) (m : mock) : res Subscription * mock :=
  (match items m !! id with Some s => Ok s | None => Err ErrNotFound end, m).

(** lines 41-44 *)
Definition Update (sub : Subscription) (m : mock) : res unit * mock :=
  (Ok tt, mkMock (<[ID sub := sub]> (items m))).

(** lines 46-49 *)
Definition Delete (id : uuid) (m : mock) : res unit * mock :=
  (Ok tt, mkMock (delete id (items m))).

(** lines 51-57: [result := []model.Subscription{}], then every value. *)
Definition List (limit offset : Z) (userID : option uuid) (serviceName : option string)
    (m : mock) : res (option (list Subscription)) * mock :=
  (Ok (Some (map snd (map_to_list (items m)))), m).

(** lines 59-61 *)
Definition Summary (periodFrom periodTo : string) (userID : option uuid)
    (serviceName : option string) (m : mock) : res Z * mock :=
  (Ok 1000, m).
End mockStore.

#[export] Instance mockStore_Store : Store mock := {|
  Store.Create := mockStore.Create;
  Store.Get := mockStore.Get;
  Store.Update := mockStore.Update;
  Store.Delete := mockStore.Delete;
  Store.List := mockStore.List;
  Store.Summary := mockStore.Summary
|}.

(** [newMockStore()] *)
Definition newMockStore : mock := mkMock ∅.

(** C21. TestCreateSubscription (handler_test.go lines 65-86): posting a
    well-formed body to a fresh mock store answers 201, whatever the
    fresh id and the body's fields. *)
Theorem TestCreateSubscription (fresh : uuid) (r : request) (j : sub_json) :
  req_body r = Ok j ->
  status (fst (handler.Create fresh r newMockStore)) = StatusCreated.
Proof. intros Hb. unfold handler.Create. by rewrite Hb. Qed.

(** C22. TestGetNotFound (lines 88-106): a Get of an id that parses but
    is not in the empty store answers 404. *)
Theorem TestGetNotFound (r : request) (id : uuid) :
  Parse (req_path_id r) = Ok id ->
  status (fst (handler.Get r newMockStore)) = StatusNotFound.
Proof. intros Hp. unfold handler.Get. by rewrite Hp. Qed.

(** TestSummary (lines 108-120): with both periods given, Summary
    on the mock answers 200. *)
Theorem TestSummary (r : request) :
  query_get (req_query r) "period_from" = "01-2025" ->
  query_get (req_query r) "period_to" = "12-2025" ->
  fst (handler.Summary r newMockStore) = mkResponse StatusOK (BJson (JObj [("total", JNum 1000)])).
Proof. intros Hf Ht. unfold handler.Summary. by rewrite Hf, Ht. Qed.

(** On an empty mock the List handler answers the empty JSON array,
    where the Postgres store answers [null]. *)
Theorem mock_List_empty_is_array (r : request) :
  handler.List r newMockStore = (mkResponse StatusOK (BJson (JArr [])), newMockStore).
Proof. reflexivity. Qed.

(** ** Witnesses *)

Lemma TestCreateSubscription_witness :
  req_body (sample_request []) = Ok sample_json /\
  status (fst (handler.Create sample_id (sample_request []) newMockStore)) = StatusCreated.
Proof. split; [reflexivity|]. apply (TestCreateSubscription _ _ sample_json). reflexivity. Defined.

Lemma TestGetNotFound_witness :
  Parse (req_path_id (sample_request [])) = Ok sample_id /\
  status (fst (handler.Get (sample_request []) newMockStore)) = StatusNotFound.
Proof.
  split; [vm_compute; reflexivity|].
  apply (TestGetNotFound _ sample_id). vm_compute. reflexivity.
Defined.

Lemma TestSummary_witness :
  query_get [("period_from", "01-2025"); ("period_to", "12-2025")] "period_from" = "01-2025" /\
  query_get [("period_from", "01-2025"); ("period_to", "12-2025")] "period_to" = "12-2025" /\
  fst (handler.Summary (sample_request [("period_from", "01-2025"); ("period_to", "12-2025")]) newMockStore)
  = mkResponse StatusOK (BJson (JObj [("total", JNum 1000)])).
Proof.
  split; [reflexivity|]. split; [reflexivity|]. apply TestSummary; reflexivity.
Defined.
