(* ===== verification/StoreSim.v ===== *)
(** * The test double against the real store

    handler_test.go tests the handlers on [mockStore] in place of
    [PostgresStore].  This file relates the two implementations of the
    [Store] interface by a simulation: a mock and a Postgres state are
    related when the database is up, its ids are unique, and every id
    maps to the same record in both, up to [created_at] (the mock keeps
    the caller's, the database its own clock).  [Create] of a fresh id,
    [Get], [Update] of a stored id and [Delete] preserve the relation
    and agree on their results ([mock_simulates_postgres]); outside
    those preconditions the two differ ([mock_diverges]). *)

From S2P Require Import Prelude GoStrconv Model Uuid Sql SqlText Store Handler MockStore.
From stdpp Require Import gmap.
From Stdlib Require Import String.
Local Open Scope Z_scope.

(** A record without its creation time. *)
Definition forget_created (r : Subscription) : Subscription :=
  mkSubscription (ID r) (ServiceName r) (Price r) (UserID r) (StartDate r) (EndDate r) time_zero.

(** The row a Postgres [Get] of [id] finds. *)
Definition pg_lookup (id : uuid) (s : pg) : option Subscription :=
  head (filter (has_id id) (db_rows (pg_db s))).

Definition sim (m : mock) (s : pg) : Prop :=
  db_down (pg_db s) = None /\ pg_wf s /\
  forall id, forget_created <$> items m !! id = forget_created <$> pg_lookup id s.

(** Both stores answer a [Get] alike: the same record up to
    [created_at], or each its own not-found error. *)
Definition same_get (a b : res Subscription) : Prop :=
  match a, b with
  | Ok x, Ok y => forget_created x = forget_created y
  | Err ErrNotFound, Err ErrNoRows => True
  | _, _ => False
  end.

(** ** Lemmas *)

Lemma forget_stored (sub : Subscription) (now : time) :
  forget_created (stored sub now) = forget_created sub.
Proof. done. Qed.

Lemma forget_update_fields (sub r : Subscription) :
  ID r = ID sub -> forget_created (update_fields sub r) = forget_created sub.
Proof. unfold forget_created, update_fields. simpl. by intros ->. Qed.

Lemma has_id_true (id : uuid) (r : Subscription) : has_id id r = true <-> ID r = id.
Proof. unfold has_id. by rewrite bool_decide_eq_true. Qed.

Lemma has_id_refl (r : Subscription) : Is_true (has_id (ID r) r).
Proof. unfold has_id. by rewrite bool_decide_true. Qed.

Lemma head_filter_app_single {A} (P : A -> Prop) `{!forall x, Decision (P x)} (l : list A) (x : A) :
  head (filter P (l ++ [x])) = match head (filter P l) with Some y => Some y | None => if decide (P x) then Some x else None end.
Proof. rewrite filter_app, filter_cons, filter_nil. destruct (filter P l); simpl; [by case_decide|done]. Qed.

Lemma pg_lookup_none (id : uuid) (s : pg) :
  pg_lookup id s = None -> id ∉ map ID (db_rows (pg_db s)).
Proof.
  unfold pg_lookup. intros Hn (r & -> & Hr)%list_elem_of_fmap.
  destruct (filter (has_id (ID r)) (db_rows (pg_db s))) eqn:E; [|done].
  assert (Hin : r ∈ filter (has_id (ID r)) (db_rows (pg_db s))).
  { apply list_elem_of_filter. split; [|done]. unfold has_id. by rewrite bool_decide_true. }
  rewrite E in Hin. by apply not_elem_of_nil in Hin.
Qed.

Lemma sim_lookup_absent (m : mock) (s : pg) (id : uuid) :
  sim m s -> items m !! id = None -> pg_lookup id s = None.
Proof. intros (_ & _ & Hl) Hn. specialize (Hl id). rewrite Hn in Hl. by destruct (pg_lookup id s). Qed.

Lemma mockStore_Get_insert (sub : Subscription) (m : mock) :
  fst (mockStore.Get (ID sub) (snd (mockStore.Update sub m))) = Ok sub.
Proof. unfold mockStore.Get, mockStore.Update. simpl. by rewrite lookup_insert_eq. Qed.

(** ** The simulation, method by method *)

Lemma sim_Create (m : mock) (s : pg) (sub : Subscription) :
  sim m s -> items m !! ID sub = None ->
  fst (mockStore.Create sub m) = Ok tt /\ fst (PostgresStore.Create sub s) = Ok tt /\
  sim (snd (mockStore.Create sub m)) (snd (PostgresStore.Create sub s)).
Proof.
  intros Hs Hn. pose proof (sim_lookup_absent _ _ _ Hs Hn) as Hp.
  destruct Hs as (Hd & Hwf & Hl).
  pose proof (run_op_wf (OpCreate sub) s Hwf) as Hwf'. cbn [run_op] in Hwf'.
  rewrite Create_spec, bool_decide_false in * by (done || by apply pg_lookup_none).
  split; [done|split; [done|]]. split; [done|split; [done|]]. intros id. cbn [items snd mockStore.Create].
  unfold pg_lookup in *. cbn [pg_db set_db db_rows]. rewrite head_filter_app_single.
  destruct (decide (id = ID sub)) as [->|Hne].
  - rewrite lookup_insert_eq, Hp. case_decide as Hc; [reflexivity|].
    destruct Hc. apply (has_id_refl (stored sub (pg_now s))).
  - rewrite lookup_insert_ne by done. rewrite Hl.
    destruct (head (filter (fun r => has_id id r) (db_rows (pg_db s)))); [done|].
    rewrite decide_False; [reflexivity|].
    unfold has_id. rewrite bool_decide_false; [simpl; tauto|]. simpl. congruence.
Qed.

Lemma sim_Get (m : mock) (s : pg) (id : uuid) :
  sim m s ->
  same_get (fst (mockStore.Get id m)) (fst (PostgresStore.Get id s)) /\
  snd (mockStore.Get id m) = m /\ snd (PostgresStore.Get id s) = s.
Proof.
  intros (Hd & Hwf & Hl). specialize (Hl id). unfold pg_lookup in Hl.
  rewrite Get_spec by done. unfold mockStore.Get. cbn [fst snd].
  split; [|done].
  destruct (items m !! id) as [x|], (filter _ _) as [|y t]; simpl in *. all: try done; congruence.
Qed.

Lemma sim_Update (m : mock) (s : pg) (sub : Subscription) :
  sim m s -> is_Some (items m !! ID sub) ->
  fst (mockStore.Update sub m) = Ok tt /\ fst (PostgresStore.Update sub s) = Ok tt /\
  sim (snd (mockStore.Update sub m)) (snd (PostgresStore.Update sub s)).
Proof.
  intros (Hd & Hwf & Hl) [x Hx].
  pose proof (run_op_wf (OpUpdate sub) s Hwf) as Hwf'. cbn [run_op] in Hwf'.
  rewrite Update_spec in * by done.
  split; [done|split; [done|]]. split; [done|split; [done|]]. intros id.
  cbn [items snd mockStore.Update]. unfold pg_lookup in *. cbn [pg_db set_db db_rows].
  rewrite (filter_map_invariant _ (has_id id)) by (intros r; by rewrite has_id_update).
  specialize (Hl id).
  destruct (filter (has_id id) (db_rows (pg_db s))) as [|y t] eqn:Hf; simpl in *.
  - destruct (decide (id = ID sub)) as [->|Hne]; [by rewrite Hx in Hl|].
    by rewrite lookup_insert_ne by done.
  - apply filter_head in Hf. unfold has_id in Hf. apply bool_decide_unpack in Hf.
    destruct (decide (id = ID sub)) as [->|Hne].
    + rewrite lookup_insert_eq. unfold has_id. rewrite bool_decide_true by done.
      simpl. by rewrite forget_update_fields.
    + rewrite lookup_insert_ne, Hl by done. unfold has_id. rewrite bool_decide_false by congruence.
      done.
Qed.

Lemma sim_Delete (m : mock) (s : pg) (id : uuid) :
  sim m s ->
  fst (mockStore.Delete id m) = Ok tt /\ fst (PostgresStore.Delete id s) = Ok tt /\
  sim (snd (mockStore.Delete id m)) (snd (PostgresStore.Delete id s)).
Proof.
  intros (Hd & Hwf & Hl).
  pose proof (run_op_wf (OpDelete id) s Hwf) as Hwf'. cbn [run_op] in Hwf'.
  rewrite Delete_spec in * by done.
  split; [done|split; [done|]]. split; [done|split; [done|]]. intros id'.
  cbn [items snd mockStore.Delete]. unfold pg_lookup in *. cbn [pg_db set_db db_rows].
  rewrite list_filter_filter. destruct (decide (id' = id)) as [->|Hne].
  - rewrite lookup_delete_eq, filter_all_false; [done|].
    intros r _ [H1 H2]. unfold has_id in *. by destruct (bool_decide _).
  - rewrite lookup_delete_ne, Hl by done. do 2 f_equal. apply list_filter_iff.
    intros r. unfold has_id. split; [|tauto]. intros H. split; [done|].
    apply bool_decide_unpack in H. rewrite bool_decide_false by congruence. done.
Qed.

(** ** The two stores, method by method *)

(** C27. [mockStore] simulates [PostgresStore] up to [created_at]:
    from related states, [Create] of a fresh id, [Update] of a stored
    id and [Delete] succeed on both and lead to related states, and
    [Get] answers the same record (or each store's not-found error)
    without changing either state. *)
Theorem mock_simulates_postgres (m : mock) (s : pg) :
  sim m s ->
  (forall sub, items m !! ID sub = None ->
     fst (mockStore.Create sub m) = Ok tt /\ fst (PostgresStore.Create sub s) = Ok tt /\
     sim (snd (mockStore.Create sub m)) (snd (PostgresStore.Create sub s))) /\
  (forall id, same_get (fst (mockStore.Get id m)) (fst (PostgresStore.Get id s)) /\
     snd (mockStore.Get id m) = m /\ snd (PostgresStore.Get id s) = s) /\
  (forall sub, is_Some (items m !! ID sub) ->
     fst (mockStore.Update sub m) = Ok tt /\ fst (PostgresStore.Update sub s) = Ok tt /\
     sim (snd (mockStore.Update sub m)) (snd (PostgresStore.Update sub s))) /\
  (forall id, fst (mockStore.Delete id m) = Ok tt /\ fst (PostgresStore.Delete id s) = Ok tt /\
     sim (snd (mockStore.Delete id m)) (snd (PostgresStore.Delete id s))).
Proof.
  intros Hs. split_and!; intros.
  - by apply sim_Create.
  - by apply sim_Get.
  - by apply sim_Update.
  - by apply sim_Delete.
Qed.

(** C28. Where the double departs from the database: a [Create] of a
    stored id overwrites it in the mock but is refused by PostgreSQL
    (duplicate key), and an [Update] of an id that is not stored
    inserts the record in the mock while the database changes nothing,
    so a later [Get] finds it only in the mock. *)
Theorem mock_diverges (m : mock) (s : pg) (sub x : Subscription) :
  sim m s ->
  (items m !! ID sub = Some x ->
     fst (mockStore.Create sub m) = Ok tt /\ fst (PostgresStore.Create sub s) = Err err_dup) /\
  (items m !! ID sub = None ->
     fst (mockStore.Get (ID sub) (snd (mockStore.Update sub m))) = Ok sub /\
     fst (PostgresStore.Get (ID sub) (snd (PostgresStore.Update sub s))) = Err ErrNoRows).
Proof.
  intros Hs. split; intros Hx.
  - destruct Hs as (Hd & Hwf & Hl). split; [done|].
    rewrite Create_spec by done. rewrite bool_decide_true; [done|].
    specialize (Hl (ID sub)). rewrite Hx in Hl. unfold pg_lookup in Hl.
    destruct (filter _ _) as [|y t] eqn:Hf; [done|].
    assert (Hy : y ∈ filter (has_id (ID sub)) (db_rows (pg_db s))) by (rewrite Hf; left).
    apply list_elem_of_filter in Hy as [Hy Hin]. unfold has_id in Hy. apply bool_decide_unpack in Hy.
    rewrite <- Hy. by apply Prelude.elem_of_map_2.
  - pose proof (sim_lookup_absent _ _ _ Hs Hx) as Hp. destruct Hs as (Hd & Hwf & _).
    split; [by rewrite mockStore_Get_insert|].
    rewrite Update_missing_is_noop by (done || by apply pg_lookup_none). cbn [snd].
    rewrite Get_spec by done. unfold pg_lookup in Hp. simpl.
    by destruct (filter _ _).
Qed.

(** ** The handlers on the two stores *)

(** C29. What handler_test.go observes on the mock is what a client
    observes on PostgreSQL, from related states: [Create] with a fresh
    id, [Delete] and [Update] write the same response on both stores
    ([Update] even when the id is not stored), [Get] answers with the
    same status, and [Create] and [Delete] keep the states related. *)
Theorem handlers_agree (m : mock) (s : pg) (fresh : uuid) (r : request) :
  sim m s ->
  (items m !! fresh = None ->
     fst (handler.Create fresh r m) = fst (handler.Create fresh r s) /\
     sim (snd (handler.Create fresh r m)) (snd (handler.Create fresh r s))) /\
  status (fst (handler.Get r m)) = status (fst (handler.Get r s)) /\
  (fst (handler.Delete r m) = fst (handler.Delete r s) /\
   sim (snd (handler.Delete r m)) (snd (handler.Delete r s))) /\
  fst (handler.Update r m) = fst (handler.Update r s).
Proof.
  intros Hs. split; [|split; [|split]].
  - intros Hn. unfold handler.Create. destruct (req_body r) as [j|e]; [|done].
    cbn [Store.Create mockStore_Store PostgresStore_Store].
    destruct (sim_Create m s (set_ID fresh (decode_into j zero_subscription)) Hs Hn) as (H1 & H2 & H3).
    destruct (mockStore.Create _ m) as [rm m'], (PostgresStore.Create _ s) as [rp s'].
    simpl in *. by subst.
  - unfold handler.Get. destruct (Parse (req_path_id r)) as [id|e]; [|done].
    cbn [Store.Get mockStore_Store PostgresStore_Store].
    destruct (sim_Get m s id Hs) as (H1 & _).
    destruct (mockStore.Get id m) as [gm m'], (PostgresStore.Get id s) as [gp s'].
    simpl in *. destruct gm as [x|[]], gp as [y|[]]; done.
  - unfold handler.Delete. destruct (Parse (req_path_id r)) as [id|e]; [|done].
    cbn [Store.Delete mockStore_Store PostgresStore_Store].
    destruct (sim_Delete m s id Hs) as (H1 & H2 & H3).
    destruct (mockStore.Delete id m) as [rm m'], (PostgresStore.Delete id s) as [rp s'].
    simpl in *. by subst.
  - destruct Hs as (Hd & Hwf & _). unfold handler.Update.
    destruct (Parse (req_path_id r)) as [id|e]; [|done]. destruct (req_body r) as [j|e]; [|done].
    cbn [Store.Update mockStore_Store PostgresStore_Store]. by rewrite Update_spec by (exact Hd || exact Hwf).
Qed.

(** ** Witnesses *)

(** Both stores start related: [newMockStore()] and an empty table. *)
Lemma sim_init : sim newMockStore empty_pg.
Proof. split; [done|split; [constructor|]]. intros id. unfold newMockStore. simpl. by rewrite lookup_empty. Qed.

Definition sample_mock : mock := mkMock {[7 := sample_sub]}.

Lemma sim_sample : sim sample_mock sample_pg.
Proof.
  split; [done|split; [repeat constructor; set_solver|]]. intros id.
  unfold sample_mock, pg_lookup, has_id. simpl. rewrite filter_cons, filter_nil.
  destruct (decide (id = 7)) as [->|Hne].
  - rewrite lookup_singleton_eq. case_decide as Hc; [done|]. destruct Hc. exact I.
  - rewrite lookup_singleton_ne by done. case_decide as Hc; [|done].
    apply bool_decide_unpack in Hc. simpl in Hc. congruence.
Qed.

Lemma mock_simulates_postgres_witness :
  sim newMockStore empty_pg /\
  (forall id, same_get (fst (mockStore.Get id newMockStore)) (fst (PostgresStore.Get id empty_pg)) /\
     snd (mockStore.Get id newMockStore) = newMockStore /\ snd (PostgresStore.Get id empty_pg) = empty_pg).
Proof. split; [exact sim_init | apply (mock_simulates_postgres _ _ sim_init)]. Defined.

Lemma mock_diverges_witness :
  sim sample_mock sample_pg /\ items sample_mock !! ID sample_sub = Some sample_sub /\
  fst (mockStore.Create sample_sub sample_mock) = Ok tt /\
  fst (PostgresStore.Create sample_sub sample_pg) = Err err_dup.
Proof.
  split; [exact sim_sample|]. split; [reflexivity|].
  apply (proj1 (mock_diverges _ _ sample_sub sample_sub sim_sample)). reflexivity.
Defined.

Lemma handlers_agree_witness :
  sim newMockStore empty_pg /\
  status (fst (handler.Get (sample_request []) newMockStore))
  = status (fst (handler.Get (sample_request []) empty_pg)).
Proof.
  split; [exact sim_init|].
  apply (handlers_agree _ _ sample_id (sample_request []) sim_init).
Defined.
