(* ===== verification/Router.v ===== *)
(** * Routing (src/cmd/server/main.go, github.com/go-chi/chi/v5)

    main.go builds a chi [Mux] with one middleware (a log line per
    request, which does not touch the response), mounts a sub-router on
    [/subscriptions] with the six handlers and serves [/swagger] from a
    file.  This file models chi's route search from its documentation
    and source (tree.go [findRoute], mux.go [routeHTTP], [Mount],
    [nextRoutePath]) at the granularity of path segments: a pattern and
    a path are compared segment by segment, static segments before
    parameters before the catch-all, backtracking when a branch finds no
    route, a parameter never taking an empty value at the end of the
    path, and a route that matches the path but not the method flags a
    405.  Every pattern of main.go has parameters spanning whole
    segments, for which chi's byte-level radix search gives the same
    result.  The path is [r.URL.Path] (escaped paths are not modelled);
    the file served at [/swagger] is outside the model. *)

From S2P Require Import Prelude GoStrconv Model Uuid Sql SqlText Store Handler.
From Stdlib Require Import Ascii String.

(** ** Paths and patterns *)

(** The segments of a path after its leading ['/']; [None] for a path
    without one, which no pattern matches. *)
Fixpoint split_on_slash (cs cur : list ascii) : list string :=
  match cs with
  | [] => [string_of_list_ascii (rev cur)]
  | c :: cs' =>
      if Ascii.eqb c "/"%char then string_of_list_ascii (rev cur) :: split_on_slash cs' []
      else split_on_slash cs' (c :: cur)
  end.

Definition path_segments (p : string) : option (list string) :=
  match list_ascii_of_string p with
  | c :: cs => if Ascii.eqb c "/"%char then Some (split_on_slash cs []) else None
  | [] => None
  end.

Inductive seg := SegStatic (s : string) | SegParam (name : string) | SegCatchAll.

Record route (T : Type) := mkRoute { rt_pattern : list seg; rt_methods : list string; rt_target : T }.
Arguments mkRoute {T}.
Arguments rt_pattern {T}.
Arguments rt_methods {T}.
Arguments rt_target {T}.

(** [routeParams.Keys] of an endpoint: its parameters, and ["*"] for
    the catch-all. *)
Definition pattern_keys (p : list seg) : list string :=
  omap (fun s => match s with SegParam n => Some n | SegCatchAll => Some "*" | SegStatic _ => None end) p.

(** The result of [FindRoute]: the endpoint with the parameter values
    collected on the way, or no route, with chi's [methodNotAllowed]
    flag. *)
Inductive find_result (T : Type) := Found (r : route T) (vals : list string) | NoMatch (mna : bool).
Arguments Found {T}.
Arguments NoMatch {T}.

Section Search.
Context {T : Type}.

(** The routes still in the search, each with the rest of its pattern. *)
Definition cand := (list seg * route T)%type.

(** The endpoints of the node the path has reached: the handler of the
    method, or the flag when the node has endpoints for other methods. *)
Definition leaf (m : string) (rs : list cand) : option (route T) * bool :=
  let here := List.filter (fun c : cand => match c.1 with [] => true | _ => false end) rs in
  match List.find (fun c : cand => existsb (String.eqb m) (rt_methods c.2)) here with
  | Some c => (Some c.2, false)
  | None => (None, match here with [] => false | _ => true end)
  end.

Definition step_static (s : string) (rs : list cand) : list cand :=
  omap (fun c : cand => match c.1 with
                        | SegStatic s' :: p => if String.eqb s s' then Some (p, c.2) else None
                        | _ => None
                        end) rs.

Definition step_param (rs : list cand) : list cand :=
  omap (fun c : cand => match c.1 with SegParam _ :: p => Some (p, c.2) | _ => None end) rs.

Definition step_catchall (rs : list cand) : list cand :=
  omap (fun c : cand => match c.1 with [SegCatchAll] => Some ([], c.2) | _ => None end) rs.

(** chi skips a parameter node when nothing is left of the path
    ([findRoute]: "short-circuit and return no matching route for empty
    param values"); an empty segment followed by more path is a value. *)
Definition param_skipped (s : string) (rest : list string) : bool :=
  String.eqb s "" && match rest with [] => true | _ :: _ => false end.

(** [node.findRoute]: static children first, then parameters, then the
    catch-all, which takes the rest of the path. *)
Fixpoint search (m : string) (rs : list cand) (segs : list string) (vals : list string)
    : find_result T :=
  match segs with
  | [] => match leaf m rs with (Some r, _) => Found r vals | (None, f) => NoMatch f end
  | s :: rest =>
      match search m (step_static s rs) rest vals with
      | NoMatch f1 =>
          match (if param_skipped s rest then NoMatch false
                 else search m (step_param rs) rest (vals ++ [s])%list) with
          | NoMatch f2 =>
              match leaf m (step_catchall rs) with
              | (Some r, _) => Found r (vals ++ [String.concat "/" (s :: rest)])%list
              | (None, f3) => NoMatch (f1 || f2 || f3)
              end
          | found => found
          end
      | found => found
      end
  end.

Definition find_route (rs : list (route T)) (m : string) (path : string) : find_result T :=
  match path_segments path with
  | Some segs => search m (map (fun r => (rt_pattern r, r)) rs) segs []
  | None => NoMatch false
  end.

End Search.

(** [Context.URLParam]: the value of the last key equal to [k], or
    [""]. *)
Fixpoint url_param_last (keys vals : list string) (k : string) : option string :=
  match keys, vals with
  | k' :: keys', v :: vals' =>
      match url_param_last keys' vals' k with
      | Some x => Some x
      | None => if String.eqb k k' then Some v else None
      end
  | _, _ => None
  end.

Definition URLParam (keys vals : list string) (k : string) : string :=
  default "" (url_param_last keys vals k).

(** ** The routes of main.go *)

(** chi's [methodMap]: the methods a [Mux] knows; [mALL] is all of them. *)
Definition methodMap : list string :=
  ["CONNECT"; "DELETE"; "GET"; "HEAD"; "OPTIONS"; "PATCH"; "POST"; "PUT"; "TRACE"].

Definition mALL : list string := methodMap.

Inductive top_target := TMount | TSwagger.

Inductive sub_target := HCreate | HList | HGet | HUpdate | HDelete | HSummary.

(** main.go lines 54-65.  [r.Route("/subscriptions", fn)] mounts the
    sub-router, which [Mount] registers for every method under
    ["/subscriptions"], ["/subscriptions/"] and ["/subscriptions/*"]. *)
Definition top_routes : list (route top_target) :=
  [mkRoute [SegStatic "subscriptions"] mALL TMount;
   mkRoute [SegStatic "subscriptions"; SegStatic ""] mALL TMount;
   mkRoute [SegStatic "subscriptions"; SegCatchAll] mALL TMount;
   mkRoute [SegStatic "swagger"] ["GET"] TSwagger].

(** main.go lines 55-60: the routes of the sub-router, relative to the
    mount point. *)
Definition sub_routes : list (route sub_target) :=
  [mkRoute [SegStatic ""] ["POST"] HCreate;
   mkRoute [SegStatic ""] ["GET"] HList;
   mkRoute [SegParam "id"] ["GET"] HGet;
   mkRoute [SegParam "id"] ["PUT"] HUpdate;
   mkRoute [SegParam "id"] ["DELETE"] HDelete;
   mkRoute [SegStatic "summary"] ["GET"] HSummary].

(** Where a request goes: a handler of the sub-router with the route
    parameters of both routers ([routeParams], keys and values), the
    file of [/swagger], or chi's 404 and 405. *)
Inductive dispatch :=
  | DHandler (h : sub_target) (keys vals : list string)
  | DSwagger
  | DNotFound
  | DMethodNotAllowed.

(** [Mux.routeHTTP] of a router: an unknown method is a 405; otherwise
    the route, or 405 when some route matched the path only. *)
Definition mux_route {T} (rs : list (route T)) (method path : string) : find_result T :=
  if existsb (String.eqb method) methodMap then find_route rs method path else NoMatch true.

(** [Mount]'s handler: the sub-router sees ["/" + *] when the mount
    route ended in the catch-all, and ["/"] otherwise ([nextRoutePath]). *)
Definition nextRoutePath (keys vals : list string) : string :=
  match last keys, last vals with
  | Some k, Some v => if String.eqb k "*" then "/" +:+ v else "/"
  | _, _ => "/"
  end.

(** [Mount]'s handler then blanks the value of the catch-all in
    [URLParams], so that it does not leak into the sub-router. *)
Definition reset_wildcard (keys vals : list string) : list string :=
  match last keys with
  | Some k =>
      if String.eqb k "*" then
        match vals with [] => [] | _ => (removelast vals ++ [""])%list end
      else vals
  | None => vals
  end.

Definition route_http (method path : string) : dispatch :=
  match mux_route top_routes method path with
  | Found r vals =>
      match rt_target r with
      | TSwagger => DSwagger
      | TMount =>
          let keys := pattern_keys (rt_pattern r) in
          match mux_route sub_routes method (nextRoutePath keys vals) with
          | Found r' vals' =>
              DHandler (rt_target r') (keys ++ pattern_keys (rt_pattern r'))
                (reset_wildcard keys vals ++ vals')
          | NoMatch true => DMethodNotAllowed
          | NoMatch false => DNotFound
          end
      end
  | NoMatch true => DMethodNotAllowed
  | NoMatch false => DNotFound
  end.

(** What the server writes: a handler's or chi's response, or the
    file [http.ServeFile] sends. *)
Inductive outcome := Handled (r : response) | ServedFile (path : string).

(** [http.NotFound] and chi's [methodNotAllowedHandler], which writes
    the status and no body. *)
Definition not_found : response := http_Error "404 page not found" StatusNotFound.
Definition method_not_allowed : response := mkResponse 405 BEmpty.

Section Serve.
Context {S : Type} `{!Store S}.

(** The handler a route names, as main.go binds it ([h.Create], ...). *)
Definition run_handler (h : sub_target) (fresh : uuid) (req : request) (st : S) : response * S :=
  match h with
  | HCreate => handler.Create fresh req st
  | HList => handler.List req st
  | HGet => handler.Get req st
  | HUpdate => handler.Update req st
  | HDelete => handler.Delete req st
  | HSummary => handler.Summary req st
  end.

(** The server of main.go on one request: route, then run the handler
    with [chi.URLParam(r, "id")] as its path id. *)
Definition ServeHTTP (fresh : uuid) (method path : string) (q : list (string * string))
    (b : res sub_json) (st : S) : outcome * S :=
  match route_http method path with
  | DHandler h keys vals =>
      let '(resp, st') := run_handler h fresh (mkRequest (URLParam keys vals "id") q b) st in
      (Handled resp, st')
  | DSwagger => (ServedFile "./openapi.yaml", st)
  | DNotFound => (Handled not_found, st)
  | DMethodNotAllowed => (Handled method_not_allowed, st)
  end.

End Serve.

(** A path segment: a text without ['/']. *)
Definition no_slash (x : string) : bool :=
  forallb (fun c => negb (Ascii.eqb c "/"%char)) (list_ascii_of_string x).

(** The statuses the spec's interface table (section 6) lists for each
    route, success first. *)
Definition spec_statuses (h : sub_target) : list Z :=
  match h with
  | HCreate => [201; 400; 500]
  | HList => [200; 500]
  | HGet => [200; 400; 404]
  | HUpdate => [200; 400; 500]
  | HDelete => [204; 400; 500]
  | HSummary => [200; 400; 500]
  end.

(** ** Routing lemmas *)

Lemma split_on_slash_no_slash (cs cur : list ascii) :
  forallb (fun c => negb (Ascii.eqb c "/"%char)) cs = true ->
  split_on_slash cs cur = [string_of_list_ascii (rev cur ++ cs)].
Proof.
  revert cur. induction cs as [|c cs IH]; intros cur H; simpl in *.
  - by rewrite app_nil_r.
  - apply andb_prop in H as [Hc H]. destruct (Ascii.eqb c "/"%char); [done|].
    rewrite IH by done. simpl. by rewrite <- app_assoc.
Qed.

Lemma path_segments_slash (x : string) :
  no_slash x = true -> path_segments ("/" +:+ x) = Some [x].
Proof.
  intros H. unfold path_segments. simpl. rewrite split_on_slash_no_slash by done.
  simpl. by rewrite string_of_list_ascii_of_string.
Qed.

Lemma path_segments_item (x : string) :
  no_slash x = true -> path_segments ("/subscriptions/" +:+ x) = Some ["subscriptions"; x].
Proof.
  intros H. unfold path_segments. rewrite list_ascii_of_string_append. simpl.
  rewrite split_on_slash_no_slash by done. simpl. by rewrite string_of_list_ascii_of_string.
Qed.

Lemma route_item (m x : string) :
  no_slash x = true -> x <> "" ->
  route_http m ("/subscriptions/" +:+ x) =
  match mux_route sub_routes m ("/" +:+ x) with
  | Found r' vals' => DHandler (rt_target r') (["*"] ++ pattern_keys (rt_pattern r')) ([""] ++ vals')
  | NoMatch true => DMethodNotAllowed
  | NoMatch false => DNotFound
  end.
Proof.
  intros Hs Hx. unfold route_http, mux_route at 1.
  destruct (existsb (String.eqb m) methodMap) eqn:Hm.
  2:{ unfold mux_route. by rewrite Hm. }
  unfold find_route. rewrite path_segments_item by done.
  apply String.eqb_neq in Hx.
  simpl. unfold param_skipped. rewrite Hx. simpl.
  unfold leaf, mALL. cbn -[methodMap existsb]. rewrite Hm. reflexivity.
Qed.

(** C23. chi sends [/subscriptions/x], for [x] one non-empty
    segment, to the item handlers: [GET] to [Get] (unless [x] is
    [summary], a static route that has precedence), [PUT] to [Update]
    and [DELETE] to [Delete] (also for [summary]), with [x] as the [id]
    parameter; every other method is answered 405. *)
Theorem route_item_methods (x : string) :
  no_slash x = true -> x <> "" ->
  (x <> "summary" -> route_http "GET" ("/subscriptions/" +:+ x) = DHandler HGet ["*"; "id"] [""; x]) /\
  route_http "PUT" ("/subscriptions/" +:+ x) = DHandler HUpdate ["*"; "id"] [""; x] /\
  route_http "DELETE" ("/subscriptions/" +:+ x) = DHandler HDelete ["*"; "id"] [""; x] /\
  (forall m, m <> "GET" -> m <> "PUT" -> m <> "DELETE" ->
     route_http m ("/subscriptions/" +:+ x) = DMethodNotAllowed).
Proof.
  intros Hs Hx. apply String.eqb_neq in Hx.
  split; [|split; [|split]]; [intros Hsum | | | intros m H1 H2 H3];
    rewrite route_item by (done || by apply String.eqb_neq);
    unfold mux_route, find_route; rewrite path_segments_slash by done.
  - apply String.eqb_neq in Hsum. simpl. unfold param_skipped. by rewrite Hx, Hsum.
  - simpl. unfold param_skipped. rewrite Hx. by destruct (x =? "summary")%string.
  - simpl. unfold param_skipped. rewrite Hx. by destruct (x =? "summary")%string.
  - apply String.eqb_neq in H1, H2, H3.
    destruct (existsb (String.eqb m) methodMap); [|done]. simpl. unfold param_skipped. rewrite Hx.
    unfold leaf. simpl. rewrite H1, H2, H3.
    destruct (String.eqb m "POST"), (x =? "summary")%string; simpl; try rewrite H1; done.
Qed.

(** The item route of a non-empty segment other than [summary]. *)
Lemma route_item_handler (x m : string) (h : sub_target) :
  no_slash x = true -> x <> "" -> x <> "summary" ->
  (m, h) ∈ [("GET", HGet); ("PUT", HUpdate); ("DELETE", HDelete)] ->
  route_http m ("/subscriptions/" +:+ x) = DHandler h ["*"; "id"] [""; x].
Proof.
  intros Hs Hx Hsum Hm. rewrite route_item by done.
  unfold mux_route, find_route. rewrite path_segments_slash by done.
  apply String.eqb_neq in Hx, Hsum.
  repeat (rewrite elem_of_cons in Hm || rewrite elem_of_nil in Hm);
    destruct Hm as [[= -> ->] | [[= -> ->] | [[= -> ->] | []]]]; simpl; unfold param_skipped; by rewrite Hx, Hsum.
Qed.

(** ** The server on requests *)

Lemma ServeHTTP_handler {S} `{!Store S} (fresh : uuid) (m p : string) q b (st : S) h keys vals :
  route_http m p = DHandler h keys vals ->
  ServeHTTP fresh m p q b st =
  (Handled (fst (run_handler h fresh (mkRequest (URLParam keys vals "id") q b) st)),
   snd (run_handler h fresh (mkRequest (URLParam keys vals "id") q b) st)).
Proof. intros E. unfold ServeHTTP. rewrite E. by destruct (run_handler _ _ _ _). Qed.

Section AnyStore.
Context {S : Type} `{!Store S}.

(** C25. [/subscriptions/summary] is the static route for [GET] only:
    [GET] runs [Summary], while [PUT] and [DELETE] fall through to the
    [{id}] routes with the id ["summary"], which [uuid.Parse] rejects,
    so they answer 400 and leave the store as it was. *)
Theorem ServeHTTP_summary_path (fresh : uuid) (q : list (string * string)) (b : res sub_json) (st : S) :
  ServeHTTP fresh "GET" "/subscriptions/summary" q b st =
    (Handled (fst (handler.Summary (mkRequest "" q b) st)), snd (handler.Summary (mkRequest "" q b) st)) /\
  ServeHTTP fresh "PUT" "/subscriptions/summary" q b st = (Handled (http_Error "invalid id" StatusBadRequest), st) /\
  ServeHTTP fresh "DELETE" "/subscriptions/summary" q b st = (Handled (http_Error "invalid id" StatusBadRequest), st).
Proof.
  assert (Hg : route_http "GET" "/subscriptions/summary" = DHandler HSummary ["*"] [""])
    by (vm_compute; reflexivity).
  assert (Hp : route_http "PUT" "/subscriptions/summary" = DHandler HUpdate ["*"; "id"] [""; "summary"])
    by (vm_compute; reflexivity).
  assert (Hd : route_http "DELETE" "/subscriptions/summary" = DHandler HDelete ["*"; "id"] [""; "summary"])
    by (vm_compute; reflexivity).
  assert (Hs : Parse "summary" = Err (ErrText "invalid UUID length: 7")) by (vm_compute; reflexivity).
  rewrite (ServeHTTP_handler _ _ _ _ _ _ _ _ _ Hg), (ServeHTTP_handler _ _ _ _ _ _ _ _ _ Hp),
    (ServeHTTP_handler _ _ _ _ _ _ _ _ _ Hd).
  assert (H1 : URLParam ["*"] [""] "id" = "") by reflexivity.
  assert (H2 : URLParam ["*"; "id"] [""; "summary"] "id" = "summary") by reflexivity.
  cbn [run_handler]. unfold handler.Update, handler.Delete. cbn [req_path_id].
  by rewrite H1, H2, Hs.
Qed.

(** C26. [/subscriptions] and [/subscriptions/] are the collection:
    [GET] runs [List] and [POST] runs [Create]; [PUT] and [DELETE] there
    find no route, since chi gives the [{id}] parameter no empty value,
    and are answered 405 with the store untouched. *)
Theorem ServeHTTP_collection (fresh : uuid) (p : string) (q : list (string * string))
    (b : res sub_json) (st : S) :
  p = "/subscriptions" \/ p = "/subscriptions/" ->
  ServeHTTP fresh "PUT" p q b st = (Handled method_not_allowed, st) /\
  ServeHTTP fresh "DELETE" p q b st = (Handled method_not_allowed, st) /\
  ServeHTTP fresh "GET" p q b st =
    (Handled (fst (handler.List (mkRequest "" q b) st)), snd (handler.List (mkRequest "" q b) st)) /\
  ServeHTTP fresh "POST" p q b st =
    (Handled (fst (handler.Create fresh (mkRequest "" q b) st)),
     snd (handler.Create fresh (mkRequest "" q b) st)).
Proof.
  intros Hp.
  assert (Hr : forall m h, (m, h) ∈ [("GET", HList); ("POST", HCreate)] ->
            exists keys vals, route_http m p = DHandler h keys vals /\ URLParam keys vals "id" = "").
  { intros m h Hm. repeat (rewrite elem_of_cons in Hm || rewrite elem_of_nil in Hm).
    destruct Hp as [-> | ->]; destruct Hm as [[= -> ->] | [[= -> ->] | []]];
      eexists _, _; split; vm_compute; reflexivity. }
  assert (Hn : route_http "PUT" p = DMethodNotAllowed /\ route_http "DELETE" p = DMethodNotAllowed)
    by (destruct Hp as [-> | ->]; split; vm_compute; reflexivity).
  unfold ServeHTTP at 1 2. rewrite (proj1 Hn), (proj2 Hn). split; [done|]. split; [done|].
  destruct (Hr "GET" HList ltac:(repeat constructor)) as (k & v & E & U).
  destruct (Hr "POST" HCreate ltac:(repeat constructor)) as (k' & v' & E' & U').
  rewrite (ServeHTTP_handler _ _ _ _ _ _ _ _ _ E), (ServeHTTP_handler _ _ _ _ _ _ _ _ _ E'), U, U'.
  by split.
Qed.

Lemma run_handler_status (h : sub_target) (fresh : uuid) (req : request) (st : S) :
  status (fst (run_handler h fresh req st)) ∈ spec_statuses h.
Proof.
  destruct h; unfold run_handler, handler.Create, handler.Get, handler.Update, handler.Delete,
    handler.List, handler.Summary; repeat case_match; cbn; apply (bool_decide_unpack _); by compute.
Qed.

(** C35. Every response of the server has a status the spec's interface
    table allows for the route that answers it; a path or method no
    route takes is answered 404 or 405, and [/swagger/doc] serves the
    OpenAPI file. *)
Theorem ServeHTTP_status (fresh : uuid) (m path : string) q b (st : S) :
  match fst (ServeHTTP fresh m path q b st) with
  | Handled r =>
      match route_http m path with
      | DHandler h _ _ => status r ∈ spec_statuses h
      | _ => status r = StatusNotFound \/ status r = 405
      end
  | ServedFile f => route_http m path = DSwagger /\ f = "./openapi.yaml"
  end.
Proof.
  unfold ServeHTTP. destruct (route_http m path) as [h keys vals| | |]; cbn; auto.
  pose proof (run_handler_status h fresh (mkRequest (URLParam keys vals "id") q b) st) as Hs.
  by destruct (run_handler _ _ _ _).
Qed.

End AnyStore.

(** C24. The example of the spec (section 8) over HTTP on the Postgres
    store: [POST /subscriptions] answers 201 with the record and its
    fresh id; [GET] of the path built from that id answers 200 with the
    stored record; [DELETE] answers 204; a second [GET] answers 404. *)
Theorem ServeHTTP_lifecycle (fresh : uuid) (j : sub_json) (s : pg) :
  db_down (pg_db s) = None -> fresh ∉ map ID (db_rows (pg_db s)) -> uuid_wf fresh = true ->
  let sub := set_ID fresh (decode_into j zero_subscription) in
  let p := "/subscriptions/" +:+ UUID.String fresh in
  let nob : res sub_json := Err (ErrJSON "EOF") in
  let '(o1, s1) := ServeHTTP fresh "POST" "/subscriptions" [] (Ok j) s in
  let '(o2, s2) := ServeHTTP fresh "GET" p [] nob s1 in
  let '(o3, s3) := ServeHTTP fresh "DELETE" p [] nob s2 in
  let '(o4, _) := ServeHTTP fresh "GET" p [] nob s3 in
  o1 = Handled (mkResponse StatusCreated (BJson (encode_subscription sub))) /\
  o2 = Handled (mkResponse StatusOK (BJson (encode_subscription (stored sub (pg_now s))))) /\
  o3 = Handled (mkResponse StatusNoContent BEmpty) /\
  o4 = Handled (http_Error (Error ErrNoRows) StatusNotFound).
Proof.
  intros Hd Hn Hwf sub p nob.
  destruct (String_not_short fresh) as [Hne Hsum].
  assert (Hr : forall m h, (m, h) ∈ [("GET", HGet); ("PUT", HUpdate); ("DELETE", HDelete)] ->
            route_http m p = DHandler h ["*"; "id"] [""; UUID.String fresh])
    by (intros m h Hm; by apply route_item_handler; [apply String_no_slash | ..]).
  rewrite (ServeHTTP_handler _ _ _ _ _ _ HCreate [] []) by reflexivity.
  cbn [run_handler fst snd]. unfold handler.Create. cbn [req_body]. fold sub.
  cbn [Store.Create PostgresStore_Store]. rewrite Create_spec by done.
  rewrite bool_decide_false by (unfold sub; by destruct j).
  cbn [fst snd].
  assert (Hu : URLParam ["*"; "id"] [""; UUID.String fresh] "id" = UUID.String fresh) by reflexivity.
  assert (Hid : ID sub = fresh) by (unfold sub; by destruct j).
  rewrite (ServeHTTP_handler _ _ _ _ _ _ _ _ _ (Hr "GET" HGet ltac:(repeat constructor))).
  cbn [run_handler]. unfold handler.Get. cbn [req_path_id]. rewrite Hu, Parse_String by done.
  cbn [Store.Get PostgresStore_Store]. rewrite Get_spec by done. cbn [pg_db set_db db_rows].
  rewrite filter_app, filter_has_id_absent by done. rewrite filter_cons_True
    by (unfold has_id, stored; cbn [ID]; rewrite Hid; by rewrite bool_decide_true). cbn [fst snd app].
  rewrite (ServeHTTP_handler _ _ _ _ _ _ _ _ _ (Hr "DELETE" HDelete ltac:(repeat constructor))).
  cbn [run_handler]. unfold handler.Delete. cbn [req_path_id]. rewrite Hu, Parse_String by done.
  cbn [Store.Delete PostgresStore_Store]. rewrite Delete_spec by done. cbn [fst snd].
  rewrite (ServeHTTP_handler _ _ _ _ _ _ _ _ _ (Hr "GET" HGet ltac:(repeat constructor))).
  cbn [run_handler]. unfold handler.Get. cbn [req_path_id]. rewrite Hu, Parse_String by done.
  cbn [Store.Get PostgresStore_Store]. rewrite Get_spec by done. cbn [pg_db set_db db_rows].
  rewrite list_filter_filter, filter_all_false; [done|].
  intros r _ [H1 H2]. unfold has_id in *. by destruct (bool_decide _).
Qed.

(** ** Witnesses *)

Lemma ServeHTTP_lifecycle_witness :
  db_down (pg_db empty_pg) = None /\ (sample_id ∉ map ID (db_rows (pg_db empty_pg))) /\
  uuid_wf sample_id = true /\
  (let sub := set_ID sample_id (decode_into sample_json zero_subscription) in
   let p := "/subscriptions/" +:+ UUID.String sample_id in
   let nob : res sub_json := Err (ErrJSON "EOF") in
   let '(o1, s1) := ServeHTTP sample_id "POST" "/subscriptions" [] (Ok sample_json) empty_pg in
   let '(o2, s2) := ServeHTTP sample_id "GET" p [] nob s1 in
   let '(o3, s3) := ServeHTTP sample_id "DELETE" p [] nob s2 in
   let '(o4, _) := ServeHTTP sample_id "GET" p [] nob s3 in
   o1 = Handled (mkResponse StatusCreated (BJson (encode_subscription sub))) /\
   o2 = Handled (mkResponse StatusOK (BJson (encode_subscription (stored sub (pg_now empty_pg))))) /\
   o3 = Handled (mkResponse StatusNoContent BEmpty) /\
   o4 = Handled (http_Error (Error ErrNoRows) StatusNotFound)).
Proof.
  split; [reflexivity|]. split; [simpl; apply not_elem_of_nil|]. split; [reflexivity|].
  apply ServeHTTP_lifecycle; [reflexivity | simpl; apply not_elem_of_nil | reflexivity].
Defined.

Lemma route_item_methods_witness :
  no_slash "abc" = true /\ "abc" <> "" /\
  ((("abc" <> "summary") -> route_http "GET" ("/subscriptions/" +:+ "abc") = DHandler HGet ["*"; "id"] [""; "abc"]) /\
   route_http "PUT" ("/subscriptions/" +:+ "abc") = DHandler HUpdate ["*"; "id"] [""; "abc"] /\
   route_http "DELETE" ("/subscriptions/" +:+ "abc") = DHandler HDelete ["*"; "id"] [""; "abc"] /\
   (forall m, m <> "GET" -> m <> "PUT" -> m <> "DELETE" ->
      route_http m ("/subscriptions/" +:+ "abc") = DMethodNotAllowed)).
Proof.
  split; [reflexivity|]. split; [discriminate|].
  apply route_item_methods; [reflexivity | discriminate].
Defined.

Lemma ServeHTTP_collection_witness :
  ("/subscriptions/" = "/subscriptions" \/ "/subscriptions/" = "/subscriptions/") /\
  ServeHTTP sample_id "PUT" "/subscriptions/" [] (Ok sample_json) empty_pg
  = (Handled method_not_allowed, empty_pg).
Proof.
  split; [right; reflexivity|].
  apply (proj1 (ServeHTTP_collection sample_id "/subscriptions/" [] (Ok sample_json) empty_pg ltac:(right; reflexivity))).
Defined.
