(* ===== verification/Process.v ===== *)
(** * The process (src/cmd/server/main.go lines 21-86)

    [main] loads the configuration, opens the pool ([sql.Open]), checks
    the connection ([db.Ping]), builds the store, the handlers and the
    router, starts [srv.ListenAndServe] in a goroutine, waits for
    [os.Interrupt], and shuts the server down with a 5 second grace
    period.  Every failure is a [log.Fatalf], which exits with status 1
    at once: deferred calls ([db.Close], [cancel]) do not run.

    The process is a step relation [step] on [proc]: the main
    goroutine's phase, the listener goroutine's state, the log, whether
    the pool was closed, the store, the requests in flight and the
    responses written.  What the outside world decides is a [world]:
    the configuration, the outcome of [sql.Open], the database's answer
    to a connection, the outcome of [ListenAndServe] and the error of
    closing the listener in [Shutdown].  The goroutines interleave
    freely.  The server accepts requests (the middleware logs each one)
    until [Shutdown] closes the listener, also between the signal and
    the call of [Shutdown].  A request in flight first runs its handler,
    whose one store call the database runs atomically, and later writes
    the response it computed; the handlers of different requests
    interleave at these two points.  [uuid.New()] is drawn with the
    request.  [Shutdown] waits for the requests in flight and returns
    once they drained; the expiry of its 5 second context, which the
    model does not time, may come at any moment while requests are in
    flight.  The listener may fail until the process exits; a listener
    goroutine that reaches [ListenAndServe] after [Shutdown] began gets
    [ErrServerClosed].

    Theorems: [shutdown_exits] (C32, liveness of the graceful shutdown
    once [Shutdown] is called), [reachable_proc_inv] (C33, the invariant
    of every run, including that every logged request is answered or in
    flight), [bad_dsn_never_serves] (C34, a connection string lib/pq
    rejects stops the process at the ping) and [main_halts_iff] (C36,
    which runs are finite).  Between the signal and the call of
    [Shutdown] the server may accept without bound in this model, which
    does not assume the main goroutine is scheduled, so the liveness
    theorem starts at the call.  Finiteness is the inductive [halts]
    (every run is finite), proved with a rank that each step lowers
    ([halts_by_rank]). *)

From S2P Require Import Prelude GoStrconv Config Model Uuid Sql SqlText Store Handler Router.
From Stdlib Require Import String.
From stdpp Require Import relations.

(** ** The outside world *)

Record world := mkWorld {
  w_cfg : Config;                                  (** [config.Load()] *)
  w_open : option string;                          (** error of [sql.Open] *)
  w_server : list (string * string) -> option string;  (** the server's answer to a connection *)
  w_listen : option string;                        (** error of [ListenAndServe], not [ErrServerClosed] *)
  w_shutdown : option string                       (** error of closing the listener in [srv.Shutdown] *)
}.

(** Why [db.Ping()] fails: lib/pq cannot read the connection string,
    or the server refuses the connection. *)
Inductive ping_error := PingParse (e : pq_error) | PingServer (msg : string).

(** [db.Ping()]: the first connection reads [dsn] (line 27) with
    [parseOpts], then connects with the settings it read. *)
Definition Ping (w : world) : option ping_error :=
  match parseOpts (dsn (w_cfg w)) with
  | inr e => Some (PingParse e)
  | inl opts => option_map PingServer (w_server w opts)
  end.

(** ** States *)

(** The call sites of [log.Fatalf]. *)
Inductive fatal :=
  | FatalOpen (e : string)         (** line 33, [failed to connect to db: %v] *)
  | FatalPing (e : ping_error)     (** line 39, [db ping failed: %v] *)
  | FatalListen (e : string)       (** line 71, [listen: %s] *)
  | FatalShutdown (e : string).    (** line 83, [server forced to shutdown: %v] *)

Inductive log_entry :=
  | LRequest (method path : string)  (** the middleware, line 49 *)
  | LStarting                         (** line 69 *)
  | LShuttingDown                     (** line 78 *)
  | LExiting                          (** line 85 *)
  | LFatal (f : fatal).

(** Where [main] is: before [sql.Open], after it, serving (waiting on
    [quit], line 77), signalled (lines 78-81, the server still accepts),
    draining ([srv.Shutdown] called, line 82: the listener is closed
    and [Shutdown] waits for the requests in flight), exited. *)
Inductive phase := PStart | POpened | PServing | PSignalled | PDraining | PExited (code : Z).

(** The goroutine of lines 68-73: not started, started, in
    [ListenAndServe], or returned with [ErrServerClosed] because
    [Shutdown] came first. *)
Inductive gstate := GIdle | GStarted | GListening | GClosed.

(** A request the server accepted: [net/http] runs each one in a
    goroutine of its own; [uuid.New()] is drawn when [Create] runs. *)
Record req := mkReq {
  rq_fresh : uuid; rq_method : string; rq_path : string;
  rq_query : list (string * string); rq_body : res sub_json
}.

(** The router of lines 45-65 on one request. *)
Definition serve (r : req) (s : pg) : outcome * pg :=
  ServeHTTP (rq_fresh r) (rq_method r) (rq_path r) (rq_query r) (rq_body r) s.

(** The middleware's line for a request (line 49). *)
Definition req_line (r : req) : log_entry := LRequest (rq_method r) (rq_path r).

(** The process: [main]'s phase, the listener goroutine, the log,
    whether the pool was closed, the store, the requests in flight (with
    the response their handler computed, once its store call has run)
    and the responses written, in the order they were written. *)
Record proc := mkProc {
  ph : phase; gor : gstate; plog : list log_entry; db_closed : bool; store : pg;
  inflight : list (req * option outcome); sent : list (req * outcome)
}.

Definition init_proc (st : pg) : proc := mkProc PStart GIdle [] false st [] [].

(** [log.Fatalf] or the return of [main]: the process ends, whatever the
    other goroutines were doing. *)
Definition exit_with (p : proc) (code : Z) (e : log_entry) (closed : bool) : proc :=
  mkProc (PExited code) (gor p) (plog p ++ [e]) closed (store p) (inflight p) (sent p).

(** The server runs: from [ListenAndServe] until the process exits. *)
Definition live (p : proc) : Prop := ph p = PServing \/ ph p = PSignalled \/ ph p = PDraining.

(** The listener is open: until [Shutdown] closes it. *)
Definition accepting (p : proc) : Prop := ph p = PServing \/ ph p = PSignalled.

(** The text of [context.DeadlineExceeded]. *)
Definition deadline_exceeded : string := "context deadline exceeded".

(** ** Steps *)

Section Steps.
Variable w : world.

Inductive step : proc -> proc -> Prop :=
  (** lines 30-34 *)
  | s_open_fail p e : ph p = PStart -> w_open w = Some e ->
      step p (exit_with p 1 (LFatal (FatalOpen e)) (db_closed p))
  | s_open_ok p : ph p = PStart -> w_open w = None ->
      step p (mkProc POpened (gor p) (plog p) (db_closed p) (store p) (inflight p) (sent p))
  (** lines 38-40 *)
  | s_ping_fail p e : ph p = POpened -> Ping w = Some e ->
      step p (exit_with p 1 (LFatal (FatalPing e)) (db_closed p))
  (** lines 42-68: the store, the handler, the router, the goroutine *)
  | s_ping_ok p : ph p = POpened -> Ping w = None ->
      step p (mkProc PServing GStarted (plog p) (db_closed p) (store p) (inflight p) (sent p))
  (** lines 69-70, in the goroutine, before [Shutdown] *)
  | s_listen p : accepting p -> gor p = GStarted ->
      step p (mkProc (ph p) GListening (plog p ++ [LStarting]) (db_closed p) (store p) (inflight p) (sent p))
  (** lines 69-70 after [Shutdown] began: [ListenAndServe] returns
      [ErrServerClosed], which line 70 ignores *)
  | s_listen_closed p : ph p = PDraining -> gor p = GStarted ->
      step p (mkProc (ph p) GClosed (plog p ++ [LStarting]) (db_closed p) (store p) (inflight p) (sent p))
  (** lines 70-72: [ListenAndServe] fails with an error other than
      [ErrServerClosed], also after the signal *)
  | s_listen_fail p e : live p -> gor p = GListening -> w_listen w = Some e ->
      step p (exit_with p 1 (LFatal (FatalListen e)) (db_closed p))
  (** the server accepts a request and the middleware logs it (line 49),
      until [Shutdown] closes the listener *)
  | s_accept p r : accepting p -> gor p = GListening -> w_listen w = None ->
      step p (mkProc (ph p) GListening (plog p ++ [req_line r]) (db_closed p) (store p)
                (inflight p ++ [(r, None)]) (sent p))
  (** a request in flight runs its handler: the one store call, which
      the database runs atomically, and the response it computes *)
  | s_exec p t1 r t2 : live p -> inflight p = t1 ++ (r, None) :: t2 ->
      step p (mkProc (ph p) (gor p) (plog p) (db_closed p) (snd (serve r (store p)))
                (t1 ++ (r, Some (fst (serve r (store p)))) :: t2) (sent p))
  (** a handler that has run writes its response, in any order with
      the others, also while [Shutdown] waits for it *)
  | s_write p t1 r o t2 : live p -> inflight p = t1 ++ (r, Some o) :: t2 ->
      step p (mkProc (ph p) (gor p) (plog p) (db_closed p) (store p) (t1 ++ t2) (sent p ++ [(r, o)]))
  (** lines 75-78 *)
  | s_signal p : ph p = PServing ->
      step p (mkProc PSignalled (gor p) (plog p ++ [LShuttingDown]) (db_closed p) (store p)
                (inflight p) (sent p))
  (** lines 80-82: the context, then [srv.Shutdown(ctx)] closes the
      listener *)
  | s_shutdown p : ph p = PSignalled ->
      step p (mkProc PDraining (gor p) (plog p) (db_closed p) (store p) (inflight p) (sent p))
  (** lines 82-84: the 5 second context expires while requests are in
      flight *)
  | s_shutdown_timeout p : ph p = PDraining -> inflight p <> [] ->
      step p (exit_with p 1 (LFatal (FatalShutdown deadline_exceeded)) (db_closed p))
  (** lines 82-84: the requests have drained, and closing the listener
      failed *)
  | s_shutdown_fail p e : ph p = PDraining -> inflight p = [] -> w_shutdown w = Some e ->
      step p (exit_with p 1 (LFatal (FatalShutdown e)) (db_closed p))
  (** lines 85-86, then the deferred [cancel()] and [db.Close()] *)
  | s_shutdown_ok p : ph p = PDraining -> inflight p = [] -> w_shutdown w = None ->
      step p (exit_with p 0 LExiting true).

(** The states of a run from the start. *)
Inductive reachable (st : pg) : proc -> Prop :=
  | reach_start : reachable st (init_proc st)
  | reach_step p p' : reachable st p -> step p p' -> reachable st p'.

(** Every run from [p] is finite (a state with no step halts). *)
Inductive halts (p : proc) : Prop :=
  | halts_intro : (forall p', step p p' -> halts p') -> halts p.

End Steps.

(** ** Invariants and ranks *)

Abbreviation len := Datatypes.length.

(** What is left of a request in flight: its store call and its
    response, or its response only. *)
Definition weight (x : req * option outcome) : nat := match x.2 with None => 2 | Some _ => 1 end.

Definition work (p : proc) : nat := list_sum (map weight (inflight p)).

(** Once [Shutdown] has been called no request is accepted: the
    requests in flight complete one step at a time, and the listener
    goroutine may still log its start. *)
Definition down_rank (p : proc) : nat :=
  match ph p with
  | PExited _ => 0
  | _ => (match gor p with GStarted => 2 | _ => 1 end + work p)%nat
  end.

(** What can follow a state in which [Shutdown] has been called: a
    clean exit only with every request answered and [Shutdown]
    returning [nil]. *)
Definition after_shutdown (w : world) (p : proc) : Prop :=
  ph p = PDraining \/
  (ph p = PExited 0 /\ w_shutdown w = None /\ db_closed p = true /\ inflight p = []) \/
  (ph p = PExited 1 /\
   ((exists e, w_shutdown w = Some e) \/ (exists e, w_listen w = Some e) \/ inflight p <> [])).

(** [main]'s exit is logged last: [exiting] with status 0, a
    [log.Fatalf] line with status 1. *)
Definition exit_logged (p : proc) : Prop :=
  forall c, ph p = PExited c ->
    (c = 0%Z /\ last (plog p) = Some LExiting) \/ (c = 1%Z /\ exists f, last (plog p) = Some (LFatal f)).

Definition is_request (e : log_entry) : bool := match e with LRequest _ _ => true | _ => false end.

(** The middleware's lines in the log. *)
Definition request_lines (l : list log_entry) : list log_entry := List.filter is_request l.

(** The store keeps unique ids; the pool is closed exactly on a clean
    exit; the exit is logged; the listener goroutine is not started
    before [Ping] succeeded, and has logged [starting server] exactly
    when it has entered [ListenAndServe]; the logged requests are, up
    to order, the answered ones and those in flight; a clean exit
    leaves none in flight. *)
Definition proc_inv (p : proc) : Prop :=
  pg_wf (store p) /\
  (db_closed p = true <-> ph p = PExited 0) /\
  exit_logged p /\
  ((ph p = PStart \/ ph p = POpened) -> gor p = GIdle) /\
  (LStarting ∈ plog p <-> gor p = GListening \/ gor p = GClosed) /\
  request_lines (plog p) ≡ₚ map req_line (map fst (sent p) ++ map fst (inflight p)) /\
  (ph p = PExited 0 -> inflight p = []).

(** Before the server is built: the pool is not closed, and an exit is
    the [log.Fatalf] of [sql.Open] or of the ping with [e]. *)
Definition before_serving (e : pq_error) (p : proc) : Prop :=
  db_closed p = false /\
  (ph p = PStart \/ ph p = POpened \/
   (ph p = PExited 1 /\
    (last (plog p) = Some (LFatal (FatalPing (PingParse e))) \/
     exists m, last (plog p) = Some (LFatal (FatalOpen m))))).

Definition start_rank (p : proc) : nat :=
  match ph p with PStart => 2 | POpened => 1 | _ => 0 end.

Definition run_rank (p : proc) : nat :=
  let g := match gor p with GStarted => 1 | _ => 0 end in
  match ph p with
  | PStart => 8 + work p | POpened => 7 + work p
  | PServing => 5 + g + work p | PSignalled => 3 + g + work p | PDraining => 1 + g + work p
  | PExited _ => 0
  end.

(** A state from which no request can be accepted: the listener fails,
    or [main] has not passed [sql.Open] and [Ping] and one of them
    fails. *)
Definition no_requests (w : world) (p : proc) : Prop :=
  w_listen w <> None \/
  match ph p with
  | PStart => w_open w <> None \/ Ping w <> None
  | POpened => Ping w <> None
  | PServing | PSignalled | PDraining => False
  | PExited _ => True
  end.

(** ** Lemmas *)

(** Case analysis on a step, discarding the rules whose phase does not
    match. *)
Ltac inv_step H :=
  inversion H; subst; cbn [ph gor plog db_closed store inflight sent exit_with req_line] in *; try congruence.

Lemma exited_irred (w : world) (p p' : proc) (c : Z) : ph p = PExited c -> ~ step w p p'.
Proof. intros Hp Hs. inv_step Hs; unfold accepting, live in *; destruct_or?; congruence. Qed.

Lemma weights_split (t1 t2 : list (req * option outcome)) (x : req * option outcome) :
  list_sum (map weight (t1 ++ x :: t2)) = (list_sum (map weight t1) + weight x + list_sum (map weight t2))%nat.
Proof.
  rewrite map_app, list_sum_app. cbn [map].
  change (list_sum (weight x :: map weight t2)) with (weight x + list_sum (map weight t2))%nat. lia.
Qed.

Lemma weights_remove (t1 t2 : list (req * option outcome)) :
  list_sum (map weight (t1 ++ t2)) = (list_sum (map weight t1) + list_sum (map weight t2))%nat.
Proof. by rewrite map_app, list_sum_app. Qed.

(** A rank made of the goroutine's state and the work in flight goes
    down: rewrite the state, split the work, count. *)
Ltac rank_tac :=
  repeat match goal with H : gor _ = _ |- _ => rewrite H end;
  unfold work; cbn [inflight gor ph];
  repeat match goal with H : inflight _ = _ |- _ => rewrite H end;
  rewrite ?weights_split, ?weights_remove; cbn [weight snd]; try destruct (gor _); lia.

Lemma after_shutdown_step (w : world) (p p' : proc) :
  after_shutdown w p -> step w p p' -> after_shutdown w p' /\ (down_rank p' < down_rank p)%nat.
Proof.
  intros Hp Hs. unfold after_shutdown, down_rank in *.
  destruct Hp as [Hp | [(Hp & _) | (Hp & _)]]; inv_step Hs; unfold accepting, live in *; destruct_or?;
    try congruence; cbn [ph]; rewrite ?Hp; (split; [naive_solver|]); rank_tac.
Qed.

(** Every run from a set of states closed under steps is finite when
    each step lowers a rank. *)
Lemma halts_by_rank (w : world) (P : proc -> Prop) (r : proc -> nat) :
  (forall p p', P p -> step w p p' -> P p' /\ (r p' < r p)%nat) -> forall p, P p -> halts w p.
Proof.
  intros Hstep p. remember (r p) as n eqn:Hn. revert p Hn.
  induction n as [n IH] using lt_wf_ind. intros p -> Hp.
  constructor. intros p' Hs. destruct (Hstep p p' Hp Hs) as [Hp' Hlt].
  by apply (IH _ Hlt p').
Qed.

Lemma after_shutdown_halts (w : world) (p : proc) : after_shutdown w p -> halts w p.
Proof. apply (halts_by_rank w _ down_rank), after_shutdown_step. Qed.

Lemma after_shutdown_rtc (w : world) (p p' : proc) :
  after_shutdown w p -> rtc (step w) p p' -> after_shutdown w p'.
Proof. intros Hp Hr. induction Hr as [|x y z Hs _ IH]; [done|]. apply IH, (after_shutdown_step w x y Hp Hs). Qed.

(** [Shutdown] always returns, when the requests have drained or when
    its context expires, so a draining state can step. *)
Lemma draining_steps (w : world) (p : proc) : ph p = PDraining -> exists p', step w p p'.
Proof.
  intros Hp. destruct (inflight p) as [|x t] eqn:Ei.
  - destruct (w_shutdown w) as [e|] eqn:E; eexists; [by eapply s_shutdown_fail | by apply s_shutdown_ok].
  - eexists. apply s_shutdown_timeout; [done | by rewrite Ei].
Qed.

(** C32. Liveness of the graceful shutdown: once [main] has called
    [srv.Shutdown] (no request is accepted any more), every run is
    finite, and every run that cannot go on has exited: with status 0,
    the pool closed and no request left in flight only when the
    requests drained and [Shutdown] returned [nil]; otherwise with
    status 1, because closing the listener failed, the listener failed
    racing with the shutdown, or the grace period expired with requests
    in flight. *)
Theorem shutdown_exits (w : world) (p : proc) :
  ph p = PDraining ->
  halts w p /\
  forall p', rtc (step w) p p' -> (forall p'', ~ step w p' p'') ->
    (ph p' = PExited 0 /\ w_shutdown w = None /\ db_closed p' = true /\ inflight p' = []) \/
    (ph p' = PExited 1 /\
     ((exists e, w_shutdown w = Some e) \/ (exists e, w_listen w = Some e) \/ inflight p' <> [])).
Proof.
  intros Hp. assert (Ha : after_shutdown w p) by (by left). split; [by apply after_shutdown_halts|].
  intros p' Hr Hirr. destruct (after_shutdown_rtc w p p' Ha Hr) as [Hd | [H0 | H1]]; [|by left|by right].
  destruct (draining_steps w p' Hd) as [p'' Hs]. by destruct (Hirr p'').
Qed.

(** A request changes the store only through one method call of the
    Postgres store. *)
Lemma serve_store (r : req) (s : pg) :
  snd (serve r s) = s \/ exists op, snd (serve r s) = run_op op s.
Proof.
  unfold serve, ServeHTTP. destruct (route_http _ _) as [h keys vals| | |]; [|by left..].
  destruct h; unfold run_handler, handler.Create, handler.Get, handler.Update, handler.Delete,
    handler.List, handler.Summary; repeat case_match; simplify_eq/=; try by left.
  all: right; match goal with
    | H : PostgresStore.Create ?x _ = _ |- _ => exists (OpCreate x); exact (eq_sym (f_equal snd H))
    | H : PostgresStore.Get ?x _ = _ |- _ => exists (OpGet x); exact (eq_sym (f_equal snd H))
    | H : PostgresStore.Update ?x _ = _ |- _ => exists (OpUpdate x); exact (eq_sym (f_equal snd H))
    | H : PostgresStore.Delete ?x _ = _ |- _ => exists (OpDelete x); exact (eq_sym (f_equal snd H))
    | H : PostgresStore.List ?l ?o ?u ?n _ = _ |- _ => exists (OpList l o u n); exact (eq_sym (f_equal snd H))
    | H : PostgresStore.Summary ?f ?t ?u ?n _ = _ |- _ => exists (OpSummary f t u n); exact (eq_sym (f_equal snd H))
  end.
Qed.

Lemma step_store_wf (w : world) (p p' : proc) : step w p p' -> pg_wf (store p) -> pg_wf (store p').
Proof.
  intros Hs Hwf. inv_step Hs; try done.
  destruct (serve_store r (store p)) as [-> | [op ->]]; [done | by apply run_op_wf].
Qed.

Lemma LStarting_snoc (l : list log_entry) (e : log_entry) :
  e <> LStarting -> LStarting ∈ l ++ [e] <-> LStarting ∈ l.
Proof. intros He. rewrite elem_of_app, list_elem_of_singleton. split; [intros [?|?]; [done|congruence] | by left]. Qed.

Lemma LStarting_added (l : list log_entry) : LStarting ∈ l ++ [LStarting].
Proof. apply elem_of_app. right. by constructor. Qed.

Lemma step_closed (w : world) (p p' : proc) :
  step w p p' -> (db_closed p = true <-> ph p = PExited 0) -> (db_closed p' = true <-> ph p' = PExited 0).
Proof.
  intros Hs Hc. inv_step Hs; unfold accepting, live in *; destruct_or?; rewrite ?Hc;
    try match goal with H : ph p = _ |- _ => rewrite H end; split; congruence.
Qed.

Lemma step_exit_logged (w : world) (p p' : proc) : step w p p' -> exit_logged p'.
Proof.
  unfold exit_logged. intros Hs c Hc. inv_step Hs; unfold accepting, live in *; destruct_or?;
    try congruence; simplify_eq; rewrite last_snoc; first [by left | right; eauto].
Qed.

Lemma step_gor_idle (w : world) (p p' : proc) :
  step w p p' -> ((ph p = PStart \/ ph p = POpened) -> gor p = GIdle) ->
  (ph p' = PStart \/ ph p' = POpened) -> gor p' = GIdle.
Proof.
  intros Hs Hg Hp'. inv_step Hs; unfold accepting, live in *; destruct_or?; destruct_or?; try congruence; auto.
Qed.

Lemma step_started (w : world) (p p' : proc) :
  step w p p' -> ((ph p = PStart \/ ph p = POpened) -> gor p = GIdle) ->
  (LStarting ∈ plog p <-> gor p = GListening \/ gor p = GClosed) ->
  (LStarting ∈ plog p' <-> gor p' = GListening \/ gor p' = GClosed).
Proof.
  intros Hs Hg Hl. inv_step Hs; rewrite ?LStarting_snoc by done; try exact Hl.
  - rewrite Hl, Hg by auto. naive_solver.
  - split; [auto|]. intros _. apply LStarting_added.
  - split; [auto|]. intros _. apply LStarting_added.
  - rewrite Hl. naive_solver.
Qed.

Lemma step_drained (w : world) (p p' : proc) :
  step w p p' -> (ph p = PExited 0 -> inflight p = []) -> ph p' = PExited 0 -> inflight p' = [].
Proof. intros Hs Hd Hp'. inv_step Hs; unfold accepting, live in *; destruct_or?; congruence. Qed.

Lemma request_lines_snoc (l : list log_entry) (e : log_entry) :
  request_lines (l ++ [e]) = request_lines l ++ (if is_request e then [e] else []).
Proof. unfold request_lines. rewrite List.filter_app. cbn. by destruct (is_request e). Qed.

Lemma step_accounting (w : world) (p p' : proc) :
  step w p p' -> request_lines (plog p) ≡ₚ map req_line (map fst (sent p) ++ map fst (inflight p)) ->
  request_lines (plog p') ≡ₚ map req_line (map fst (sent p') ++ map fst (inflight p')).
Proof.
  intros Hs Hacc. inv_step Hs; rewrite ?request_lines_snoc; cbn [is_request]; rewrite ?app_nil_r; try done.
  - cbn [is_request req_line]. rewrite Hacc, (map_app fst (inflight p) [(r, None)]). cbn [map fst].
    rewrite app_assoc, (map_app req_line _ [r]). reflexivity.
  - rewrite Hacc. match goal with H : inflight _ = _ |- _ => rewrite H end. by rewrite !map_app.
  - rewrite Hacc. match goal with H : inflight _ = _ |- _ => rewrite H end.
    rewrite !map_app. cbn. solve_Permutation.
Qed.

Lemma step_inv (w : world) (p p' : proc) : step w p p' -> proc_inv p -> proc_inv p'.
Proof.
  intros Hs (Hwf & Hc & He & Hg & Hl & Hacc & Hd). split_and!.
  - by apply (step_store_wf w p).
  - by apply (step_closed w p).
  - by apply (step_exit_logged w p).
  - by apply (step_gor_idle w p).
  - by apply (step_started w p).
  - by apply (step_accounting w p).
  - by apply (step_drained w p).
Qed.

(** C33. Invariant of every run of [main] from a store with unique
    ids: the store keeps unique ids through the requests; [db.Close()]
    has run exactly when the process exited with status 0; an exit is
    logged last, [exiting] for status 0 and a [log.Fatalf] line for
    status 1 (no other status occurs); the listener is not started before
    the ping succeeded; [starting server] is in the log exactly when the
    listener goroutine has reached [ListenAndServe]; every request the
    middleware logged has been answered or is in flight, and after a
    clean exit every one of them has been answered. *)
Theorem reachable_proc_inv (w : world) (st : pg) (p : proc) :
  pg_wf st -> reachable w st p -> proc_inv p.
Proof.
  intros Hwf Hr. induction Hr as [|p p' _ IH Hs]; [|by apply (step_inv w p)].
  unfold proc_inv, exit_logged. cbn. split_and!; try done; try (intros; congruence).
  split; [intros ?%elem_of_nil; done | intros [|]; discriminate].
Qed.

Lemma Ping_parse_error (w : world) (e : pq_error) :
  parseOpts (dsn (w_cfg w)) = inr e -> Ping w = Some (PingParse e).
Proof. intros H. unfold Ping. by rewrite H. Qed.

Lemma before_serving_step (w : world) (e : pq_error) (p p' : proc) :
  parseOpts (dsn (w_cfg w)) = inr e -> before_serving e p -> step w p p' ->
  before_serving e p' /\ (start_rank p' < start_rank p)%nat.
Proof.
  intros He%Ping_parse_error (Hc & Hp) Hs. unfold before_serving, start_rank.
  destruct Hp as [Hp | [Hp | [Hp _]]]; inv_step Hs; unfold accepting, live in *; destruct_or?; try congruence;
    cbn [ph]; rewrite ?Hp, ?last_snoc; split_and?; eauto; try lia;
    (do 2 right; split; [done|]; first [left; congruence | right; eexists; reflexivity]).
Qed.

(** C34. Composition of [dsn], lib/pq and [main]: when lib/pq cannot
    read the connection string main.go formats from the configuration,
    every run of the process is finite, never reaches the server, and
    ends with status 1 after logging the ping's parse error (or the
    error of [sql.Open], which comes first), with the pool never
    closed. *)
Theorem bad_dsn_never_serves (w : world) (st : pg) (e : pq_error) :
  parseOpts (dsn (w_cfg w)) = inr e ->
  halts w (init_proc st) /\
  forall p, reachable w st p ->
    db_closed p = false /\
    (ph p = PStart \/ ph p = POpened \/
     (ph p = PExited 1 /\
      (last (plog p) = Some (LFatal (FatalPing (PingParse e))) \/
       exists m, last (plog p) = Some (LFatal (FatalOpen m))))).
Proof.
  intros He. assert (Hi : before_serving e (init_proc st)) by (split; [done|by left]). split.
  - revert Hi. apply (halts_by_rank w _ start_rank). intros p p'. by apply before_serving_step.
  - intros p Hr. induction Hr as [|p p' _ IH Hs]; [done|].
    by apply (before_serving_step w e p p' He IH Hs).
Qed.

Lemma no_requests_step (w : world) (p p' : proc) :
  no_requests w p -> step w p p' -> no_requests w p' /\ (run_rank p' < run_rank p)%nat.
Proof.
  intros Hp Hs. unfold no_requests, run_rank in *.
  inv_step Hs; unfold accepting, live in *; destruct_or?;
    repeat match goal with H : ph _ = _ |- _ => rewrite H in * end;
    destruct_or?; try congruence; (split; [naive_solver|]); rank_tac.
Qed.

Lemma halts_step (w : world) (p p' : proc) : halts w p -> step w p p' -> halts w p'.
Proof. intros [H] Hs. exact (H p' Hs). Qed.

(** A request for the witnesses and for the runs that never end. *)
Definition get_collection : req := mkReq sample_id "GET" "/subscriptions" [] (Err (ErrJSON "EOF")).

(** A listening server with a working listener accepts requests for as
    long as no signal comes. *)
Lemma serving_forever (w : world) (p : proc) :
  w_listen w = None -> ph p = PServing -> gor p = GListening -> ~ halts w p.
Proof.
  intros Hl Hp Hg Hh. revert Hp Hg. induction Hh as [p _ IH]. intros Hp Hg.
  apply (IH _ (s_accept w p get_collection (or_introl Hp) Hg Hl)); [exact Hp | reflexivity].
Qed.

(** C36. Termination of [main] without a signal: every run from the
    start is finite exactly when [sql.Open], the ping or the listener
    fails; otherwise the server can accept requests forever. *)
Theorem main_halts_iff (w : world) (st : pg) :
  halts w (init_proc st) <-> w_open w <> None \/ Ping w <> None \/ w_listen w <> None.
Proof.
  split.
  - intros Hh. destruct (w_open w) eqn:Ho; [left; congruence|].
    destruct (Ping w) eqn:Hpg; [right; left; congruence|].
    destruct (w_listen w) eqn:Hl; [right; right; congruence|]. exfalso.
    apply (serving_forever w (mkProc PServing GListening [LStarting] false st [] []) Hl eq_refl eq_refl).
    apply (halts_step w (mkProc PServing GStarted [] false st [] [])); [|by apply s_listen; [left|]].
    apply (halts_step w (mkProc POpened GIdle [] false st [] [])); [|by apply s_ping_ok].
    apply (halts_step w (init_proc st)); [done|by apply s_open_ok].
  - intros H. apply (halts_by_rank w (no_requests w) run_rank); [apply no_requests_step|].
    unfold no_requests. cbn. tauto.
Qed.

(** ** Witnesses *)

(** A world where every call succeeds. *)
Definition world_ok (cfg : Config) : world := mkWorld cfg None (fun _ => None) None None.

Lemma shutdown_exits_witness :
  let p := mkProc PDraining GListening [LStarting; LShuttingDown] false empty_pg [(get_collection, None)] [] in
  ph p = PDraining /\ halts (world_ok sample_config) p.
Proof. intros p. split; [reflexivity|]. apply (proj1 (shutdown_exits (world_ok sample_config) p eq_refl)). Defined.

Lemma reachable_proc_inv_witness :
  let w := world_ok sample_config in
  let p := mkProc POpened GIdle [] false empty_pg [] [] in
  pg_wf empty_pg /\ reachable w empty_pg p /\ proc_inv p.
Proof.
  intros w p. assert (Hwf : pg_wf empty_pg) by constructor.
  assert (Hr : reachable w empty_pg p) by (eapply reach_step; [apply reach_start | by apply s_open_ok]).
  split; [done|]. split; [done|]. apply (reachable_proc_inv w empty_pg p Hwf Hr).
Defined.

(** A password with a space: lib/pq reads [b] as a key without [=]. *)
Definition spaced_config : Config := mkConfig "localhost" "5432" "postgres" "a b" "subscriptions".

Lemma bad_dsn_never_serves_witness :
  parseOpts (dsn spaced_config) = inr (MissingEq "b") /\
  halts (world_ok spaced_config) (init_proc empty_pg).
Proof.
  assert (He : parseOpts (dsn (w_cfg (world_ok spaced_config))) = inr (MissingEq "b")) by (vm_compute; reflexivity).
  split; [exact He|]. apply (proj1 (bad_dsn_never_serves (world_ok spaced_config) empty_pg _ He)).
Defined.
